(** * Zentry Cloud: the storage-layer ledger and VM bookkeeping

    A shallow embedding of the PostgreSQL schema of
    [backend/migrations/001_initial_schema.sql] and
    [backend/migrations/002_add_indexes_and_constraints.sql] (tables, column
    types, defaults, CHECK constraints and the three trigger functions), of
    the billing and VM widgets of the dashboard components, and of the
    lifecycle orchestrator that the specification describes on top of them.
    The definitions then go on to the rest of the schema (the audit and
    monitoring migration, DELETE with the ON DELETE actions of the foreign
    keys, the materialized view [user_stats]), to the API client of the
    frontend, to the state of the dashboards and to the pricing calculator.

    Conventions.
    - A [DECIMAL(p,s)] value is the integer number of units of [10^-s]:
      [credits = 50.00] is [5000], [cost_per_hour = 0.05] is [500]
      (scale 4) and a billing [amount] of [0.0165] is [165] (scale 4).
    - A nullable column is an [option]; [None] is SQL [NULL].
    - A string is a sequence of one-byte characters; [VARCHAR(n)] counts
      them.
    - A [TIMESTAMP WITH TIME ZONE] is a number of seconds (counted from
      2000-01-01 00:00:00 UTC where the range of the type matters); every
      statement takes the transaction's [CURRENT_TIMESTAMP] as [now].
    - A statement returns [Ok] with the new database or [Err] with the SQL
      error that aborts it; an aborted statement changes nothing.
    - The statements of [statement] never delete a row; DELETE enters with
      the commands over the whole schema.
    - The numbers of the pricing calculator are IEEE 754 doubles, primitive
      [float]s; the ids and page numbers of the dashboards are integers. *)

From Stdlib Require Import ZArith Lia List Bool String Ascii.
From Stdlib Require Floats.
From stdpp Require Import base option gmap strings list pretty.

Local Open Scope string_scope.
Local Open Scope Z_scope.

(** ** SQL errors and the result monad *)

Inductive sql_error :=
| numeric_value_out_of_range
| string_data_right_truncation
| check_violation (constraint : string)
| not_null_violation (column_name : string)
| unique_violation (constraint : string)
| foreign_key_violation (constraint : string)
| datetime_field_overflow.

Inductive result (A : Type) :=
| Ok (a : A)
| Err (e : sql_error).
Arguments Ok {A} a.
Arguments Err {A} e.

#[global] Instance result_ret : MRet result := fun A a => Ok a.
#[global] Instance result_bind : MBind result :=
  fun A B f m => match m with Ok a => f a | Err e => Err e end.
#[global] Instance result_fmap : FMap result :=
  fun A B f m => match m with Ok a => Ok (f a) | Err e => Err e end.

Definition is_Ok {A} (m : result A) : bool :=
  match m with Ok _ => true | Err _ => false end.

(** ** Column types *)

Definition uuid := N.
Definition timestamptz := Z.

(** A [numeric] value [unscaled * 10^-scale]. *)
Record numeric := { unscaled : Z; scale : Z }.

Definition column (s : Z) (v : Z) : numeric := {| unscaled := v; scale := s |}.

Definition numeric_add (a b : numeric) : numeric :=
  let s := Z.max (scale a) (scale b) in
  {| unscaled := unscaled a * 10 ^ (s - scale a) + unscaled b * 10 ^ (s - scale b);
     scale := s |}.

Definition numeric_mul (a b : numeric) : numeric :=
  {| unscaled := unscaled a * unscaled b; scale := scale a + scale b |}.

(** PostgreSQL rounds a [numeric] to fewer fractional digits half away from
    zero; [d] is the power of ten that is dropped. *)
Definition round_half_away (x d : Z) : Z :=
  if 0 <=? x then (2 * x + d) / (2 * d) else - ((2 * - x + d) / (2 * d)).

Definition rescale (s : Z) (n : numeric) : Z :=
  let d := scale n - s in
  if 0 <=? d then round_half_away (unscaled n) (10 ^ d)
  else unscaled n * 10 ^ (- d).

(** Storing a value into a [DECIMAL(p,s)] column: rounded to [s] fractional
    digits, then refused when more than [p] digits remain. The result is
    the stored integer, in units of [10^-s]. *)
Definition numeric_cast (p s : Z) (n : numeric) : result Z :=
  let v := rescale s n in
  if Z.abs v <? 10 ^ p then Ok v else Err numeric_value_out_of_range.

Definition numeric_cast_null (p s : Z) (n : option numeric) : result (option Z) :=
  match n with
  | None => Ok None
  | Some v => Some <$> numeric_cast p s v
  end.

Fixpoint all_spaces (s : string) : bool :=
  match s with
  | EmptyString => true
  | String c rest => Ascii.eqb c " "%char && all_spaces rest
  end.

(** [VARCHAR(n)]: a longer string is an error unless only spaces are cut. *)
Definition varchar (n : nat) (s : string) : result string :=
  if (String.length s <=? n)%nat then Ok s
  else if all_spaces (substring n (String.length s - n) s)
       then Ok (substring 0 n s)
       else Err string_data_right_truncation.

(** A CHECK constraint passes when its expression is true or NULL. *)
Definition check (constraint : string) (cond : option bool) : result unit :=
  match cond with
  | Some false => Err (check_violation constraint)
  | _ => Ok tt
  end.

(** A column of an INSERT: left out (its DEFAULT applies) or given. *)
Inductive insert_value (A : Type) :=
| DEFAULT
| VALUE (v : A).
Arguments DEFAULT {A}.
Arguments VALUE {A} v.

Definition or_default {A} (d : A) (x : insert_value A) : A :=
  match x with DEFAULT => d | VALUE v => v end.

(** A column of an UPDATE's SET list: absent, or an expression over the
    old row. An assigned value is cast to the column's type; a column that
    is not assigned keeps its stored value. *)
Definition assign {R A} (old : R) (current : A) (e : option (R -> A)) : A :=
  match e with None => current | Some f => f old end.

Definition assign_cast {R A B} (cast : A -> result B) (old : R) (current : B)
    (e : option (R -> A)) : result B :=
  match e with None => Ok current | Some f => cast (f old) end.

(** ** Tables *)

(** [users]; [credits] and [total_spent] are [DECIMAL(10,2)].
    [backend/supabase_schema.sql] declares the same table without
    [total_spent], [is_active] and [last_login], and with the same default
    for [credits]. *)
Record users_row := {
  users_email : string;
  users_name : string;
  users_hashed_password : string;
  users_credits : option Z;
  users_total_spent : option Z;
  users_is_active : option bool;
  users_created_at : option timestamptz;
  users_updated_at : option timestamptz;
  users_last_login : option timestamptz }.

Record projects_row := {
  projects_name : string;
  projects_description : option string;
  projects_user_id : uuid;
  projects_created_at : option timestamptz;
  projects_updated_at : option timestamptz }.

(** [vms]; [cost_per_hour] is [DECIMAL(6,4) NOT NULL] (an option because
    the row a BEFORE trigger sees may still hold NULL), [uptime_hours] and
    [total_cost] are [DECIMAL(10,2)]. *)
Record vms_row := {
  vms_name : string;
  vms_instance_type : string;
  vms_image : string;
  vms_status : string;
  vms_ip_address : option string;
  vms_user_id : uuid;
  vms_project_id : uuid;
  vms_cost_per_hour : option Z;
  vms_uptime_hours : option Z;
  vms_total_cost : option Z;
  vms_created_at : option timestamptz;
  vms_updated_at : option timestamptz;
  vms_last_started : option timestamptz;
  vms_last_stopped : option timestamptz }.

(** [billing_records]; [amount] is [DECIMAL(10,4) NOT NULL]. *)
Record billing_records_row := {
  billing_id : uuid;
  billing_user_id : uuid;
  billing_vm_id : option uuid;
  billing_action_type : string;
  billing_amount : Z;
  billing_description : option string;
  billing_created_at : option timestamptz }.

(** The database; [billing_records] is kept in insertion order, newest
    last. *)
Record database := {
  users : gmap uuid users_row;
  projects : gmap uuid projects_row;
  vms : gmap uuid vms_row;
  billing_records : list billing_records_row }.

Definition empty_database : database :=
  {| users := ∅; projects := ∅; vms := ∅; billing_records := [] |}.

Definition with_users (m : gmap uuid users_row) (db : database) : database :=
  {| users := m; projects := projects db; vms := vms db;
     billing_records := billing_records db |}.

Definition with_projects (m : gmap uuid projects_row) (db : database) : database :=
  {| users := users db; projects := m; vms := vms db;
     billing_records := billing_records db |}.

Definition with_vms (m : gmap uuid vms_row) (db : database) : database :=
  {| users := users db; projects := projects db; vms := m;
     billing_records := billing_records db |}.

Definition with_billing_records (l : list billing_records_row) (db : database) : database :=
  {| users := users db; projects := projects db; vms := vms db;
     billing_records := l |}.

(** ** Trigger functions of [001_initial_schema.sql] *)

Inductive trigger_op := INSERT | UPDATE | DELETE.

Class HasUpdatedAt (R : Type) := set_updated_at : option timestamptz -> R -> R.

#[global] Instance users_set_updated_at : HasUpdatedAt users_row := fun t r =>
  {| users_email := users_email r; users_name := users_name r;
     users_hashed_password := users_hashed_password r;
     users_credits := users_credits r; users_total_spent := users_total_spent r;
     users_is_active := users_is_active r; users_created_at := users_created_at r;
     users_updated_at := t; users_last_login := users_last_login r |}.

#[global] Instance projects_set_updated_at : HasUpdatedAt projects_row := fun t r =>
  {| projects_name := projects_name r; projects_description := projects_description r;
     projects_user_id := projects_user_id r; projects_created_at := projects_created_at r;
     projects_updated_at := t |}.

#[global] Instance vms_set_updated_at : HasUpdatedAt vms_row := fun t r =>
  {| vms_name := vms_name r; vms_instance_type := vms_instance_type r;
     vms_image := vms_image r; vms_status := vms_status r;
     vms_ip_address := vms_ip_address r; vms_user_id := vms_user_id r;
     vms_project_id := vms_project_id r; vms_cost_per_hour := vms_cost_per_hour r;
     vms_uptime_hours := vms_uptime_hours r; vms_total_cost := vms_total_cost r;
     vms_created_at := vms_created_at r; vms_updated_at := t;
     vms_last_started := vms_last_started r; vms_last_stopped := vms_last_stopped r |}.

(** [update_updated_at_column]: [NEW.updated_at = CURRENT_TIMESTAMP]. *)
Definition update_updated_at_column {R} `{HasUpdatedAt R}
    (now : timestamptz) (NEW : R) : R :=
  set_updated_at (Some now) NEW.

(** ** [users] *)

(** The VALUES of an [INSERT INTO users]. The NOT NULL columns without a
    default are always given; [id] is the given or generated key. *)
Record users_insert := {
  insert_users_id : uuid;
  insert_users_email : string;
  insert_users_name : string;
  insert_users_hashed_password : string;
  insert_users_credits : insert_value (option numeric);
  insert_users_total_spent : insert_value (option numeric);
  insert_users_is_active : insert_value (option bool);
  insert_users_created_at : insert_value (option timestamptz);
  insert_users_updated_at : insert_value (option timestamptz);
  insert_users_last_login : option timestamptz }.

(** The SET list of an [UPDATE users]; [updated_at] is left out because
    the BEFORE UPDATE trigger overwrites it, [id] and [created_at] because
    nothing assigns them. *)
Record users_set := {
  set_users_email : option (users_row -> string);
  set_users_name : option (users_row -> string);
  set_users_hashed_password : option (users_row -> string);
  set_users_credits : option (users_row -> option numeric);
  set_users_total_spent : option (users_row -> option numeric);
  set_users_is_active : option (users_row -> option bool);
  set_users_last_login : option (users_row -> option timestamptz) }.

(** [chk_users_credits_positive] and [chk_users_total_spent_positive]. *)
Definition users_constraints (r : users_row) : result unit :=
  check "chk_users_credits_positive" (Z.leb 0 <$> users_credits r) ;;
  check "chk_users_total_spent_positive" (Z.leb 0 <$> users_total_spent r).

(** [email VARCHAR(255) UNIQUE]: another row holds the address. *)
Definition email_taken (email : string) (except : option uuid) (m : gmap uuid users_row) : bool :=
  existsb (fun kr => negb (bool_decide (Some (fst kr) = except))
                     && String.eqb (users_email (snd kr)) email)
          (map_to_list m).

(** The row an [INSERT INTO users] stores: defaults, casts to the column
    types, then the CHECK constraints. *)
Definition users_inserted_row (now : timestamptz) (ins : users_insert)
    : result users_row :=
  email ← varchar 255 (insert_users_email ins) ;
  name ← varchar 100 (insert_users_name ins) ;
  hashed_password ← varchar 255 (insert_users_hashed_password ins) ;
  credits ← numeric_cast_null 10 2
    (or_default (Some {| unscaled := 5000; scale := 2 |}) (insert_users_credits ins)) ;
  total_spent ← numeric_cast_null 10 2
    (or_default (Some {| unscaled := 0; scale := 2 |}) (insert_users_total_spent ins)) ;
  let row :=
    {| users_email := email; users_name := name;
       users_hashed_password := hashed_password;
       users_credits := credits; users_total_spent := total_spent;
       users_is_active := or_default (Some true) (insert_users_is_active ins);
       users_created_at := or_default (Some now) (insert_users_created_at ins);
       users_updated_at := or_default (Some now) (insert_users_updated_at ins);
       users_last_login := insert_users_last_login ins |} in
  users_constraints row ;;
  Ok row.

(** [INSERT INTO users]: the row, then the primary key and the unique
    index. *)
Definition insert_users (now : timestamptz) (ins : users_insert) (db : database)
    : result database :=
  row ← users_inserted_row now ins ;
  if bool_decide (is_Some (users db !! insert_users_id ins))
  then Err (unique_violation "users_pkey")
  else if email_taken (users_email row) None (users db)
  then Err (unique_violation "users_email_key")
  else Ok (with_users (<[insert_users_id ins := row]> (users db)) db).

(** The row an [UPDATE users] stores in place of [old]: the SET list, the
    BEFORE UPDATE trigger [update_users_updated_at], then the CHECK
    constraints. *)
Definition users_updated_row (now : timestamptz) (set : users_set) (old : users_row)
    : result users_row :=
  email ← assign_cast (varchar 255) old (users_email old) (set_users_email set) ;
  name ← assign_cast (varchar 100) old (users_name old) (set_users_name set) ;
  hashed_password ← assign_cast (varchar 255) old (users_hashed_password old)
    (set_users_hashed_password set) ;
  credits ← assign_cast (numeric_cast_null 10 2) old (users_credits old)
    (set_users_credits set) ;
  total_spent ← assign_cast (numeric_cast_null 10 2) old (users_total_spent old)
    (set_users_total_spent set) ;
  let row := update_updated_at_column now
    {| users_email := email; users_name := name;
       users_hashed_password := hashed_password;
       users_credits := credits; users_total_spent := total_spent;
       users_is_active := assign old (users_is_active old) (set_users_is_active set);
       users_created_at := users_created_at old;
       users_updated_at := users_updated_at old;
       users_last_login := assign old (users_last_login old) (set_users_last_login set) |} in
  users_constraints row ;;
  Ok row.

(** [UPDATE users SET ... WHERE id = id]; no row, no change. *)
Definition update_users (now : timestamptz) (id : uuid) (set : users_set)
    (db : database) : result database :=
  match users db !! id with
  | None => Ok db
  | Some old =>
      row ← users_updated_row now set old ;
      if email_taken (users_email row) (Some id) (users db)
      then Err (unique_violation "users_email_key")
      else Ok (with_users (<[id := row]> (users db)) db)
  end.

(** ** [billing_records] and [update_user_spending] *)

(** The VALUES of an [INSERT INTO billing_records]. *)
Record billing_records_insert := {
  insert_billing_id : uuid;
  insert_billing_user_id : uuid;
  insert_billing_vm_id : option uuid;
  insert_billing_action_type : string;
  insert_billing_amount : numeric;
  insert_billing_description : option string;
  insert_billing_created_at : insert_value (option timestamptz) }.

(** The SET list of the UPDATE in [update_user_spending]:
    [SET total_spent = total_spent + NEW.amount]. *)
Definition spending_update (NEW : billing_records_row) : users_set :=
  {| set_users_email := None; set_users_name := None;
     set_users_hashed_password := None; set_users_credits := None;
     set_users_total_spent := Some (fun old =>
       (fun total_spent =>
          numeric_add (column 2 total_spent) (column 4 (billing_amount NEW)))
       <$> users_total_spent old);
     set_users_is_active := None; set_users_last_login := None |}.

(** [update_user_spending], the AFTER INSERT trigger of [billing_records]:
    [IF TG_OP = 'INSERT' AND NEW.amount > 0 THEN
       UPDATE users SET total_spent = total_spent + NEW.amount
       WHERE id = NEW.user_id]. *)
Definition update_user_spending (now : timestamptz) (TG_OP : trigger_op)
    (NEW : billing_records_row) (db : database) : result database :=
  match TG_OP with
  | INSERT =>
      if 0 <? billing_amount NEW
      then update_users now (billing_user_id NEW) (spending_update NEW) db
      else Ok db
  | _ => Ok db
  end.

(** The row an [INSERT INTO billing_records] stores. *)
Definition billing_inserted_row (now : timestamptz) (ins : billing_records_insert)
    : result billing_records_row :=
  action_type ← varchar 50 (insert_billing_action_type ins) ;
  amount ← numeric_cast 10 4 (insert_billing_amount ins) ;
  check "chk_billing_amount_not_zero" (Some (negb (amount =? 0))) ;;
  Ok {| billing_id := insert_billing_id ins;
        billing_user_id := insert_billing_user_id ins;
        billing_vm_id := insert_billing_vm_id ins;
        billing_action_type := action_type;
        billing_amount := amount;
        billing_description := insert_billing_description ins;
        billing_created_at := or_default (Some now) (insert_billing_created_at ins) |}.

(** [INSERT INTO billing_records]: the row, the primary key, the foreign
    keys, then the AFTER INSERT trigger [update_user_spending_trigger]; an
    error of the trigger aborts the INSERT. *)
Definition insert_billing_records (now : timestamptz) (ins : billing_records_insert)
    (db : database) : result database :=
  row ← billing_inserted_row now ins ;
  if existsb (fun r => N.eqb (billing_id r) (billing_id row)) (billing_records db)
  then Err (unique_violation "billing_records_pkey")
  else if negb (bool_decide (is_Some (users db !! billing_user_id row)))
  then Err (foreign_key_violation "billing_records_user_id_fkey")
  else if negb (from_option (fun v => bool_decide (is_Some (vms db !! v))) true (billing_vm_id row))
  then Err (foreign_key_violation "billing_records_vm_id_fkey")
  else update_user_spending now INSERT row
         (with_billing_records (billing_records db ++ [row]) db).

(** ** [projects] *)

(** The VALUES of an [INSERT INTO projects]. *)
Record projects_insert := {
  insert_projects_id : uuid;
  insert_projects_name : string;
  insert_projects_description : option string;
  insert_projects_user_id : uuid;
  insert_projects_created_at : insert_value (option timestamptz);
  insert_projects_updated_at : insert_value (option timestamptz) }.

Definition insert_projects (now : timestamptz) (ins : projects_insert) (db : database)
    : result database :=
  name ← varchar 100 (insert_projects_name ins) ;
  let row :=
    {| projects_name := name;
       projects_description := insert_projects_description ins;
       projects_user_id := insert_projects_user_id ins;
       projects_created_at := or_default (Some now) (insert_projects_created_at ins);
       projects_updated_at := or_default (Some now) (insert_projects_updated_at ins) |} in
  if bool_decide (is_Some (projects db !! insert_projects_id ins))
  then Err (unique_violation "projects_pkey")
  else if negb (bool_decide (is_Some (users db !! projects_user_id row)))
  then Err (foreign_key_violation "projects_user_id_fkey")
  else Ok (with_projects (<[insert_projects_id ins := row]> (projects db)) db).

(** ** [vms] and [update_vm_costs] *)

(** The CASE expression of [update_vm_costs]; the literals have scale 2. *)
Definition instance_type_rate (instance_type : string) : numeric :=
  if String.eqb instance_type "small" then {| unscaled := 5; scale := 2 |}
  else if String.eqb instance_type "medium" then {| unscaled := 10; scale := 2 |}
  else if String.eqb instance_type "large" then {| unscaled := 20; scale := 2 |}
  else if String.eqb instance_type "xlarge" then {| unscaled := 40; scale := 2 |}
  else {| unscaled := 5; scale := 2 |}.

(** [update_vm_costs], the BEFORE INSERT OR UPDATE trigger of [vms]:
    [NEW.cost_per_hour = CASE NEW.instance_type ... END;
     NEW.total_cost = NEW.uptime_hours * NEW.cost_per_hour]. Each assignment
    casts to the column's type. *)
Definition update_vm_costs (NEW : vms_row) : result vms_row :=
  cost_per_hour ← numeric_cast 6 4 (instance_type_rate (vms_instance_type NEW)) ;
  total_cost ← numeric_cast_null 10 2
    ((fun uptime_hours => numeric_mul (column 2 uptime_hours) (column 4 cost_per_hour))
     <$> vms_uptime_hours NEW) ;
  Ok {| vms_name := vms_name NEW; vms_instance_type := vms_instance_type NEW;
        vms_image := vms_image NEW; vms_status := vms_status NEW;
        vms_ip_address := vms_ip_address NEW; vms_user_id := vms_user_id NEW;
        vms_project_id := vms_project_id NEW;
        vms_cost_per_hour := Some cost_per_hour;
        vms_uptime_hours := vms_uptime_hours NEW;
        vms_total_cost := total_cost;
        vms_created_at := vms_created_at NEW; vms_updated_at := vms_updated_at NEW;
        vms_last_started := vms_last_started NEW;
        vms_last_stopped := vms_last_stopped NEW |}.

Definition instance_types : list string := ["small"; "medium"; "large"; "xlarge"].

Definition statuses : list string :=
  ["creating"; "running"; "stopped"; "terminated"; "error"].

Definition not_null {A} (column_name : string) (v : option A) : result unit :=
  match v with
  | None => Err (not_null_violation column_name)
  | Some _ => Ok tt
  end.

(** NOT NULL and the CHECK constraints of [vms], in the order PostgreSQL
    evaluates them (NOT NULL first, then CHECKs by name). *)
Definition vms_constraints (r : vms_row) : result unit :=
  not_null "cost_per_hour" (vms_cost_per_hour r) ;;
  check "chk_vms_cost_per_hour_positive" (Z.ltb 0 <$> vms_cost_per_hour r) ;;
  check "chk_vms_total_cost_positive" (Z.leb 0 <$> vms_total_cost r) ;;
  check "chk_vms_uptime_positive" (Z.leb 0 <$> vms_uptime_hours r) ;;
  check "vms_instance_type_check"
    (Some (existsb (String.eqb (vms_instance_type r)) instance_types)) ;;
  check "vms_status_check" (Some (existsb (String.eqb (vms_status r)) statuses)).

Definition vms_foreign_keys (r : vms_row) (db : database) : result unit :=
  if negb (bool_decide (is_Some (users db !! vms_user_id r)))
  then Err (foreign_key_violation "vms_user_id_fkey")
  else if negb (bool_decide (is_Some (projects db !! vms_project_id r)))
  then Err (foreign_key_violation "vms_project_id_fkey")
  else Ok tt.

Record vms_insert := {
  insert_vms_id : uuid;
  insert_vms_name : string;
  insert_vms_instance_type : string;
  insert_vms_image : string;
  insert_vms_status : insert_value string;
  insert_vms_ip_address : option string;
  insert_vms_user_id : uuid;
  insert_vms_project_id : uuid;
  insert_vms_cost_per_hour : insert_value (option numeric);
  insert_vms_uptime_hours : insert_value (option numeric);
  insert_vms_total_cost : insert_value (option numeric);
  insert_vms_created_at : insert_value (option timestamptz);
  insert_vms_updated_at : insert_value (option timestamptz);
  insert_vms_last_started : option timestamptz;
  insert_vms_last_stopped : option timestamptz }.

Record vms_set := {
  set_vms_name : option (vms_row -> string);
  set_vms_instance_type : option (vms_row -> string);
  set_vms_image : option (vms_row -> string);
  set_vms_status : option (vms_row -> string);
  set_vms_ip_address : option (vms_row -> option string);
  set_vms_cost_per_hour : option (vms_row -> option numeric);
  set_vms_uptime_hours : option (vms_row -> option numeric);
  set_vms_total_cost : option (vms_row -> option numeric);
  set_vms_last_started : option (vms_row -> option timestamptz);
  set_vms_last_stopped : option (vms_row -> option timestamptz) }.

(** The row an [INSERT INTO vms] stores: defaults and casts, the BEFORE
    INSERT trigger [update_vm_costs_trigger], then the constraints. *)
Definition vms_inserted_row (now : timestamptz) (ins : vms_insert) : result vms_row :=
  name ← varchar 100 (insert_vms_name ins) ;
  instance_type ← varchar 20 (insert_vms_instance_type ins) ;
  image ← varchar 50 (insert_vms_image ins) ;
  status ← varchar 20 (or_default "creating" (insert_vms_status ins)) ;
  cost_per_hour ← numeric_cast_null 6 4
    (or_default (Some {| unscaled := 5; scale := 2 |}) (insert_vms_cost_per_hour ins)) ;
  uptime_hours ← numeric_cast_null 10 2
    (or_default (Some {| unscaled := 0; scale := 2 |}) (insert_vms_uptime_hours ins)) ;
  total_cost ← numeric_cast_null 10 2
    (or_default (Some {| unscaled := 0; scale := 2 |}) (insert_vms_total_cost ins)) ;
  row ← update_vm_costs
    {| vms_name := name; vms_instance_type := instance_type; vms_image := image;
       vms_status := status; vms_ip_address := insert_vms_ip_address ins;
       vms_user_id := insert_vms_user_id ins;
       vms_project_id := insert_vms_project_id ins;
       vms_cost_per_hour := cost_per_hour; vms_uptime_hours := uptime_hours;
       vms_total_cost := total_cost;
       vms_created_at := or_default (Some now) (insert_vms_created_at ins);
       vms_updated_at := or_default (Some now) (insert_vms_updated_at ins);
       vms_last_started := insert_vms_last_started ins;
       vms_last_stopped := insert_vms_last_stopped ins |} ;
  vms_constraints row ;;
  Ok row.

Definition insert_vms (now : timestamptz) (ins : vms_insert) (db : database)
    : result database :=
  row ← vms_inserted_row now ins ;
  if bool_decide (is_Some (vms db !! insert_vms_id ins))
  then Err (unique_violation "vms_pkey")
  else vms_foreign_keys row db ;;
       Ok (with_vms (<[insert_vms_id ins := row]> (vms db)) db).

(** The row an [UPDATE vms] stores in place of [old]. Of the two BEFORE
    UPDATE triggers [update_vm_costs_trigger] fires before
    [update_vms_updated_at] (triggers fire in name order). *)
Definition vms_updated_row (now : timestamptz) (set : vms_set) (old : vms_row)
    : result vms_row :=
  name ← assign_cast (varchar 100) old (vms_name old) (set_vms_name set) ;
  instance_type ← assign_cast (varchar 20) old (vms_instance_type old)
    (set_vms_instance_type set) ;
  image ← assign_cast (varchar 50) old (vms_image old) (set_vms_image set) ;
  status ← assign_cast (varchar 20) old (vms_status old) (set_vms_status set) ;
  cost_per_hour ← assign_cast (numeric_cast_null 6 4) old (vms_cost_per_hour old)
    (set_vms_cost_per_hour set) ;
  uptime_hours ← assign_cast (numeric_cast_null 10 2) old (vms_uptime_hours old)
    (set_vms_uptime_hours set) ;
  total_cost ← assign_cast (numeric_cast_null 10 2) old (vms_total_cost old)
    (set_vms_total_cost set) ;
  row ← update_vm_costs
    {| vms_name := name; vms_instance_type := instance_type; vms_image := image;
       vms_status := status;
       vms_ip_address := assign old (vms_ip_address old) (set_vms_ip_address set);
       vms_user_id := vms_user_id old; vms_project_id := vms_project_id old;
       vms_cost_per_hour := cost_per_hour; vms_uptime_hours := uptime_hours;
       vms_total_cost := total_cost;
       vms_created_at := vms_created_at old; vms_updated_at := vms_updated_at old;
       vms_last_started := assign old (vms_last_started old) (set_vms_last_started set);
       vms_last_stopped := assign old (vms_last_stopped old) (set_vms_last_stopped set) |} ;
  let row := update_updated_at_column now row in
  vms_constraints row ;;
  Ok row.

(** [UPDATE vms SET ... WHERE id = id]; no row, no change. *)
Definition update_vms (now : timestamptz) (id : uuid) (set : vms_set)
    (db : database) : result database :=
  match vms db !! id with
  | None => Ok db
  | Some old =>
      row ← vms_updated_row now set old ;
      Ok (with_vms (<[id := row]> (vms db)) db)
  end.

(** ** Statements and histories *)

Inductive statement :=
| INSERT_INTO_users (ins : users_insert)
| UPDATE_users (id : uuid) (set : users_set)
| INSERT_INTO_projects (ins : projects_insert)
| INSERT_INTO_vms (ins : vms_insert)
| UPDATE_vms (id : uuid) (set : vms_set)
| INSERT_INTO_billing_records (ins : billing_records_insert).

Definition execute (now : timestamptz) (s : statement) (db : database)
    : result database :=
  match s with
  | INSERT_INTO_users ins => insert_users now ins db
  | UPDATE_users id set => update_users now id set db
  | INSERT_INTO_projects ins => insert_projects now ins db
  | INSERT_INTO_vms ins => insert_vms now ins db
  | UPDATE_vms id set => update_vms now id set db
  | INSERT_INTO_billing_records ins => insert_billing_records now ins db
  end.

(** One transaction: every statement succeeds, or nothing is kept. *)
Fixpoint transaction (now : timestamptz) (body : list statement) (db : database)
    : result database :=
  match body with
  | [] => Ok db
  | s :: rest => db' ← execute now s db ; transaction now rest db'
  end.

(** The committed state after a transaction: rolled back on an error. *)
Definition commit (r : result database) (db : database) : database :=
  match r with Ok db' => db' | Err _ => db end.

(** A history: transactions with their timestamps, committed in order. *)
Fixpoint run (history : list (timestamptz * list statement)) (db : database)
    : database :=
  match history with
  | [] => db
  | (now, body) :: rest => run rest (commit (transaction now body db) db)
  end.

(** ** Dashboard components *)

(** [getActionTypeColor] of [BillingDashboard]. *)
Definition getActionTypeColor (actionType : string) : string :=
  if String.eqb actionType "vm_create" then "bg-blue-100 text-blue-800"
  else if String.eqb actionType "vm_usage" then "bg-green-100 text-green-800"
  else if String.eqb actionType "credit_add" then "bg-purple-100 text-purple-800"
  else if String.eqb actionType "credit_deduct" then "bg-red-100 text-red-800"
  else "bg-gray-100 text-gray-800".

(** The action types the history filter of [BillingDashboard] offers. *)
Definition historyFilter_options : list string :=
  ["vm_create"; "vm_usage"; "credit_add"; "credit_deduct"].

Inductive vm_action := start | stop | restart | delete.

(** The buttons [EnhancedDashboard] renders for a VM, each calling
    [handleVMAction] with its action. *)
Definition vm_action_buttons (status : string) : list vm_action :=
  (if String.eqb status "stopped" then [start] else []) ++
  (if String.eqb status "running" then [stop; restart] else []) ++
  (if negb (String.eqb status "terminated") then [delete] else []).

(** [vmPricing] of [PricingCalculator], the literals read as decimals. *)
Definition vmPricing : list (string * numeric) :=
  [("small", {| unscaled := 5; scale := 2 |});
   ("medium", {| unscaled := 10; scale := 2 |});
   ("large", {| unscaled := 20; scale := 2 |});
   ("xlarge", {| unscaled := 40; scale := 2 |})].

(** [vmPricing[vmType]]; [None] is [undefined]. *)
Definition hourlyRate (vmType : string) : option numeric :=
  snd <$> find (fun kv => String.eqb (fst kv) vmType) vmPricing.

(** ** The lifecycle orchestrator

    The services that implement the operations (VM service, billing
    service) are not among the sources; this section models them from §4
    of the specification, each operation as one transaction of the
    statements above, so that the constraints and triggers of the schema
    apply to it. *)

(** Modelled from the spec: the error taxonomy of §7 (the services are
    not among the sources); [NotFound] is the error of the service layer
    for a missing resource and [PersistenceFailure] carries the SQL error
    that rolled the transaction back. *)
Inductive orchestrator_error :=
| InsufficientCredits
| InvalidTransition (current : string)
| InvalidInstanceClass
| InvalidAmount
| NotFound
| PersistenceFailure (e : sql_error).

(** Modelled from the spec: the result of an operation of §4.3, the
    updated state or the rejection. *)
Inductive outcome :=
| Completed (db : database)
| Rejected (e : orchestrator_error).

(** Modelled from the spec: §7, a storage failure rolls back the whole
    transaction and is surfaced. *)
Definition persist (r : result database) : outcome :=
  match r with
  | Ok db => Completed db
  | Err e => Rejected (PersistenceFailure e)
  end.

(** The state table of §4.2 of the specification, on the status names of
    the [vms.status] CHECK. *)
Definition state_table : list (string * string) :=
  [("creating", "running"); ("creating", "error");
   ("running", "stopped"); ("running", "running"); ("running", "terminated");
   ("stopped", "running"); ("stopped", "terminated");
   ("error", "terminated")].

Definition in_table (table : list (string * string)) (from to : string) : bool :=
  existsb (fun p => String.eqb (fst p) from && String.eqb (snd p) to) table.

(** Modelled from the spec: the Cost Model of §4.1 ([rate] and [accrue];
    the services that compute charges are not among the sources). [rate]
    is the fixed table and fails on an unknown class; [accrue] is
    [rate * elapsed_hours] rounded half up to the currency precision of two
    decimals. [rate] is in units of [10^-4], [elapsed] in seconds, the cost
    in hundredths. *)
Definition rate (instance_class : string) : option Z :=
  if existsb (String.eqb instance_class) instance_types
  then Some (rescale 4 (instance_type_rate instance_class))
  else None.

(** Modelled from the spec: [accrue] of §4.1, see [rate]. *)
Definition accrue (hourly_rate elapsed : Z) : Z :=
  round_half_away (hourly_rate * elapsed) (3600 * 100).

(** Modelled from the spec: the Ledger posting of §4.3 (the billing service
    is not among the sources): the balance is debited and the entry appended
    in one transaction. Charges are posted with a positive amount, which is
    what [update_user_spending] counts as spending; a charge of zero posts
    nothing, since [chk_billing_amount_not_zero] admits no such entry. *)
Definition post_debit (entry_id account : uuid) (vm : option uuid) (reason : string)
    (charge : Z) : list statement :=
  if charge =? 0 then [] else
  [UPDATE_users account
     {| set_users_email := None; set_users_name := None;
        set_users_hashed_password := None;
        set_users_credits := Some (fun old =>
          (fun credits => column 2 (credits - charge)) <$> users_credits old);
        set_users_total_spent := None; set_users_is_active := None;
        set_users_last_login := None |};
   INSERT_INTO_billing_records
     {| insert_billing_id := entry_id; insert_billing_user_id := account;
        insert_billing_vm_id := vm; insert_billing_action_type := reason;
        insert_billing_amount := column 2 charge;
        insert_billing_description := None;
        insert_billing_created_at := DEFAULT |}].

(** Modelled from the spec: a transition of §4.2 as the SET list of one
    UPDATE of the VM (the VM service is not among the sources): the new
    status, the session clock (column [last_started]) and the elapsed
    session time, in seconds, added to the uptime in hours. *)
Definition set_status (status : string) (session_started_at : option timestamptz)
    (elapsed : Z) : vms_set :=
  {| set_vms_name := None; set_vms_instance_type := None; set_vms_image := None;
     set_vms_status := Some (fun _ => status); set_vms_ip_address := None;
     set_vms_cost_per_hour := None;
     set_vms_uptime_hours := Some (fun old =>
       (fun uptime => numeric_add (column 2 uptime)
                        (column 2 (round_half_away (elapsed * 100) 3600)))
       <$> vms_uptime_hours old);
     set_vms_total_cost := None;
     set_vms_last_started := Some (fun _ => session_started_at);
     set_vms_last_stopped := None |}.

(** The balance of an account: its [credits], if the account exists. *)
Definition balance (account : uuid) (db : database) : option Z :=
  users db !! account ≫= users_credits.

(** Modelled from the spec: the session of §4.2 (the VM service is not
    among the sources): [elapsed = now - session_started_at], the session
    clock being the column [last_started], and the charge the Cost Model
    accrues for it at the VM's hourly cost. *)
Definition session_elapsed (now : timestamptz) (vm : vms_row) : Z :=
  now - default now (vms_last_started vm).

(** Modelled from the spec: the session charge of §4.2, see
    [session_elapsed]. *)
Definition session_charge (now : timestamptz) (vm : vms_row) : Z :=
  accrue (default 0 (vms_cost_per_hour vm)) (session_elapsed now vm).

(** Modelled from the spec: the debit that [stopVM] of §4.3 posts (the VM
    and billing services are not among the sources). It is the session
    charge; where that debit would drive the balance negative the stop
    still succeeds, and since the schema holds no negative [credits]
    ([chk_users_credits_positive]) the debit is then the part of the charge
    that the balance covers: it leaves the balance at zero, where §4.3
    denies [startVM] and [createVM]. *)
Definition session_debit (now : timestamptz) (vm : vms_row) (db : database) : Z :=
  let charge := session_charge now vm in
  match balance (vms_user_id vm) db with
  | Some credits => if credits - charge <? 0 then credits else charge
  | None => charge
  end.

(** Modelled from the spec: [stopVM] of §4.3 (the VM service is not among
    the sources). Requires Running; the session charge is accrued from
    [session_started_at] (column [last_started]) and posted as a [vm_usage]
    debit (see [session_debit]: stopping is never blocked by billing), the
    elapsed time added to the uptime, the session clock cleared and the VM
    moved to Stopped, all in one transaction against the schema. *)
Definition stopVM (now : timestamptz) (entry_id vm_id : uuid) (db : database)
    : outcome :=
  match vms db !! vm_id with
  | None => Rejected NotFound
  | Some vm =>
      if negb (String.eqb (vms_status vm) "running")
      then Rejected (InvalidTransition (vms_status vm))
      else
        persist (transaction now
          (post_debit entry_id (vms_user_id vm) (Some vm_id) "vm_usage"
             (session_debit now vm db)
           ++ [UPDATE_vms vm_id (set_status "stopped" None (session_elapsed now vm))]) db)
  end.

(** Modelled from the spec: [startVM] of §4.3. Requires Stopped and a
    positive balance; moves to Running and starts the session clock. *)
Definition startVM (now : timestamptz) (vm_id : uuid) (db : database) : outcome :=
  match vms db !! vm_id with
  | None => Rejected NotFound
  | Some vm =>
      if negb (String.eqb (vms_status vm) "stopped")
      then Rejected (InvalidTransition (vms_status vm))
      else if negb (default false (Z.ltb 0 <$> balance (vms_user_id vm) db))
      then Rejected InsufficientCredits
      else persist (transaction now
             [UPDATE_vms vm_id (set_status "running" (Some now) 0)] db)
  end.

(** Modelled from the spec: [restartVM] of §4.3, [stopVM] then [startVM]
    as one operation. *)
Definition restartVM (now : timestamptz) (entry_id vm_id : uuid) (db : database)
    : outcome :=
  match stopVM now entry_id vm_id db with
  | Completed db' => startVM now vm_id db'
  | Rejected e => Rejected e
  end.

(** Modelled from the spec: [deleteVM] of §4.3, allowed from any
    non-Terminated state; a Running VM is charged for its session first. *)
Definition deleteVM (now : timestamptz) (entry_id vm_id : uuid) (db : database)
    : outcome :=
  match vms db !! vm_id with
  | None => Rejected NotFound
  | Some vm =>
      if String.eqb (vms_status vm) "terminated"
      then Rejected (InvalidTransition (vms_status vm))
      else
        let terminate db' :=
          persist (transaction now
            [UPDATE_vms vm_id (set_status "terminated" None 0)] db') in
        if String.eqb (vms_status vm) "running"
        then match stopVM now entry_id vm_id db with
             | Completed db' => terminate db'
             | Rejected e => Rejected e
             end
        else terminate db
  end.

(** Modelled from the spec: the arguments of [createVM] of §4.3, with the
    nominal charge of the [vm_create] entry and the answer of the
    provisioner. *)
Record create_request := {
  create_id : uuid;
  create_name : string;
  create_instance_class : string;
  create_image : string;
  create_project : uuid;
  create_account : uuid;
  create_charge : Z;
  create_provisioned : bool }.

(** Modelled from the spec: [createVM] of §4.3. The class must be known and
    the balance at least [minimum_reserve]; the VM is created in Creating,
    the [vm_create] entry posted, and the VM moved to Running with its
    session clock started (or to Error when provisioning fails). *)
Definition createVM (minimum_reserve : Z) (now : timestamptz) (entry_id : uuid)
    (req : create_request) (db : database) : outcome :=
  match rate (create_instance_class req) with
  | None => Rejected InvalidInstanceClass
  | Some _ =>
      if negb (default false
                 (Z.leb minimum_reserve <$> balance (create_account req) db))
      then Rejected InsufficientCredits
      else persist (transaction now
        ([INSERT_INTO_vms
            {| insert_vms_id := create_id req; insert_vms_name := create_name req;
               insert_vms_instance_type := create_instance_class req;
               insert_vms_image := create_image req;
               insert_vms_status := VALUE "creating";
               insert_vms_ip_address := None;
               insert_vms_user_id := create_account req;
               insert_vms_project_id := create_project req;
               insert_vms_cost_per_hour := DEFAULT;
               insert_vms_uptime_hours := DEFAULT;
               insert_vms_total_cost := DEFAULT;
               insert_vms_created_at := DEFAULT;
               insert_vms_updated_at := DEFAULT;
               insert_vms_last_started := None;
               insert_vms_last_stopped := None |}]
         ++ post_debit entry_id (create_account req) (Some (create_id req))
              "vm_create" (create_charge req)
         ++ [UPDATE_vms (create_id req)
               (if create_provisioned req
                then set_status "running" (Some now) 0
                else set_status "error" None 0)]) db)
  end.

(** Modelled from the spec: the posting of [addCredits] of §4.3 (the
    billing service is not among the sources). The amount, in hundredths,
    must be positive; the balance is credited and a [credit_add] entry of
    that amount appended in one transaction. *)
Definition post_credit (entry_id account : uuid) (amount : Z) : list statement :=
  [UPDATE_users account
     {| set_users_email := None; set_users_name := None;
        set_users_hashed_password := None;
        set_users_credits := Some (fun old =>
          (fun credits => column 2 (credits + amount)) <$> users_credits old);
        set_users_total_spent := None; set_users_is_active := None;
        set_users_last_login := None |};
   INSERT_INTO_billing_records
     {| insert_billing_id := entry_id; insert_billing_user_id := account;
        insert_billing_vm_id := None; insert_billing_action_type := "credit_add";
        insert_billing_amount := column 2 amount;
        insert_billing_description := None;
        insert_billing_created_at := DEFAULT |}].

(** Modelled from the spec: [addCredits] of §4.3, see [post_credit]. *)
Definition addCredits (now : timestamptz) (entry_id account : uuid) (amount : Z)
    (db : database) : outcome :=
  if amount <=? 0 then Rejected InvalidAmount
  else persist (transaction now (post_credit entry_id account amount) db).

(** Modelled from the spec: the public operations of §4.3. *)
Inductive operation :=
| create (minimum_reserve : Z) (entry_id : uuid) (req : create_request)
| start_vm (vm_id : uuid)
| stop_vm (entry_id vm_id : uuid)
| restart_vm (entry_id vm_id : uuid)
| delete_vm (entry_id vm_id : uuid)
| add_credits (entry_id account : uuid) (amount : Z).

(** Modelled from the spec: dispatch of a request of §6 to its
    operation. *)
Definition perform (now : timestamptz) (op : operation) (db : database)
    : outcome :=
  match op with
  | create minimum_reserve entry_id req => createVM minimum_reserve now entry_id req db
  | start_vm vm_id => startVM now vm_id db
  | stop_vm entry_id vm_id => stopVM now entry_id vm_id db
  | restart_vm entry_id vm_id => restartVM now entry_id vm_id db
  | delete_vm entry_id vm_id => deleteVM now entry_id vm_id db
  | add_credits entry_id account amount => addCredits now entry_id account amount db
  end.

(** Modelled from the spec: §7, the committed state after an operation
    is unchanged when the operation is rejected. *)
Definition committed (o : outcome) (db : database) : database :=
  match o with Completed db' => db' | Rejected _ => db end.

(** Modelled from the spec: a sequence of operations, each committed
    before the next (§5, serialized). *)
Fixpoint perform_all (ops : list (timestamptz * operation)) (db : database)
    : database :=
  match ops with
  | [] => db
  | (now, op) :: rest => perform_all rest (committed (perform now op db) db)
  end.

(** ** Vocabulary of the statements below *)

(** A nullable amount that is not negative. *)
Definition nonneg_or_null (v : option Z) : Prop :=
  match v with Some z => 0 <= z | None => True end.

(** [new] is no smaller than [old]; NULL stays NULL. *)
Definition not_decreased (old new : option Z) : Prop :=
  match old, new with
  | Some a, Some b => a <= b
  | None, None => True
  | _, _ => False
  end.

(** [total_spent + amount] stored back into [total_spent]: the sum has
    scale 4 and is rounded to the column's scale 2. *)
Definition add_spending (amount : Z) (total_spent : option Z) : option Z :=
  (fun t => round_half_away (t * 100 + amount) 100) <$> total_spent.

Definition counts_as_spending (account : uuid) (r : billing_records_row) : bool :=
  N.eqb (billing_user_id r) account && (0 <? billing_amount r).

(** [total_spent] replayed from the account's entries, oldest first. *)
Definition spending_from_ledger (account : uuid) (entries : list billing_records_row)
    (initial : option Z) : option Z :=
  fold_left (fun t r => if counts_as_spending account r
                        then add_spending (billing_amount r) t else t)
            entries initial.

(** Modelled from the spec: the sign §8 gives the amount of an entry when
    it recomputes a balance (no code under src/ recomputes one): a
    [credit_add] is added, a [vm_create] or [vm_usage] charge is taken
    off; §8 counts no other entry. *)
Definition signed_amount (r : billing_records_row) : Z :=
  if String.eqb (billing_action_type r) "credit_add" then billing_amount r
  else if String.eqb (billing_action_type r) "vm_create"
          || String.eqb (billing_action_type r) "vm_usage"
       then - billing_amount r
       else 0.

(** Modelled from the spec: the balance as §8 recomputes it from the
    ledger, the initial balance, in hundredths, plus the running sum of the
    signed amounts of the account's entries, oldest first; the result is
    in units of [10^-4], the scale of [amount]. *)
Definition balance_from_ledger (account : uuid) (entries : list billing_records_row)
    (initial : Z) : Z :=
  fold_left (fun b r => if N.eqb (billing_user_id r) account
                        then b + signed_amount r else b)
            entries (initial * 100).

(** From [db] to [db'] entries were appended, and the balance of the
    account, [b] in [db], moved by their signed amounts. *)
Definition reconciled (account : uuid) (b : Z) (db db' : database) : Prop :=
  exists appended b',
    billing_records db' = (billing_records db ++ appended)%list /\
    balance account db' = Some b' /\
    b' * 100 = balance_from_ledger account appended b.

Definition users_with_total_spent (v : option Z) (r : users_row) : users_row :=
  {| users_email := users_email r; users_name := users_name r;
     users_hashed_password := users_hashed_password r;
     users_credits := users_credits r; users_total_spent := v;
     users_is_active := users_is_active r; users_created_at := users_created_at r;
     users_updated_at := users_updated_at r; users_last_login := users_last_login r |}.

(** Statements that leave [total_spent] to the trigger. *)
Definition leaves_total_spent (s : statement) : bool :=
  match s with
  | UPDATE_users _ set =>
      match set_users_total_spent set with None => true | Some _ => false end
  | _ => true
  end.

Definition appends_entry (s : statement) : bool :=
  match s with INSERT_INTO_billing_records _ => true | _ => false end.

(** Statements that do not assign [instance_type]. *)
Definition keeps_instance_type (s : statement) : bool :=
  match s with
  | UPDATE_vms _ set =>
      match set_vms_instance_type set with None => true | Some _ => false end
  | _ => true
  end.

Definition every_statement (P : statement -> bool)
    (history : list (timestamptz * list statement)) : bool :=
  forallb (fun t => forallb P (snd t)) history.

(** The pricing table, in units of [10^-4] as [cost_per_hour] stores it. *)
Definition pricing : list (string * Z) :=
  [("small", 500); ("medium", 1000); ("large", 2000); ("xlarge", 4000)].

(** A stored VM row carries the rate of its class and the cost accrued
    for its uptime. *)
Definition costs_accrued (r : vms_row) : Prop :=
  exists c, In (vms_instance_type r, c) pricing /\
            vms_cost_per_hour r = Some c /\
            vms_total_cost r =
              ((fun u => round_half_away (u * c) 10000) <$> vms_uptime_hours r).

#[global] Instance nonneg_or_null_dec v : Decision (nonneg_or_null v).
Proof. destruct v; simpl; apply _. Defined.

(** No account of the database has a negative balance. *)
Definition balances_nonnegative (db : database) : Prop :=
  map_Forall (fun _ r => nonneg_or_null (users_credits r)) (users db).

#[global] Instance balances_nonnegative_dec db : Decision (balances_nonnegative db).
Proof. unfold balances_nonnegative. apply _. Defined.

(** The state table extended with the transition [deleteVM] takes from
    Creating. *)
Definition lifecycle_table : list (string * string) :=
  state_table ++ [("creating", "terminated")].

Definition relabel (action_type : string) (ins : billing_records_insert)
    : billing_records_insert :=
  {| insert_billing_id := insert_billing_id ins;
     insert_billing_user_id := insert_billing_user_id ins;
     insert_billing_vm_id := insert_billing_vm_id ins;
     insert_billing_action_type := action_type;
     insert_billing_amount := insert_billing_amount ins;
     insert_billing_description := insert_billing_description ins;
     insert_billing_created_at := insert_billing_created_at ins |}.

(** ** Sample data *)

(** An account [1] signed up at time [0] with the given balance, and its
    project [7]. *)
Definition sample_account (credits : insert_value (option numeric)) : users_insert :=
  {| insert_users_id := 1%N; insert_users_email := "demo@zentry.cloud";
     insert_users_name := "Demo User"; insert_users_hashed_password := "$2b$12$";
     insert_users_credits := credits;
     insert_users_total_spent := DEFAULT; insert_users_is_active := DEFAULT;
     insert_users_created_at := DEFAULT; insert_users_updated_at := DEFAULT;
     insert_users_last_login := None |}.

Definition sample_project : projects_insert :=
  {| insert_projects_id := 7%N; insert_projects_name := "My First Project";
     insert_projects_description := None; insert_projects_user_id := 1%N;
     insert_projects_created_at := DEFAULT; insert_projects_updated_at := DEFAULT |}.

Definition sample_entry (id : uuid) (action_type : string) (amount : numeric)
    : billing_records_insert :=
  {| insert_billing_id := id; insert_billing_user_id := 1%N;
     insert_billing_vm_id := None; insert_billing_action_type := action_type;
     insert_billing_amount := amount; insert_billing_description := None;
     insert_billing_created_at := DEFAULT |}.

Definition sample_vm (instance_type : string) (status : insert_value string)
    (uptime_hours : insert_value (option numeric)) : vms_insert :=
  {| insert_vms_id := 3%N; insert_vms_name := "web-server-01";
     insert_vms_instance_type := instance_type; insert_vms_image := "ubuntu-22.04";
     insert_vms_status := status; insert_vms_ip_address := Some "192.168.1.100";
     insert_vms_user_id := 1%N; insert_vms_project_id := 7%N;
     insert_vms_cost_per_hour := DEFAULT; insert_vms_uptime_hours := uptime_hours;
     insert_vms_total_cost := DEFAULT; insert_vms_created_at := DEFAULT;
     insert_vms_updated_at := DEFAULT; insert_vms_last_started := None;
     insert_vms_last_stopped := None |}.

(** The database after the sign-up with the default balance of 50.00. *)
Definition signed_up : database :=
  run [(0, [INSERT_INTO_users (sample_account DEFAULT);
            INSERT_INTO_projects sample_project])] empty_database.

(** The row of account [1] in [signed_up]. *)
Definition signed_up_row : users_row :=
  {| users_email := "demo@zentry.cloud"; users_name := "Demo User";
     users_hashed_password := "$2b$12$"; users_credits := Some 5000;
     users_total_spent := Some 0; users_is_active := Some true;
     users_created_at := Some 0; users_updated_at := Some 0;
     users_last_login := None |}.

(** Two entries appended on their own: a usage charge of 0.0165 and a
    top-up of 10 credits recorded as [credit_add]. *)
Definition usage_then_top_up : list (timestamptz * list statement) :=
  [(20, [INSERT_INTO_billing_records
           (sample_entry 1%N "vm_usage" {| unscaled := 165; scale := 4 |})]);
   (30, [INSERT_INTO_billing_records
           (sample_entry 2%N "credit_add" {| unscaled := 10; scale := 0 |})])].

(** A usage charge of 0.0165, a top-up of 10 credits recorded as
    [credit_add] together with the update of the balance, and a refund
    recorded with a negative amount. *)
Definition charge_top_up_refund : list (timestamptz * list statement) :=
  [(20, [INSERT_INTO_billing_records
           (sample_entry 1%N "vm_usage" {| unscaled := 165; scale := 4 |})]);
   (30, [UPDATE_users 1%N
           {| set_users_email := None; set_users_name := None;
              set_users_hashed_password := None;
              set_users_credits := Some (fun old =>
                (fun credits => column 2 (credits + 1000)) <$> users_credits old);
              set_users_total_spent := None; set_users_is_active := None;
              set_users_last_login := None |};
         INSERT_INTO_billing_records
           (sample_entry 2%N "credit_add" {| unscaled := 10; scale := 0 |})]);
   (40, [INSERT_INTO_billing_records
           (sample_entry 3%N "credit_deduct" {| unscaled := -5; scale := 0 |})])].

(** An account with a balance of 0.10 whose small VM [3] is created at
    time [100] without a creation charge, as in the scenario of §8. *)
Definition sample_request : create_request :=
  {| create_id := 3%N; create_name := "web-server-01";
     create_instance_class := "small"; create_image := "ubuntu-22.04";
     create_project := 7%N; create_account := 1%N; create_charge := 0;
     create_provisioned := true |}.

Definition running_on_ten_cents : database :=
  perform_all [(100, create 5 11%N sample_request)]
    (run [(0, [INSERT_INTO_users
                 (sample_account (VALUE (Some {| unscaled := 10; scale := 2 |})));
               INSERT_INTO_projects sample_project])] empty_database).

(** A top-up of 10.00, then a small VM that runs for 17 hours. *)
Definition top_up_and_run : list (timestamptz * operation) :=
  [(10, add_credits 21%N 1%N 1000);
   (100, create 5 22%N sample_request);
   (61300, stop_vm 23%N 3%N)].

(** A row as the trigger [update_vm_costs] receives it. *)
Definition sample_new_row (instance_type : string) (uptime_hours : option Z) : vms_row :=
  {| vms_name := "web-server-01"; vms_instance_type := instance_type;
     vms_image := "ubuntu-22.04"; vms_status := "creating";
     vms_ip_address := None; vms_user_id := 1%N; vms_project_id := 7%N;
     vms_cost_per_hour := None; vms_uptime_hours := uptime_hours;
     vms_total_cost := None; vms_created_at := Some 0; vms_updated_at := Some 0;
     vms_last_started := None; vms_last_stopped := None |}.

(** A small VM recorded with two hours of uptime. *)
Definition two_hours_small : list (timestamptz * list statement) :=
  [(0, [INSERT_INTO_users (sample_account DEFAULT);
        INSERT_INTO_projects sample_project;
        INSERT_INTO_vms (sample_vm "small" (VALUE "running")
                           (VALUE (Some {| unscaled := 2; scale := 0 |})))])].

(** A large VM [3] inserted at time [100], then stopped after an hour and
    given an explicit [cost_per_hour] of 9.99. *)
Definition large_vm : vms_insert := sample_vm "large" (VALUE "running") DEFAULT.

Definition stop_and_reprice : list (timestamptz * list statement) :=
  [(3700, [UPDATE_vms 3%N (set_status "stopped" None 3600)]);
   (3800, [UPDATE_vms 3%N
             {| set_vms_name := None; set_vms_instance_type := None;
                set_vms_image := None; set_vms_status := None;
                set_vms_ip_address := None;
                set_vms_cost_per_hour :=
                  Some (fun _ => Some {| unscaled := 999; scale := 2 |});
                set_vms_uptime_hours := None; set_vms_total_cost := None;
                set_vms_last_started := None; set_vms_last_stopped := None |}])].

(** A VM [3] still in Creating. *)
Definition still_creating : database :=
  run [(50, [INSERT_INTO_vms (sample_vm "small" DEFAULT DEFAULT)])] signed_up.

(** ** The remaining tables and the third migration

    [vm_metrics] of [001_initial_schema.sql], and the tables of the audit
    and monitoring migration ([system_health], [audit_logs],
    [vm_state_transitions], [connection_metrics]) with its functions
    [log_vm_state_transition] and [cleanup_old_audit_logs]. The session time
    zone is UTC, so that [INTERVAL '1 day'] is 86400 seconds; a JSONB value
    is kept as its text. DELETE statements, which [statement] leaves out,
    are commands here, with the ON DELETE actions of the foreign keys. *)

(** [vm_metrics]; the usages are [DECIMAL(5,2)], the network counters
    [DECIMAL(12,2)]. *)
Record vm_metrics_row := {
  metrics_id : uuid;
  metrics_vm_id : uuid;
  metrics_cpu_usage : option Z;
  metrics_memory_usage : option Z;
  metrics_disk_usage : option Z;
  metrics_network_in : option Z;
  metrics_network_out : option Z;
  metrics_recorded_at : option timestamptz }.

(** [vm_state_transitions]; the rows are written by the trigger
    [log_vm_state_transition], whose generated key [id] is never read and is
    left out. *)
Record vm_state_transitions_row := {
  transition_vm_id : uuid;
  transition_from_status : option string;
  transition_to_status : string;
  transition_reason : option string;
  transition_triggered_by : option uuid;
  transition_created_at : option timestamptz }.

Record audit_logs_row := {
  audit_id : uuid;
  audit_user_id : option uuid;
  audit_action : string;
  audit_resource_type : string;
  audit_resource_id : option uuid;
  audit_old_values : option string;
  audit_new_values : option string;
  audit_ip_address : option string;
  audit_user_agent : option string;
  audit_created_at : option timestamptz }.

Record system_health_row := {
  health_id : uuid;
  health_component : string;
  health_status : string;
  health_message : option string;
  health_metrics : option string;
  health_checked_at : option timestamptz }.

Record connection_metrics_row := {
  connection_id : uuid;
  connection_active : Z;
  connection_idle : Z;
  connection_total : Z;
  connection_max : Z;
  connection_recorded_at : option timestamptz }.

(** A row of the materialized view [user_stats]. *)
Record user_stats_row := {
  stats_email : string;
  stats_name : string;
  stats_credits : option Z;
  stats_total_spent : option Z;
  stats_project_count : Z;
  stats_vm_count : Z;
  stats_running_vm_count : Z;
  stats_total_uptime_hours : numeric;
  stats_total_vm_costs : numeric }.

(** The whole schema: the tables of [database], the tables above and the
    stored contents of [user_stats]. The lists are in insertion order. *)
Record store := {
  core : database;
  vm_metrics : list vm_metrics_row;
  vm_state_transitions : list vm_state_transitions_row;
  audit_logs : list audit_logs_row;
  system_health : list system_health_row;
  connection_metrics : list connection_metrics_row;
  user_stats : gmap uuid user_stats_row }.

Definition empty_store : store :=
  {| core := empty_database; vm_metrics := []; vm_state_transitions := [];
     audit_logs := []; system_health := []; connection_metrics := [];
     user_stats := ∅ |}.

Definition with_core (db : database) (st : store) : store :=
  {| core := db; vm_metrics := vm_metrics st;
     vm_state_transitions := vm_state_transitions st;
     audit_logs := audit_logs st; system_health := system_health st;
     connection_metrics := connection_metrics st; user_stats := user_stats st |}.

Definition with_vm_metrics (l : list vm_metrics_row) (st : store) : store :=
  {| core := core st; vm_metrics := l;
     vm_state_transitions := vm_state_transitions st;
     audit_logs := audit_logs st; system_health := system_health st;
     connection_metrics := connection_metrics st; user_stats := user_stats st |}.

Definition with_vm_state_transitions (l : list vm_state_transitions_row) (st : store)
    : store :=
  {| core := core st; vm_metrics := vm_metrics st; vm_state_transitions := l;
     audit_logs := audit_logs st; system_health := system_health st;
     connection_metrics := connection_metrics st; user_stats := user_stats st |}.

Definition with_audit_logs (l : list audit_logs_row) (st : store) : store :=
  {| core := core st; vm_metrics := vm_metrics st;
     vm_state_transitions := vm_state_transitions st;
     audit_logs := l; system_health := system_health st;
     connection_metrics := connection_metrics st; user_stats := user_stats st |}.

Definition with_system_health (l : list system_health_row) (st : store) : store :=
  {| core := core st; vm_metrics := vm_metrics st;
     vm_state_transitions := vm_state_transitions st;
     audit_logs := audit_logs st; system_health := l;
     connection_metrics := connection_metrics st; user_stats := user_stats st |}.

Definition with_connection_metrics (l : list connection_metrics_row) (st : store)
    : store :=
  {| core := core st; vm_metrics := vm_metrics st;
     vm_state_transitions := vm_state_transitions st;
     audit_logs := audit_logs st; system_health := system_health st;
     connection_metrics := l; user_stats := user_stats st |}.

Definition with_user_stats (m : gmap uuid user_stats_row) (st : store) : store :=
  {| core := core st; vm_metrics := vm_metrics st;
     vm_state_transitions := vm_state_transitions st;
     audit_logs := audit_logs st; system_health := system_health st;
     connection_metrics := connection_metrics st; user_stats := m |}.

(** ** DELETE and the ON DELETE actions of the foreign keys *)

(** [ON DELETE SET NULL] of [billing_records.vm_id]. *)
Definition billing_set_null_vm (gone : uuid -> bool) (r : billing_records_row)
    : billing_records_row :=
  {| billing_id := billing_id r; billing_user_id := billing_user_id r;
     billing_vm_id := match billing_vm_id r with
                      | Some v => if gone v then None else Some v
                      | None => None
                      end;
     billing_action_type := billing_action_type r;
     billing_amount := billing_amount r;
     billing_description := billing_description r;
     billing_created_at := billing_created_at r |}.

(** [DELETE FROM vms WHERE cond]: the rows go, and with them their
    [vm_metrics] and [vm_state_transitions] (ON DELETE CASCADE); the billing
    records that name them keep everything but [vm_id] (ON DELETE SET
    NULL). No trigger fires on a DELETE, nor on the UPDATE of
    [billing_records]. *)
Definition delete_vms_where (cond : uuid -> vms_row -> bool) (st : store) : store :=
  let gone id := from_option (cond id) false (vms (core st) !! id) in
  {| core :=
       {| users := users (core st); projects := projects (core st);
          vms := filter (fun kr => cond kr.1 kr.2 = false) (vms (core st));
          billing_records := billing_set_null_vm gone <$> billing_records (core st) |};
     vm_metrics := filter (fun m => gone (metrics_vm_id m) = false) (vm_metrics st);
     vm_state_transitions :=
       filter (fun t => gone (transition_vm_id t) = false) (vm_state_transitions st);
     audit_logs := audit_logs st; system_health := system_health st;
     connection_metrics := connection_metrics st; user_stats := user_stats st |}.

(** [DELETE FROM projects WHERE cond]: the VMs of the projects go first
    ([vms.project_id] is ON DELETE CASCADE). *)
Definition delete_projects_where (cond : uuid -> projects_row -> bool) (st : store)
    : store :=
  let gone id := from_option (cond id) false (projects (core st) !! id) in
  let st' := delete_vms_where (fun _ v => gone (vms_project_id v)) st in
  with_core
    (with_projects (filter (fun kr => cond kr.1 kr.2 = false) (projects (core st')))
       (core st'))
    st'.

(** [ON DELETE SET NULL] of [audit_logs.user_id] and of
    [vm_state_transitions.triggered_by]. *)
Definition audit_set_null_user (id : uuid) (r : audit_logs_row) : audit_logs_row :=
  {| audit_id := audit_id r;
     audit_user_id := if bool_decide (audit_user_id r = Some id) then None
                      else audit_user_id r;
     audit_action := audit_action r; audit_resource_type := audit_resource_type r;
     audit_resource_id := audit_resource_id r;
     audit_old_values := audit_old_values r; audit_new_values := audit_new_values r;
     audit_ip_address := audit_ip_address r; audit_user_agent := audit_user_agent r;
     audit_created_at := audit_created_at r |}.

Definition transition_set_null_user (id : uuid) (r : vm_state_transitions_row)
    : vm_state_transitions_row :=
  {| transition_vm_id := transition_vm_id r;
     transition_from_status := transition_from_status r;
     transition_to_status := transition_to_status r;
     transition_reason := transition_reason r;
     transition_triggered_by :=
       if bool_decide (transition_triggered_by r = Some id) then None
       else transition_triggered_by r;
     transition_created_at := transition_created_at r |}.

(** [DELETE FROM users WHERE id = id]: the user's projects, VMs and billing
    records go with the row (ON DELETE CASCADE); audit log entries and
    state transitions forget the user (ON DELETE SET NULL). *)
Definition delete_from_users (id : uuid) (st : store) : store :=
  match users (core st) !! id with
  | None => st
  | Some _ =>
      let st1 := delete_projects_where (fun _ p => N.eqb (projects_user_id p) id) st in
      let st2 := delete_vms_where (fun _ v => N.eqb (vms_user_id v) id) st1 in
      {| core :=
           {| users := base.delete id (users (core st2));
              projects := projects (core st2); vms := vms (core st2);
              billing_records :=
                filter (fun r => billing_user_id r <> id) (billing_records (core st2)) |};
         vm_metrics := vm_metrics st2;
         vm_state_transitions :=
           transition_set_null_user id <$> vm_state_transitions st2;
         audit_logs := audit_set_null_user id <$> audit_logs st2;
         system_health := system_health st2;
         connection_metrics := connection_metrics st2;
         user_stats := user_stats st2 |}
  end.

Definition delete_from_projects (id : uuid) (st : store) : store :=
  delete_projects_where (fun k _ => N.eqb k id) st.

Definition delete_from_vms (id : uuid) (st : store) : store :=
  delete_vms_where (fun k _ => N.eqb k id) st.

(** ** [vm_metrics] and [audit_logs] *)

(** The VALUES of an [INSERT INTO vm_metrics]; the usages have no
    default. *)
Record vm_metrics_insert := {
  insert_metrics_id : uuid;
  insert_metrics_vm_id : uuid;
  insert_metrics_cpu_usage : option numeric;
  insert_metrics_memory_usage : option numeric;
  insert_metrics_disk_usage : option numeric;
  insert_metrics_network_in : insert_value (option numeric);
  insert_metrics_network_out : insert_value (option numeric);
  insert_metrics_recorded_at : insert_value (option timestamptz) }.

(** [usage >= 0 AND usage <= 100] on a stored [DECIMAL(5,2)]; NULL when
    the usage is NULL. *)
Definition usage_in_range (usage : option Z) : option bool :=
  (fun u => (0 <=? u) && (u <=? 10000)) <$> usage.

(** The CHECK constraints of [vm_metrics], by name. *)
Definition vm_metrics_constraints (r : vm_metrics_row) : result unit :=
  check "vm_metrics_cpu_usage_check" (usage_in_range (metrics_cpu_usage r)) ;;
  check "vm_metrics_disk_usage_check" (usage_in_range (metrics_disk_usage r)) ;;
  check "vm_metrics_memory_usage_check" (usage_in_range (metrics_memory_usage r)).

(** The row an [INSERT INTO vm_metrics] stores. *)
Definition vm_metrics_inserted_row (now : timestamptz) (ins : vm_metrics_insert)
    : result vm_metrics_row :=
  cpu_usage ← numeric_cast_null 5 2 (insert_metrics_cpu_usage ins) ;
  memory_usage ← numeric_cast_null 5 2 (insert_metrics_memory_usage ins) ;
  disk_usage ← numeric_cast_null 5 2 (insert_metrics_disk_usage ins) ;
  network_in ← numeric_cast_null 12 2
    (or_default (Some {| unscaled := 0; scale := 2 |}) (insert_metrics_network_in ins)) ;
  network_out ← numeric_cast_null 12 2
    (or_default (Some {| unscaled := 0; scale := 2 |}) (insert_metrics_network_out ins)) ;
  let row :=
    {| metrics_id := insert_metrics_id ins; metrics_vm_id := insert_metrics_vm_id ins;
       metrics_cpu_usage := cpu_usage; metrics_memory_usage := memory_usage;
       metrics_disk_usage := disk_usage; metrics_network_in := network_in;
       metrics_network_out := network_out;
       metrics_recorded_at :=
         or_default (Some now) (insert_metrics_recorded_at ins) |} in
  vm_metrics_constraints row ;;
  Ok row.

(** [INSERT INTO vm_metrics]: the row, the primary key, then the foreign
    key. *)
Definition insert_vm_metrics (now : timestamptz) (ins : vm_metrics_insert) (st : store)
    : result store :=
  row ← vm_metrics_inserted_row now ins ;
  if existsb (fun r => N.eqb (metrics_id r) (metrics_id row)) (vm_metrics st)
  then Err (unique_violation "vm_metrics_pkey")
  else if negb (bool_decide (is_Some (vms (core st) !! metrics_vm_id row)))
  then Err (foreign_key_violation "vm_metrics_vm_id_fkey")
  else Ok (with_vm_metrics (vm_metrics st ++ [row]) st).

(** The VALUES of an [INSERT INTO audit_logs]. *)
Record audit_logs_insert := {
  insert_audit_id : uuid;
  insert_audit_user_id : option uuid;
  insert_audit_action : string;
  insert_audit_resource_type : string;
  insert_audit_resource_id : option uuid;
  insert_audit_old_values : option string;
  insert_audit_new_values : option string;
  insert_audit_ip_address : option string;
  insert_audit_user_agent : option string;
  insert_audit_created_at : insert_value (option timestamptz) }.

(** [INSERT INTO audit_logs]. *)
Definition insert_audit_logs (now : timestamptz) (ins : audit_logs_insert) (st : store)
    : result store :=
  action ← varchar 100 (insert_audit_action ins) ;
  resource_type ← varchar 50 (insert_audit_resource_type ins) ;
  let row :=
    {| audit_id := insert_audit_id ins; audit_user_id := insert_audit_user_id ins;
       audit_action := action; audit_resource_type := resource_type;
       audit_resource_id := insert_audit_resource_id ins;
       audit_old_values := insert_audit_old_values ins;
       audit_new_values := insert_audit_new_values ins;
       audit_ip_address := insert_audit_ip_address ins;
       audit_user_agent := insert_audit_user_agent ins;
       audit_created_at := or_default (Some now) (insert_audit_created_at ins) |} in
  if existsb (fun r => N.eqb (audit_id r) (audit_id row)) (audit_logs st)
  then Err (unique_violation "audit_logs_pkey")
  else if negb (from_option (fun u => bool_decide (is_Some (users (core st) !! u))) true
                  (audit_user_id row))
  then Err (foreign_key_violation "audit_logs_user_id_fkey")
  else Ok (with_audit_logs (audit_logs st ++ [row]) st).

(** ** [log_vm_state_transition] *)

(** The INSERT of the trigger: [from_status] and [to_status] are
    [VARCHAR(20)], [vm_id] references [vms]; [triggered_by] is not given and
    [created_at] takes its default. *)
Definition insert_vm_state_transitions (now : timestamptz) (vm_id : uuid)
    (from_status : option string) (to_status : string) (reason : option string)
    (st : store) : result store :=
  from_status ← match from_status with
                | None => Ok None
                | Some s => Some <$> varchar 20 s
                end ;
  to_status ← varchar 20 to_status ;
  if negb (bool_decide (is_Some (vms (core st) !! vm_id)))
  then Err (foreign_key_violation "vm_state_transitions_vm_id_fkey")
  else Ok (with_vm_state_transitions
             (vm_state_transitions st ++
              [{| transition_vm_id := vm_id; transition_from_status := from_status;
                  transition_to_status := to_status; transition_reason := reason;
                  transition_triggered_by := None;
                  transition_created_at := Some now |}]) st).

(** [log_vm_state_transition], the AFTER UPDATE trigger of [vms]:
    [IF OLD.status IS DISTINCT FROM NEW.status THEN
       INSERT INTO vm_state_transitions (vm_id, from_status, to_status, reason)
       VALUES (NEW.id, OLD.status, NEW.status, 'Status updated')]. *)
Definition log_vm_state_transition (now : timestamptz) (id : uuid) (OLD NEW : vms_row)
    (st : store) : result store :=
  if negb (String.eqb (vms_status OLD) (vms_status NEW))
  then insert_vm_state_transitions now id (Some (vms_status OLD)) (vms_status NEW)
         (Some "Status updated") st
  else Ok st.

(** [UPDATE vms SET ... WHERE id = id] with the third migration applied:
    the row is written as by [update_vms], then the AFTER UPDATE trigger
    fires for it; an error of the trigger aborts the UPDATE. *)
Definition update_vms_logged (now : timestamptz) (id : uuid) (set : vms_set)
    (st : store) : result store :=
  match vms (core st) !! id with
  | None => Ok st
  | Some OLD =>
      NEW ← vms_updated_row now set OLD ;
      log_vm_state_transition now id OLD NEW
        (with_core (with_vms (<[id := NEW]> (vms (core st))) (core st)) st)
  end.

(** ** [cleanup_old_audit_logs] *)

Definition day : Z := 86400.

(** [t < cutoff] as a WHERE condition: not true when either side is
    NULL. *)
Definition before (cutoff t : option timestamptz) : bool :=
  match t, cutoff with
  | Some t, Some c => t <? c
  | _, _ => false
  end.

(** The range of [TIMESTAMP WITH TIME ZONE], in seconds since 2000-01-01
    00:00:00 UTC, the epoch of PostgreSQL: from 4714-11-24 BC up to, and
    not including, the year 294277. *)
Definition MIN_TIMESTAMP : Z := -211813488000.
Definition END_TIMESTAMP : Z := 9223371331200.

(** A value stored as an [INTEGER]: 32 bits, or "integer out of range". *)
Definition integer (n : Z) : result Z :=
  if (- 2 ^ 31 <=? n) && (n <? 2 ^ 31) then Ok n
  else Err numeric_value_out_of_range.

(** [t - INTERVAL '1 day' * days], NULL when [days] is NULL; "timestamp out
    of range" when the result is no [TIMESTAMP WITH TIME ZONE]. *)
Definition timestamptz_mi_days (t : timestamptz) (days : option Z)
    : result (option timestamptz) :=
  match days with
  | None => Ok None
  | Some n =>
      let cutoff := t - day * n in
      if (MIN_TIMESTAMP <=? cutoff) && (cutoff <? END_TIMESTAMP) then Ok (Some cutoff)
      else Err datetime_field_overflow
  end.

(** The four DELETEs of [cleanup_old_audit_logs], given their cutoffs. *)
Definition delete_before
    (audit_cutoff health_cutoff connection_cutoff metrics_cutoff : option timestamptz)
    (st : store) : store :=
  {| core := core st;
     vm_metrics :=
       filter (fun r => before metrics_cutoff (metrics_recorded_at r) = false)
              (vm_metrics st);
     vm_state_transitions := vm_state_transitions st;
     audit_logs :=
       filter (fun r => before audit_cutoff (audit_created_at r) = false)
              (audit_logs st);
     system_health :=
       filter (fun r => before health_cutoff (health_checked_at r) = false)
              (system_health st);
     connection_metrics :=
       filter (fun r => before connection_cutoff (connection_recorded_at r) = false)
              (connection_metrics st);
     user_stats := user_stats st |}.

(** [cleanup_old_audit_logs(retention_days INTEGER DEFAULT 90)]: four
    DELETEs, of the audit log entries older than [retention_days] days, of
    the health records older than [retention_days / 2] days (an integer
    division), of the connection metrics older than 30 days and of the VM
    metrics older than 60 days; the result is the ROW_COUNT of the first
    one, stored in an [INTEGER]. The argument is an [INTEGER] too. Each
    cutoff is computed whether or not its table has rows, and a cutoff
    outside the range of the type raises "timestamp out of range"; an error
    leaves every table as it was. *)
Definition cleanup_old_audit_logs (now : timestamptz)
    (retention_days : insert_value (option Z)) (st : store) : result (Z * store) :=
  retention_days ← match or_default (Some 90) retention_days with
                   | None => Ok None
                   | Some n => Some <$> integer n
                   end ;
  audit_cutoff ← timestamptz_mi_days now retention_days ;
  let kept :=
    filter (fun r => before audit_cutoff (audit_created_at r) = false) (audit_logs st) in
  deleted_count ← integer (Z.of_nat (length (audit_logs st)) - Z.of_nat (length kept)) ;
  health_cutoff ← timestamptz_mi_days now ((fun n => n ÷ 2) <$> retention_days) ;
  connection_cutoff ← timestamptz_mi_days now (Some 30) ;
  metrics_cutoff ← timestamptz_mi_days now (Some 60) ;
  Ok (deleted_count,
      delete_before audit_cutoff health_cutoff connection_cutoff metrics_cutoff st).

(** ** The materialized view [user_stats] *)

(** The right side of a LEFT JOIN for one left row: the matching rows, or
    one NULL row when there is none. *)
Definition outer {A} (matching : list A) : list (option A) :=
  match matching with
  | [] => [None]
  | _ => Some <$> matching
  end.

(** The rows of [users u LEFT JOIN projects p ON u.id = p.user_id
    LEFT JOIN vms v ON u.id = v.user_id] for the user [id]. *)
Definition joined_row : Type :=
  option (uuid * projects_row) * option (uuid * vms_row).

Definition user_stats_join (id : uuid) (db : database) : list joined_row :=
  p ← outer (filter (fun kr => projects_user_id kr.2 = id) (map_to_list (projects db))) ;
  v ← outer (filter (fun kr => vms_user_id kr.2 = id) (map_to_list (vms db))) ;
  [(p, v)].

(** [COUNT(DISTINCT e)]: the number of distinct values that are not
    NULL. *)
Definition count_distinct (values : list (option uuid)) : Z :=
  Z.of_nat (size (list_to_set (C := gset uuid) (omap id values))).

(** [SUM(e)] over [DECIMAL(10,2)] values: NULL when no value is not
    NULL. *)
Definition sum (values : list (option Z)) : option numeric :=
  match omap id values with
  | [] => None
  | vs => Some (column 2 (foldr Z.add 0 vs))
  end.

(** The query of [user_stats]: one group per user. *)
Definition user_stats_query (db : database) : gmap uuid user_stats_row :=
  map_imap (fun id u =>
    let rows := user_stats_join id db in
    Some {| stats_email := users_email u; stats_name := users_name u;
            stats_credits := users_credits u;
            stats_total_spent := users_total_spent u;
            stats_project_count :=
              count_distinct ((fun r : joined_row => fst <$> r.1) <$> rows);
            stats_vm_count :=
              count_distinct ((fun r : joined_row => fst <$> r.2) <$> rows);
            stats_running_vm_count :=
              count_distinct
                ((fun r : joined_row =>
                    v ← r.2 ;
                           if String.eqb (vms_status v.2) "running" then Some v.1
                           else None) <$> rows);
            stats_total_uptime_hours :=
              default {| unscaled := 0; scale := 0 |}
                (sum ((fun r : joined_row => v ← r.2 ; vms_uptime_hours v.2) <$> rows));
            stats_total_vm_costs :=
              default {| unscaled := 0; scale := 0 |}
                (sum ((fun r : joined_row => v ← r.2 ; vms_total_cost v.2) <$> rows)) |})
    (users db).

(** [refresh_user_stats()]: the view is recomputed from the tables. *)
Definition refresh_user_stats (st : store) : store :=
  with_user_stats (user_stats_query (core st)) st.

(** ** Commands over the whole schema *)

Inductive command :=
| SQL (s : statement)
| DELETE_FROM_users (id : uuid)
| DELETE_FROM_projects (id : uuid)
| DELETE_FROM_vms (id : uuid)
| INSERT_INTO_vm_metrics (ins : vm_metrics_insert)
| INSERT_INTO_audit_logs (ins : audit_logs_insert)
| SELECT_cleanup_old_audit_logs (retention_days : insert_value (option Z))
| SELECT_refresh_user_stats.

(** A statement of [statement] runs on the tables of [database]; an UPDATE
    of [vms] also fires [log_vm_state_transition]. *)
Definition run_command (now : timestamptz) (c : command) (st : store) : result store :=
  match c with
  | SQL (UPDATE_vms id set) => update_vms_logged now id set st
  | SQL s => db ← execute now s (core st) ; Ok (with_core db st)
  | DELETE_FROM_users id => Ok (delete_from_users id st)
  | DELETE_FROM_projects id => Ok (delete_from_projects id st)
  | DELETE_FROM_vms id => Ok (delete_from_vms id st)
  | INSERT_INTO_vm_metrics ins => insert_vm_metrics now ins st
  | INSERT_INTO_audit_logs ins => insert_audit_logs now ins st
  | SELECT_cleanup_old_audit_logs retention_days =>
      snd <$> cleanup_old_audit_logs now retention_days st
  | SELECT_refresh_user_stats => Ok (refresh_user_stats st)
  end.

(** One transaction of commands: all of them, or none. *)
Fixpoint run_commands (now : timestamptz) (body : list command) (st : store)
    : result store :=
  match body with
  | [] => Ok st
  | c :: rest => st' ← run_command now c st ; run_commands now rest st'
  end.

(** A history of transactions over the whole schema, each committed or
    rolled back. *)
Fixpoint replay (history : list (timestamptz * list command)) (st : store) : store :=
  match history with
  | [] => st
  | (now, body) :: rest =>
      replay rest (match run_commands now body st with Ok st' => st' | Err _ => st end)
  end.

(** ** Vocabulary for the whole schema *)

(** Every foreign key of the tables of [database] names an existing
    row. *)
Definition core_references_hold (db : database) : Prop :=
  map_Forall (fun _ p => is_Some (users db !! projects_user_id p)) (projects db) /\
  map_Forall (fun _ v => is_Some (users db !! vms_user_id v) /\
                         is_Some (projects db !! vms_project_id v)) (vms db) /\
  Forall (fun r => is_Some (users db !! billing_user_id r) /\
                   from_option (fun v => is_Some (vms db !! v)) True (billing_vm_id r))
         (billing_records db).

(** Every foreign key of the schema names an existing row. *)
Definition references_hold (st : store) : Prop :=
  core_references_hold (core st) /\
  Forall (fun m => is_Some (vms (core st) !! metrics_vm_id m)) (vm_metrics st) /\
  Forall (fun t => is_Some (vms (core st) !! transition_vm_id t) /\
                   from_option (fun u => is_Some (users (core st) !! u)) True
                     (transition_triggered_by t))
         (vm_state_transitions st) /\
  Forall (fun a => from_option (fun u => is_Some (users (core st) !! u)) True
                     (audit_user_id a))
         (audit_logs st).

(** The transitions a log holds for the VM [id], oldest first, as pairs of
    [from_status] and [to_status]. *)
Definition logged (id : uuid) (log : list vm_state_transitions_row)
    : list (option string * string) :=
  (fun t => (transition_from_status t, transition_to_status t))
  <$> filter (fun t => transition_vm_id t = id) log.

(** A log that is a path ending at [current]: no entry is a loop, each
    entry starts where the one before it ended, and the last one ends at
    [current]. *)
Fixpoint path_to (current : string) (log : list (option string * string)) : Prop :=
  match log with
  | [] => True
  | (from, to) :: rest =>
      from <> Some to /\
      match rest with
      | [] => to = current
      | (next, _) :: _ => next = Some to
      end /\
      path_to current rest
  end.

(** The commands that are statements of [statement]. *)
Definition without_deletes (history : list (timestamptz * list statement))
    : list (timestamptz * list command) :=
  (fun t : timestamptz * list statement => (t.1, SQL <$> t.2)) <$> history.

Definition billing_references (db : database) (r : billing_records_row) : Prop :=
  is_Some (users db !! billing_user_id r) /\
  from_option (fun v => is_Some (vms db !! v)) True (billing_vm_id r).

(** The log names existing VMs only, every VM has a status of the CHECK
    constraint, and the entries of a VM are a path to its status. *)
Definition log_consistent (st : store) : Prop :=
  Forall (fun t => is_Some (vms (core st) !! transition_vm_id t))
         (vm_state_transitions st) /\
  map_Forall (fun id r => In (vms_status r) statuses /\
                          path_to (vms_status r) (logged id (vm_state_transitions st)))
             (vms (core st)).

(** No two accounts share an address. *)
Definition emails_unique (m : gmap uuid users_row) : Prop :=
  forall id1 id2 r1 r2, m !! id1 = Some r1 -> m !! id2 = Some r2 ->
    users_email r1 = users_email r2 -> id1 = id2.

(** Every stored row passes the CHECK and NOT NULL constraints of its
    table. *)
Definition constraints_hold (st : store) : Prop :=
  map_Forall (fun _ r => users_constraints r = Ok tt) (users (core st)) /\
  map_Forall (fun _ r => vms_constraints r = Ok tt) (vms (core st)) /\
  Forall (fun r => billing_amount r <> 0) (billing_records (core st)) /\
  Forall (fun m => vm_metrics_constraints m = Ok tt) (vm_metrics st).

(** The projects and the VMs of a user, as the tables hold them. *)
Definition projects_of (id : uuid) (db : database) : list (uuid * projects_row) :=
  filter (fun kr => projects_user_id kr.2 = id) (map_to_list (projects db)).

Definition vms_of (id : uuid) (db : database) : list (uuid * vms_row) :=
  filter (fun kr => vms_user_id kr.2 = id) (map_to_list (vms db)).

(** The sum of a nullable column over rows, NULLs left out. *)
Definition total (column : vms_row -> option Z) (rows : list (uuid * vms_row)) : Z :=
  foldr Z.add 0 (omap (fun kr => column kr.2) rows).

(** A billing record without its [vm_id]. *)
Definition entry_without_vm (r : billing_records_row)
    : uuid * uuid * string * Z * option string * option timestamptz :=
  (billing_id r, billing_user_id r, billing_action_type r, billing_amount r,
   billing_description r, billing_created_at r).

(** An audit log entry without its [user_id]. *)
Definition audit_without_user (a : audit_logs_row)
    : uuid * string * string * option uuid * option string * option string
      * option string * option string * option timestamptz :=
  (audit_id a, audit_action a, audit_resource_type a, audit_resource_id a,
   audit_old_values a, audit_new_values a, audit_ip_address a, audit_user_agent a,
   audit_created_at a).

Definition keeps_users (c : command) : bool :=
  match c with DELETE_FROM_users _ => false | _ => true end.

Definition every_command (Q : command -> bool)
    (history : list (timestamptz * list command)) : bool :=
  forallb (fun t => forallb Q (snd t)) history.

Definition leaves_user_stats (c : command) : bool :=
  match c with SELECT_refresh_user_stats => false | _ => true end.

(** ** The API client of the frontend ([ZentryAPI])

    The client object holds [baseURL] and [token]; in a browser it mirrors
    the token and the signed-in user into [localStorage]. [localStorage] is
    a finite map from keys to strings (its quota is not modelled), and it
    is [None] where [typeof window] is ['undefined']. *)

Record ZentryAPI := {
  baseURL : string;
  token : option string }.

(** A loaded page: the client object and the [localStorage] of the
    origin. *)
Record page := {
  api : ZentryAPI;
  localStorage : option (gmap string string) }.

(** A [string | null] used as a condition: [null] and the empty string are
    falsy. *)
Definition truthy (s : option string) : bool :=
  match s with
  | Some s => negb (String.eqb s "")
  | None => false
  end.

(** [storedToken && storedToken !== 'undefined' && storedToken !== 'null'],
    also used for [userStr]. *)
Definition stored (s : option string) : bool :=
  truthy s && negb (bool_decide (s = Some "undefined"))
           && negb (bool_decide (s = Some "null")).

(** The constructor: [token] starts as [null] and, in a browser, is read
    back from [localStorage]. *)
Definition new_ZentryAPI (baseURL : string) (localStorage : option (gmap string string))
    : ZentryAPI :=
  {| baseURL := baseURL;
     token := match localStorage with
              | Some items =>
                  let storedToken := items !! "zentry_token" in
                  if stored storedToken then storedToken else None
              | None => None
              end |}.

Definition setToken (token : string) (p : page) : page :=
  {| api := {| baseURL := baseURL (api p); token := Some token |};
     localStorage := <["zentry_token" := token]> <$> localStorage p |}.

Definition clearToken (p : page) : page :=
  {| api := {| baseURL := baseURL (api p); token := None |};
     localStorage :=
       (fun items => base.delete "zentry_user" (base.delete "zentry_token" items))
       <$> localStorage p |}.

Definition logout (p : page) : page := clearToken p.

(** [isAuthenticated]: [!!this.token]. *)
Definition isAuthenticated (a : ZentryAPI) : bool := truthy (token a).

(** The [headers] that [request] passes to [fetch]:
    [{'Content-Type': 'application/json', ...options.headers}], then
    [headers.Authorization] when there is a token. *)
Definition request_headers (a : ZentryAPI) (options_headers : gmap string string)
    : gmap string string :=
  let headers := options_headers ∪ {[ "Content-Type" := "application/json" ]} in
  if truthy (token a)
  then <["Authorization" := "Bearer " ++ default "" (token a)]> headers
  else headers.

(** The URL that [request] fetches. *)
Definition request_url (a : ZentryAPI) (endpoint : string) : string :=
  baseURL a ++ endpoint.

Section StoredUser.

(** [JSON.stringify] on a user and [JSON.parse], [None] where it throws. *)
Variable User : Type.
Variable JSON_stringify : User -> string.
Variable JSON_parse : string -> option User.

(** What [signup] and [login] do with the response of the server. *)
Definition signed_in (access_token : string) (user : User) (p : page) : page :=
  let p := setToken access_token p in
  {| api := api p;
     localStorage := <["zentry_user" := JSON_stringify user]> <$> localStorage p |}.

(** [getStoredUser]: the parsed [zentry_user], or [null]; an entry that
    does not parse is removed. *)
Definition getStoredUser (p : page) : option User * page :=
  match localStorage p with
  | Some items =>
      let userStr := items !! "zentry_user" in
      if stored userStr
      then match JSON_parse (default "" userStr) with
           | Some user => (Some user, p)
           | None =>
               (None, {| api := api p;
                         localStorage := Some (base.delete "zentry_user" items) |})
           end
      else (None, p)
  | None => (None, p)
  end.

End StoredUser.

(** ** State of the dashboards

    The types [VM] and [Project] of the API client; an [id] is a
    [number]. *)

Record VM := {
  VM_id : Z;
  VM_name : string;
  VM_instance_type : string;
  VM_image : string;
  VM_status : string;
  VM_ip_address : string;
  VM_created_at : string }.

Record Project := {
  Project_id : Z;
  Project_name : string;
  Project_description : string;
  Project_created_at : string }.

(** The number of VMs the Projects tab of [EnhancedDashboard] shows for a
    project: [vms.filter(vm => vm.id === project.id).length]. *)
Definition project_vm_count (vms : list VM) (project : Project) : nat :=
  length (List.filter (fun vm => VM_id vm =? Project_id project) vms).

Section Metrics.

(** What [getVMMetrics] resolves to. *)
Variable Metrics : Type.

(** [loadData] of [EnhancedDashboard]: each VM with the metrics fetched
    for it ([None] where the request failed and [null] is recorded) gives
    the object [{[vm.id]: metrics}], and the objects are merged, a later
    one overriding an earlier one:
    [metricsResults.reduce((acc, curr) => ({...acc, ...curr}), {})]. *)
Definition metricsMap (fetched : list (VM * option Metrics)) : gmap Z (option Metrics) :=
  foldl (fun acc curr => curr ∪ acc) ∅
        ((fun r : VM * option Metrics => {[ VM_id r.1 := r.2 ]}) <$> fetched).

(** [loadData] of [Dashboard]: the same objects are merged by
    [Object.assign] into a new object, but only when there are VMs;
    otherwise [vmMetrics] keeps its state. *)
Definition loadData_vmMetrics (vmMetrics : gmap Z (option Metrics))
    (fetched : list (VM * option Metrics)) : gmap Z (option Metrics) :=
  if (0 <? length fetched)%nat
  then foldl (fun metricsMap result => result ∪ metricsMap) ∅
             ((fun r : VM * option Metrics => {[ VM_id r.1 := r.2 ]}) <$> fetched)
  else vmMetrics.

End Metrics.

(** ** Pagination of the billing history

    [BillingDashboard] shows ten entries a page. *)

Definition showing_from (historyPage : Z) : Z := (historyPage - 1) * 10 + 1.

Definition showing_to (historyPage total : Z) : Z := Z.min (historyPage * 10) total.

(** The [disabled] conditions of the two buttons. *)
Definition previous_disabled (historyPage : Z) : bool := historyPage =? 1.

Definition next_disabled (historyPage total : Z) : bool := total <=? historyPage * 10.

Inductive page_button := Previous | Next.

(** The [onClick] handlers: [setHistoryPage(Math.max(1, historyPage - 1))]
    and [setHistoryPage(historyPage + 1)]. *)
Definition on_click (b : page_button) (historyPage : Z) : Z :=
  match b with
  | Previous => Z.max 1 (historyPage - 1)
  | Next => historyPage + 1
  end.

(** The page after a sequence of clicks. *)
Definition after_clicks (clicks : list page_button) (historyPage : Z) : Z :=
  foldl (fun p b => on_click b p) historyPage clicks.

(** No click of the sequence is on a button whose [disabled] condition
    holds. *)
Fixpoint enabled_clicks (total : Z) (clicks : list page_button) (historyPage : Z)
    : bool :=
  match clicks with
  | [] => true
  | b :: rest =>
      negb (match b with
            | Previous => previous_disabled historyPage
            | Next => next_disabled historyPage total
            end)
      && enabled_clicks total rest (on_click b historyPage)
  end.

(** ** The pricing calculator in floating point

    The numbers of [PricingCalculator] are IEEE 754 doubles. [vmPricing]
    and [hourlyRate] above read the prices as decimals; here they are the
    doubles that JavaScript computes with. *)

Module PricingCalculator.

Import PrimFloat SpecFloat FloatOps.

(** [vmPricing[vmType]]; [None] is [undefined]. Each literal denotes the
    double nearest to it. *)
#[warnings="-inexact-float"]
Definition vmPricing (vmType : string) : option float :=
  if String.eqb vmType "small" then Some 0.05%float
  else if String.eqb vmType "medium" then Some 0.10%float
  else if String.eqb vmType "large" then Some 0.20%float
  else if String.eqb vmType "xlarge" then Some 0.40%float
  else None.

(** [undefined] in a product is NaN. *)
Definition ToNumber (value : option float) : float := default nan value.

(** The number that a state of the calculator holds: its initial value
    or [parseInt] of the value of a slider, a natural number below
    [2^63]. *)
Definition number (value : Z) : float := of_uint63 (Uint63.of_Z value).

Definition hourlyRate (vmType : string) : option float := vmPricing vmType.

Definition dailyCost (vmType : string) (vmCount hoursPerDay : float) : float :=
  (ToNumber (hourlyRate vmType) * vmCount * hoursPerDay)%float.

Definition monthlyCost (vmType : string) (vmCount hoursPerDay daysPerMonth : float)
    : float :=
  (dailyCost vmType vmCount hoursPerDay * daysPerMonth)%float.

Definition yearlyCost (vmType : string) (vmCount hoursPerDay daysPerMonth : float)
    : float :=
  (monthlyCost vmType vmCount hoursPerDay daysPerMonth * 12)%float.

(** The amount shown as Hourly. *)
Definition hourlyCost (vmType : string) (vmCount : float) : float :=
  (ToNumber (hourlyRate vmType) * vmCount)%float.

(** The integer [n] for which [n / 100 - x] is as close to zero as
    possible, the larger one when there are two, for [x = m * 2^e]. *)
Definition hundredths (m : positive) (e : Z) : Z :=
  if 0 <=? e then 100 * Z.pos m * 2 ^ e
  else Z.shiftr (200 * Z.pos m + 2 ^ (- e)) (- e + 1).

(** The digits of [n], filled up with zeros to three, with a point before
    the last two. *)
Definition digits_2 (n : Z) : string :=
  let m := pretty n in
  let m := if (String.length m <=? 2)%nat
           then (String.concat "" (repeat "0" (3 - String.length m)) ++ m)%string
           else m in
  (substring 0 (String.length m - 2) m ++ "."
   ++ substring (String.length m - 2) 2 m)%string.

(** [x.toFixed(2)]. From [10^21] on the result is that of [ToString],
    which is not modelled: [None]. *)
Definition toFixed_2 (x : float) : option string :=
  match Prim2SF x with
  | S754_nan => Some "NaN"
  | S754_infinity s => Some (if s then "-Infinity" else "Infinity")
  | S754_zero _ => Some (digits_2 0)
  | S754_finite s m e =>
      if (0 <=? e) && (10 ^ 21 <=? Z.pos m * 2 ^ e) then None
      else Some ((if s then "-" else "") ++ digits_2 (hundredths m e))%string
  end.

(** [x] is positive, below [2^53] and [toFixed(2)] shows it as [n]
    hundredths. *)
Definition shows (x : float) (n : Z) : bool :=
  match Prim2SF x with
  | S754_finite false m e => (e <? 0) && (hundredths m e =? n)
  | _ => false
  end.

(** The positions of the sliders: 1 to 10 VMs, 1 to 24 hours, 1 to 31
    days. *)
Definition every_position (P : Z -> Z -> Z -> bool) : bool :=
  forallb (fun vmCount =>
    forallb (fun hoursPerDay =>
      forallb (fun daysPerMonth => P vmCount hoursPerDay daysPerMonth) (seqZ 1 31))
      (seqZ 1 24))
    (seqZ 1 10).

(** The four amounts of the calculator are shown as the decimal products
    of a price of [cents] hundredths. *)
Definition shown_exactly (vmType : string) (cents : Z) : bool :=
  every_position (fun vmCount hoursPerDay daysPerMonth =>
    let c := number vmCount in
    let h := number hoursPerDay in
    let d := number daysPerMonth in
    shows (hourlyCost vmType c) (cents * vmCount) &&
    shows (dailyCost vmType c h) (cents * vmCount * hoursPerDay) &&
    shows (monthlyCost vmType c h d) (cents * vmCount * hoursPerDay * daysPerMonth) &&
    shows (yearlyCost vmType c h d) (cents * vmCount * hoursPerDay * daysPerMonth * 12)).

End PricingCalculator.

(** ** Vocabulary for the checks *)

(** A usage that is NULL or between 0.00 and 100.00. *)
Definition usage_bounded (usage : option Z) : Prop :=
  match usage with
  | Some u => 0 <= u <= 10000
  | None => True
  end.

(** ** Sample data for the whole schema *)

(** A SET list that assigns [status] only. *)
Definition status_update (status : string) : vms_set :=
  {| set_vms_name := None; set_vms_instance_type := None; set_vms_image := None;
     set_vms_status := Some (fun _ => status); set_vms_ip_address := None;
     set_vms_cost_per_hour := None; set_vms_uptime_hours := None;
     set_vms_total_cost := None; set_vms_last_started := None;
     set_vms_last_stopped := None |}.

(** A usage charge of 0.05 on VM [3] of account [1]. *)
Definition sample_usage : billing_records_insert :=
  {| insert_billing_id := 1%N; insert_billing_user_id := 1%N;
     insert_billing_vm_id := Some 3%N; insert_billing_action_type := "vm_usage";
     insert_billing_amount := {| unscaled := 5; scale := 2 |};
     insert_billing_description := Some "1 hour";
     insert_billing_created_at := DEFAULT |}.

(** Metrics of VM [3]: a CPU usage of 12.5 and a memory usage of 40. *)
Definition sample_metrics : vm_metrics_insert :=
  {| insert_metrics_id := 21%N; insert_metrics_vm_id := 3%N;
     insert_metrics_cpu_usage := Some {| unscaled := 125; scale := 1 |};
     insert_metrics_memory_usage := Some {| unscaled := 40; scale := 0 |};
     insert_metrics_disk_usage := None;
     insert_metrics_network_in := DEFAULT; insert_metrics_network_out := DEFAULT;
     insert_metrics_recorded_at := DEFAULT |}.

(** Account [1] signs up and creates project [7]; VM [3] is inserted,
    runs from time 100 to time 3700, is charged and measured. *)
Definition lifetime_of_a_vm : list (timestamptz * list command) :=
  [(0, [SQL (INSERT_INTO_users (sample_account DEFAULT));
        SQL (INSERT_INTO_projects sample_project)]);
   (50, [SQL (INSERT_INTO_vms (sample_vm "small" DEFAULT DEFAULT))]);
   (100, [SQL (UPDATE_vms 3%N (status_update "running"))]);
   (3700, [SQL (UPDATE_vms 3%N (status_update "stopped"));
           SQL (INSERT_INTO_billing_records sample_usage)]);
   (3800, [INSERT_INTO_vm_metrics sample_metrics])].

(** An audit log entry of account [1]. *)
Definition sample_audit (id : uuid) : audit_logs_insert :=
  {| insert_audit_id := id; insert_audit_user_id := Some 1%N;
     insert_audit_action := "vm_create"; insert_audit_resource_type := "vms";
     insert_audit_resource_id := None; insert_audit_old_values := None;
     insert_audit_new_values := None; insert_audit_ip_address := None;
     insert_audit_user_agent := None; insert_audit_created_at := DEFAULT |}.

(** Account [1] and an audit log entry of the account about its own
    row. *)
Definition audited_profile : store :=
  replay [(0, [SQL (INSERT_INTO_users (sample_account DEFAULT))]);
          (10, [INSERT_INTO_audit_logs
                  {| insert_audit_id := 33%N; insert_audit_user_id := Some 1%N;
                     insert_audit_action := "profile_update";
                     insert_audit_resource_type := "users";
                     insert_audit_resource_id := Some 1%N;
                     insert_audit_old_values := None;
                     insert_audit_new_values := Some "{id: 1}";
                     insert_audit_ip_address := None;
                     insert_audit_user_agent := None;
                     insert_audit_created_at := DEFAULT |}])] empty_store.

(** Two audit log entries, written at time 10 and after 100 days. *)
Definition audited : store :=
  replay [(0, [SQL (INSERT_INTO_users (sample_account DEFAULT))]);
          (10, [INSERT_INTO_audit_logs (sample_audit 31%N)]);
          (100 * day, [INSERT_INTO_audit_logs (sample_audit 32%N)])] empty_store.

(** Account [1] with the projects [7] and [8] and one VM, of project
    [7], with three hours of uptime. *)
Definition two_projects : database :=
  run [(0, [INSERT_INTO_users (sample_account DEFAULT);
            INSERT_INTO_projects sample_project;
            INSERT_INTO_projects
              {| insert_projects_id := 8%N; insert_projects_name := "Staging";
                 insert_projects_description := None; insert_projects_user_id := 1%N;
                 insert_projects_created_at := DEFAULT;
                 insert_projects_updated_at := DEFAULT |};
            INSERT_INTO_vms (sample_vm "small" (VALUE "running")
                               (VALUE (Some {| unscaled := 3; scale := 0 |})))])]
      empty_database.

(** Account [1] with a [total_spent] of 99999999.99, the largest value of
    the column. *)
Definition big_spender : database :=
  run [(0, [INSERT_INTO_users
              {| insert_users_id := 1%N; insert_users_email := "demo@zentry.cloud";
                 insert_users_name := "Demo User";
                 insert_users_hashed_password := "$2b$12$";
                 insert_users_credits := DEFAULT;
                 insert_users_total_spent :=
                   VALUE (Some {| unscaled := 9999999999; scale := 2 |});
                 insert_users_is_active := DEFAULT;
                 insert_users_created_at := DEFAULT;
                 insert_users_updated_at := DEFAULT;
                 insert_users_last_login := None |}])] empty_database.

(** A second sign-up, as account [2], with the address of account [1]. *)
Definition same_address : list (timestamptz * list command) :=
  [(0, [SQL (INSERT_INTO_users (sample_account DEFAULT))]);
   (5, [SQL (INSERT_INTO_users
               {| insert_users_id := 2%N; insert_users_email := "demo@zentry.cloud";
                  insert_users_name := "Second User";
                  insert_users_hashed_password := "$2b$12$";
                  insert_users_credits := DEFAULT; insert_users_total_spent := DEFAULT;
                  insert_users_is_active := DEFAULT;
                  insert_users_created_at := DEFAULT;
                  insert_users_updated_at := DEFAULT;
                  insert_users_last_login := None |})])].

(** A charge of 0.01 to account [1]. *)
Definition one_cent : billing_records_insert :=
  {| insert_billing_id := 1%N; insert_billing_user_id := 1%N;
     insert_billing_vm_id := None; insert_billing_action_type := "vm_usage";
     insert_billing_amount := {| unscaled := 1; scale := 2 |};
     insert_billing_description := None;
     insert_billing_created_at := DEFAULT |}.

(** After a refresh of [user_stats]: account [2] signs up, account [1]
    is deleted. *)
Definition stale_view : list (timestamptz * list command) :=
  [(5, [SQL (INSERT_INTO_users
               {| insert_users_id := 2%N; insert_users_email := "second@zentry.cloud";
                  insert_users_name := "Second User";
                  insert_users_hashed_password := "$2b$12$";
                  insert_users_credits := DEFAULT; insert_users_total_spent := DEFAULT;
                  insert_users_is_active := DEFAULT;
                  insert_users_created_at := DEFAULT;
                  insert_users_updated_at := DEFAULT;
                  insert_users_last_login := None |})]);
   (6, [DELETE_FROM_users 1%N])].

(** ** Sample data for the frontend *)

(** A page in a browser whose [localStorage] holds a theme setting. *)
Definition visited_page : page :=
  {| api := {| baseURL := "http://localhost:8001"; token := None |};
     localStorage := Some {[ "theme" := "dark" ]} |}.

(** Two VMs of the dashboard, with the ids 7 and 9. *)
Definition listed_vm (id : Z) (status : string) : VM :=
  {| VM_id := id; VM_name := "web-server-01"; VM_instance_type := "small";
     VM_image := "ubuntu-22.04"; VM_status := status;
     VM_ip_address := "192.168.1.100"; VM_created_at := "2024-01-01T00:00:00Z" |}.

Definition listed_project (id : Z) : Project :=
  {| Project_id := id; Project_name := "My First Project";
     Project_description := "A sample project for testing";
     Project_created_at := "2024-01-01T00:00:00Z" |}.

(** A user that is a boolean, which JSON writes as [true] or [false]. *)
Definition sample_stringify (user : bool) : string :=
  if user then "true" else "false".

Definition sample_parse (text : string) : option bool :=
  if String.eqb text "true" then Some true
  else if String.eqb text "false" then Some false
  else None.

(** * Properties *)

(** ** Arithmetic of the column types *)

Section Numeric.

Lemma round_half_away_1 x : round_half_away x 1 = x.
Proof.
  unfold round_half_away. destruct (0 <=? x) eqn:E.
  - replace (2 * x + 1) with (1 + x * (2 * 1)) by lia.
    rewrite Z.div_add by lia. rewrite Z.div_small by lia. lia.
  - replace (2 * - x + 1) with (1 + (- x) * (2 * 1)) by lia.
    rewrite Z.div_add by lia. rewrite Z.div_small by lia. lia.
Qed.

Lemma round_half_away_nonneg x d : 0 <= x -> 0 < d -> 0 <= round_half_away x d.
Proof.
  intros Hx Hd. unfold round_half_away.
  destruct (Z.leb_spec 0 x); [|lia].
  apply Z.div_pos; lia.
Qed.

(** Adding a positive amount never rounds below the old total. *)
Lemma round_half_away_add_pos t a d :
  0 < d -> 0 < a -> t <= round_half_away (t * d + a) d.
Proof.
  intros Hd Ha. unfold round_half_away.
  destruct (Z.leb_spec 0 (t * d + a)).
  - apply Z.div_le_lower_bound; nia.
  - assert ((2 * - (t * d + a) + d) / (2 * d) <= - t); [|lia].
    apply Z.lt_succ_r, Z.div_lt_upper_bound; nia.
Qed.

(** An amount that is a whole multiple of the dropped unit is added
    exactly. *)
Lemma round_half_away_exact t k d :
  0 < d -> round_half_away (t * d + k * d) d = t + k.
Proof.
  intros Hd. unfold round_half_away.
  destruct (Z.leb_spec 0 (t * d + k * d)).
  - replace (2 * (t * d + k * d) + d) with (d + (t + k) * (2 * d)) by lia.
    rewrite Z.div_add by lia. rewrite Z.div_small by lia. lia.
  - replace (2 * - (t * d + k * d) + d) with (d + (- (t + k)) * (2 * d)) by lia.
    rewrite Z.div_add by lia. rewrite Z.div_small by lia. lia.
Qed.

Lemma rescale_column s v : rescale s (column s v) = v.
Proof.
  unfold rescale, column; simpl. rewrite Z.sub_diag. simpl.
  apply round_half_away_1.
Qed.

Lemma rescale_total_spent_add t a :
  rescale 2 (numeric_add (column 2 t) (column 4 a)) = round_half_away (t * 100 + a) 100.
Proof.
  unfold rescale, numeric_add, column; simpl.
  change (10 ^ (Z.max 2 4 - 2)) with 100.
  change (10 ^ (Z.max 2 4 - 4)) with 1.
  f_equal; lia.
Qed.

Lemma rescale_uptime_cost u c :
  rescale 2 (numeric_mul (column 2 u) (column 4 c)) = round_half_away (u * c) 10000.
Proof. reflexivity. Qed.


Lemma numeric_cast_Ok p s n v :
  numeric_cast p s n = Ok v -> v = rescale s n /\ Z.abs v < 10 ^ p.
Proof.
  unfold numeric_cast. destruct (Z.ltb_spec (Z.abs (rescale s n)) (10 ^ p)); [|discriminate].
  intros [= <-]. auto.
Qed.

Lemma numeric_cast_null_Ok p s n v :
  numeric_cast_null p s n = Ok v -> v = rescale s <$> n.
Proof.
  destruct n as [n|]; simpl; [|intros [= <-]; reflexivity].
  destruct (numeric_cast p s n) eqn:E; simpl; [|discriminate].
  intros [= <-]. apply numeric_cast_Ok in E as [-> _]. reflexivity.
Qed.

Lemma instance_type_rate_cast instance_type :
  numeric_cast 6 4 (instance_type_rate instance_type)
  = Ok (rescale 4 (instance_type_rate instance_type)).
Proof.
  unfold instance_type_rate.
  repeat match goal with |- context [if ?b then _ else _] => destruct b end;
    reflexivity.
Qed.

Lemma instance_type_rate_pricing instance_type :
  existsb (String.eqb instance_type) instance_types = true ->
  In (instance_type, rescale 4 (instance_type_rate instance_type)) pricing.
Proof.
  unfold instance_type_rate, instance_types, pricing. simpl.
  destruct (String.eqb_spec instance_type "small") as [->|]; [simpl; auto|].
  destruct (String.eqb_spec instance_type "medium") as [->|]; [simpl; auto|].
  destruct (String.eqb_spec instance_type "large") as [->|]; [simpl; auto|].
  destruct (String.eqb_spec instance_type "xlarge") as [->|]; [simpl; auto 6|].
  discriminate.
Qed.

End Numeric.

(** ** Strings *)

Section Strings.

Lemma substring_length (s : string) (n : nat) :
  (n <= String.length s)%nat -> String.length (substring 0 n s) = n.
Proof.
  revert n. induction s as [|c s IH]; intros [|n] H; simpl in *; try lia.
  rewrite IH; lia.
Qed.

(** What [VARCHAR(n)] stores: the string itself, or its first [n]
    characters when only spaces are cut. *)
Lemma varchar_Ok n s s' :
  varchar n s = Ok s' ->
  (s' = s /\ (String.length s <= n)%nat)
  \/ (String.length s' = n /\ (n < String.length s)%nat).
Proof.
  unfold varchar. destruct (Nat.leb_spec (String.length s) n).
  - intros [= <-]. auto.
  - destruct (all_spaces _); [|discriminate]. intros [= <-]. right.
    split; [apply substring_length|]; lia.
Qed.

Lemma varchar_short n s : (String.length s <= n)%nat -> varchar n s = Ok s.
Proof.
  intros H. unfold varchar. destruct (Nat.leb_spec (String.length s) n); [reflexivity|lia].
Qed.

Lemma varchar_length n s s' : varchar n s = Ok s' -> (String.length s' <= n)%nat.
Proof. intros H. apply varchar_Ok in H as [[-> ?]|[? ?]]; lia. Qed.

(** A class that is not in the list stays out of it when cut to 20
    characters. *)
Lemma varchar_instance_type s s' :
  varchar 20 s = Ok s' ->
  existsb (String.eqb s) instance_types = false ->
  existsb (String.eqb s') instance_types = false.
Proof.
  intros H Hs. apply varchar_Ok in H as [[-> _]|[Hlen _]]; [assumption|].
  unfold instance_types; simpl.
  repeat match goal with
         | |- context [String.eqb s' ?c] =>
             destruct (String.eqb_spec s' c) as [->|]; [discriminate Hlen|]
         end.
  reflexivity.
Qed.

End Strings.

(** ** The result monad *)

Lemma bind_Ok {A B} (m : result A) (f : A -> result B) (b : B) :
  m ≫= f = Ok b -> exists a, m = Ok a /\ f a = Ok b.
Proof. destruct m; simpl; [eauto|discriminate]. Qed.

Lemma check_Ok constraint cond u :
  check constraint cond = Ok u -> cond <> Some false.
Proof. destruct cond as [[]|]; simpl; congruence. Qed.

Ltac inv_bind H :=
  repeat (let x := fresh "x" in let E := fresh "E" in
          apply bind_Ok in H as (x & E & H)).

(** ** Rows and statements *)

Section Users.

Lemma users_constraints_Ok r :
  users_constraints r = Ok tt ->
  nonneg_or_null (users_credits r) /\ nonneg_or_null (users_total_spent r).
Proof.
  unfold users_constraints. intros H. inv_bind H. destruct x.
  apply check_Ok in E, H.
  split.
  - destruct (users_credits r) as [c|]; simpl in *; [|exact I].
    destruct (Z.leb_spec 0 c); congruence.
  - destruct (users_total_spent r) as [c|]; simpl in *; [|exact I].
    destruct (Z.leb_spec 0 c); congruence.
Qed.

Lemma users_inserted_row_Ok now ins row :
  users_inserted_row now ins = Ok row ->
  users_constraints row = Ok tt /\
  users_credits row =
    (rescale 2 <$> or_default (Some {| unscaled := 5000; scale := 2 |})
                     (insert_users_credits ins)) /\
  users_total_spent row =
    (rescale 2 <$> or_default (Some {| unscaled := 0; scale := 2 |})
                     (insert_users_total_spent ins)).
Proof.
  unfold users_inserted_row. intros H. inv_bind H.
  destruct x4. injection H as <-. simpl.
  apply numeric_cast_null_Ok in E2, E3. auto.
Qed.

Lemma insert_users_Ok now ins db db' :
  insert_users now ins db = Ok db' ->
  exists row, users_inserted_row now ins = Ok row /\
    users db !! insert_users_id ins = None /\
    db' = with_users (<[insert_users_id ins := row]> (users db)) db.
Proof.
  unfold insert_users. intros H. inv_bind H.
  case_bool_decide as Hid; [discriminate|].
  destruct (email_taken _ _ _); [discriminate|]. injection H as <-.
  exists x. repeat split; [assumption|].
  destruct (users db !! insert_users_id ins) eqn:L; [|reflexivity].
  exfalso. apply Hid. eauto.
Qed.

Lemma update_users_Ok now id set db db' :
  update_users now id set db = Ok db' ->
  match users db !! id with
  | None => db' = db
  | Some old => exists new, users_updated_row now set old = Ok new /\
                  db' = with_users (<[id := new]> (users db)) db
  end.
Proof.
  unfold update_users. destruct (users db !! id) as [old|]; [|congruence].
  intros H. inv_bind H. destruct (email_taken _ _ _); [discriminate|].
  injection H as <-. eauto.
Qed.

(** The row an UPDATE stores passes the CHECK constraints, carries the
    transaction's timestamp, and differs from the old row only in assigned
    columns and [updated_at]. *)
Lemma users_updated_row_Ok now set old new :
  users_updated_row now set old = Ok new ->
  users_constraints new = Ok tt /\
  users_updated_at new = Some now /\
  users_created_at new = users_created_at old /\
  assign_cast (varchar 255) old (users_email old) (set_users_email set)
    = Ok (users_email new) /\
  assign_cast (varchar 100) old (users_name old) (set_users_name set)
    = Ok (users_name new) /\
  assign_cast (varchar 255) old (users_hashed_password old)
    (set_users_hashed_password set) = Ok (users_hashed_password new) /\
  assign_cast (numeric_cast_null 10 2) old (users_credits old) (set_users_credits set)
    = Ok (users_credits new) /\
  assign_cast (numeric_cast_null 10 2) old (users_total_spent old)
    (set_users_total_spent set) = Ok (users_total_spent new) /\
  users_is_active new = assign old (users_is_active old) (set_users_is_active set) /\
  users_last_login new = assign old (users_last_login old) (set_users_last_login set).
Proof.
  unfold users_updated_row. intros H. inv_bind H.
  destruct x4. injection H as <-. simpl. rewrite E, E0, E1, E2, E3.
  repeat split; assumption.
Qed.

Lemma users_row_eq (a b : users_row) :
  users_email a = users_email b -> users_name a = users_name b ->
  users_hashed_password a = users_hashed_password b ->
  users_credits a = users_credits b -> users_total_spent a = users_total_spent b ->
  users_is_active a = users_is_active b -> users_created_at a = users_created_at b ->
  users_updated_at a = users_updated_at b -> users_last_login a = users_last_login b ->
  a = b.
Proof. destruct a, b; simpl; intros; subst; reflexivity. Qed.

(** The UPDATE of [update_user_spending] stores the old row with the
    amount added to [total_spent] and with a fresh [updated_at]. *)
Lemma users_updated_row_spending now NEW old new :
  users_updated_row now (spending_update NEW) old = Ok new ->
  new = update_updated_at_column now
          (users_with_total_spent
             (add_spending (billing_amount NEW) (users_total_spent old)) old).
Proof.
  intros H. apply users_updated_row_Ok in H
    as (_ & Hu & Hc & He & Hn & Hp & Hcr & Hts & Ha & Hl).
  simpl in *. injection He as He. injection Hn as Hn. injection Hp as Hp.
  injection Hcr as Hcr. apply numeric_cast_null_Ok in Hts.
  apply users_row_eq; simpl; try congruence.
  rewrite Hts. unfold add_spending.
  destruct (users_total_spent old); simpl; [|reflexivity].
  by rewrite rescale_total_spent_add.
Qed.

End Users.

Section Billing.

Lemma billing_inserted_row_Ok now ins row :
  billing_inserted_row now ins = Ok row ->
  varchar 50 (insert_billing_action_type ins) = Ok (billing_action_type row) /\
  billing_amount row = rescale 4 (insert_billing_amount ins) /\
  billing_amount row <> 0 /\
  billing_user_id row = insert_billing_user_id ins /\
  billing_id row = insert_billing_id ins.
Proof.
  unfold billing_inserted_row. intros H. inv_bind H. destruct x1.
  injection H as <-. simpl. apply numeric_cast_Ok in E0 as [-> _].
  apply check_Ok in E1.
  repeat split; try assumption.
  intros Hz. apply E1. rewrite Hz. reflexivity.
Qed.

(** What a successful [INSERT INTO billing_records] does: the row is
    appended, and the trigger updates the owner when the amount is
    positive. *)
Lemma insert_billing_records_Ok now ins db db' :
  insert_billing_records now ins db = Ok db' ->
  exists row old,
    billing_inserted_row now ins = Ok row /\
    users db !! billing_user_id row = Some old /\
    billing_records db' = (billing_records db ++ [row])%list /\
    vms db' = vms db /\ projects db' = projects db /\
    if 0 <? billing_amount row
    then exists new, users_updated_row now (spending_update row) old = Ok new /\
           users db' = <[billing_user_id row := new]> (users db)
    else users db' = users db.
Proof.
  unfold insert_billing_records. intros H. inv_bind H. rename x into row.
  destruct (existsb _ _); [discriminate|].
  case_bool_decide as Hu; [|discriminate]. destruct Hu as [old Hold].
  simpl in H. destruct (negb _); [discriminate|].
  exists row, old. split; [assumption|]. split; [assumption|].
  unfold update_user_spending in H.
  destruct (0 <? billing_amount row).
  - apply update_users_Ok in H. simpl in H. rewrite Hold in H.
    destruct H as (new & Hnew & ->). simpl. eauto 10.
  - injection H as <-. simpl. auto.
Qed.

End Billing.

Section Vms.

Lemma insert_projects_Ok now ins db db' :
  insert_projects now ins db = Ok db' ->
  users db' = users db /\ vms db' = vms db /\
  billing_records db' = billing_records db.
Proof.
  unfold insert_projects. intros H. inv_bind H.
  repeat (destruct (_ : bool) in H; [discriminate|]).
  injection H as <-. auto.
Qed.

Lemma insert_vms_Ok now ins db db' :
  insert_vms now ins db = Ok db' ->
  exists row, vms_inserted_row now ins = Ok row /\
    vms db !! insert_vms_id ins = None /\
    db' = with_vms (<[insert_vms_id ins := row]> (vms db)) db.
Proof.
  unfold insert_vms. intros H. inv_bind H.
  case_bool_decide as Hid; [discriminate|]. inv_bind H. injection H as <-.
  exists x. repeat split; [assumption|].
  destruct (vms db !! insert_vms_id ins) eqn:L; [|reflexivity].
  exfalso. apply Hid. eauto.
Qed.

Lemma update_vms_Ok now id set db db' :
  update_vms now id set db = Ok db' ->
  match vms db !! id with
  | None => db' = db
  | Some old => exists new, vms_updated_row now set old = Ok new /\
                  db' = with_vms (<[id := new]> (vms db)) db
  end.
Proof.
  unfold update_vms. destruct (vms db !! id) as [old|]; [|congruence].
  intros H. inv_bind H. injection H as <-. eauto.
Qed.

(** [update_vm_costs] overwrites [cost_per_hour] with the rate of the
    class and [total_cost] with the rounded product, and nothing else. *)
Lemma update_vm_costs_Ok NEW r :
  update_vm_costs NEW = Ok r ->
  vms_cost_per_hour r = Some (rescale 4 (instance_type_rate (vms_instance_type NEW))) /\
  vms_total_cost r =
    ((fun u => round_half_away
                 (u * rescale 4 (instance_type_rate (vms_instance_type NEW))) 10000)
     <$> vms_uptime_hours NEW) /\
  vms_instance_type r = vms_instance_type NEW /\
  vms_uptime_hours r = vms_uptime_hours NEW /\
  vms_status r = vms_status NEW /\
  vms_user_id r = vms_user_id NEW.
Proof.
  unfold update_vm_costs. rewrite instance_type_rate_cast. simpl.
  intros H. inv_bind H. injection H as <-. simpl.
  apply numeric_cast_null_Ok in E. rewrite E.
  repeat split. destruct (vms_uptime_hours NEW); reflexivity.
Qed.

Lemma vms_constraints_Ok r :
  vms_constraints r = Ok tt ->
  existsb (String.eqb (vms_instance_type r)) instance_types = true /\
  In (vms_status r) statuses.
Proof.
  unfold vms_constraints. intros H. inv_bind H.
  apply check_Ok in E3, H. split.
  - destruct (existsb _ instance_types); congruence.
  - destruct (existsb _ statuses) eqn:Hs; [|congruence].
    apply existsb_exists in Hs as (s & Hin & Heq).
    apply String.eqb_eq in Heq. congruence.
Qed.

Lemma costs_accrued_intro r c :
  existsb (String.eqb (vms_instance_type r)) instance_types = true ->
  c = rescale 4 (instance_type_rate (vms_instance_type r)) ->
  vms_cost_per_hour r = Some c ->
  vms_total_cost r = ((fun u => round_half_away (u * c) 10000) <$> vms_uptime_hours r) ->
  costs_accrued r.
Proof.
  intros Hclass -> Hc Ht. eexists. split; [|split; eassumption].
  by apply instance_type_rate_pricing.
Qed.

Lemma vms_inserted_row_Ok now ins row :
  vms_inserted_row now ins = Ok row ->
  costs_accrued row /\ In (vms_status row) statuses /\
  varchar 20 (insert_vms_instance_type ins) = Ok (vms_instance_type row) /\
  vms_cost_per_hour row = Some (rescale 4 (instance_type_rate (vms_instance_type row))).
Proof.
  unfold vms_inserted_row. intros H. inv_bind H. destruct x7.
  injection H as <-.
  apply update_vm_costs_Ok in E6 as (Hc & Ht & Hi & Hu & _).
  apply vms_constraints_Ok in E7 as [Hclass Hstatus].
  cbn [vms_instance_type vms_uptime_hours] in *. subst x0 x4.
  split; [|split; [assumption|split; assumption]].
  by eapply costs_accrued_intro.
Qed.

Lemma vms_updated_row_Ok now set old new :
  vms_updated_row now set old = Ok new ->
  costs_accrued new /\ In (vms_status new) statuses /\
  assign_cast (varchar 20) old (vms_instance_type old) (set_vms_instance_type set)
    = Ok (vms_instance_type new) /\
  assign_cast (varchar 20) old (vms_status old) (set_vms_status set)
    = Ok (vms_status new) /\
  vms_cost_per_hour new = Some (rescale 4 (instance_type_rate (vms_instance_type new))) /\
  vms_user_id new = vms_user_id old.
Proof.
  unfold vms_updated_row. intros H. inv_bind H. destruct x7.
  injection H as <-.
  apply update_vm_costs_Ok in E6 as (Hc & Ht & Hi & Hu & Hs & Ho).
  apply vms_constraints_Ok in E7 as [Hclass Hstatus].
  cbn [vms_instance_type vms_uptime_hours vms_status vms_user_id
       update_updated_at_column set_updated_at vms_set_updated_at
       vms_cost_per_hour vms_total_cost] in *.
  subst x0 x4 x2.
  split; [by eapply costs_accrued_intro|]. auto 6.
Qed.

End Vms.

(** ** The ledger: [total_spent] against [billing_records] *)

Section Ledger.

Lemma spending_from_ledger_app account l1 l2 initial :
  spending_from_ledger account (l1 ++ l2) initial
  = spending_from_ledger account l2 (spending_from_ledger account l1 initial).
Proof. apply fold_left_app. Qed.

Lemma add_spending_not_decreased amount t :
  0 < amount -> not_decreased t (add_spending amount t).
Proof.
  intros Ha. destruct t as [t|]; simpl; [|exact I].
  apply round_half_away_add_pos; lia.
Qed.

Lemma not_decreased_refl t : not_decreased t t.
Proof. destruct t; simpl; [lia|exact I]. Qed.

Lemma not_decreased_trans a b c :
  not_decreased a b -> not_decreased b c -> not_decreased a c.
Proof. destruct a, b, c; simpl; try tauto; lia. Qed.

Lemma spending_from_ledger_not_decreased account entries initial :
  not_decreased initial (spending_from_ledger account entries initial).
Proof.
  revert initial. induction entries as [|r entries IH]; intros initial; simpl.
  - apply not_decreased_refl.
  - eapply not_decreased_trans; [|apply IH].
    unfold counts_as_spending.
    destruct (N.eqb _ _); simpl; [|apply not_decreased_refl].
    destruct (Z.ltb_spec 0 (billing_amount r)); [|apply not_decreased_refl].
    by apply add_spending_not_decreased.
Qed.

(** One statement: the account stays, the ledger grows by the entries the
    statement appends, and [total_spent] advances by exactly those. *)
Lemma execute_ledger now s db db' account old :
  execute now s db = Ok db' ->
  leaves_total_spent s = true ->
  users db !! account = Some old ->
  exists new appended,
    users db' !! account = Some new /\
    billing_records db' = (billing_records db ++ appended)%list /\
    users_total_spent new
      = spending_from_ledger account appended (users_total_spent old) /\
    (appends_entry s = true -> users_credits new = users_credits old).
Proof.
  intros H Hs Hold. destruct s as [ins|id set|ins|ins|id set|ins]; simpl in *.
  - apply insert_users_Ok in H as (row & _ & Hid & ->). simpl.
    exists old, []. rewrite app_nil_r.
    rewrite lookup_insert_ne by congruence. auto.
  - apply update_users_Ok in H.
    destruct (decide (id = account)) as [->|Hne].
    + rewrite Hold in H. destruct H as (new & Hnew & ->). simpl.
      exists new, []. rewrite app_nil_r, lookup_insert_eq.
      apply users_updated_row_Ok in Hnew as (_ & _ & _ & _ & _ & _ & _ & Hts & _).
      destruct (set_users_total_spent set); [discriminate|].
      injection Hts as Hts.
      split; [reflexivity|]. split; [reflexivity|].
      split; [by rewrite <- Hts|discriminate].
    + exists old, []. rewrite app_nil_r.
      destruct (users db !! id).
      * destruct H as (new & _ & ->). simpl.
        rewrite lookup_insert_ne by assumption. auto.
      * subst db'. auto.
  - apply insert_projects_Ok in H as (Hu & _ & Hb).
    exists old, []. rewrite app_nil_r, Hu, Hb. auto.
  - apply insert_vms_Ok in H as (row & _ & _ & ->). simpl.
    exists old, []. rewrite app_nil_r. auto.
  - apply update_vms_Ok in H. exists old, []. rewrite app_nil_r.
    destruct (vms db !! id).
    + destruct H as (new & _ & ->). simpl. auto.
    + subst db'. auto.
  - apply insert_billing_records_Ok in H
      as (row & owner & Hrow & Howner & Hb & _ & _ & Hu).
    unfold spending_from_ledger, counts_as_spending.
    destruct (0 <? billing_amount row) eqn:Hpos.
    + destruct Hu as (new & Hnew & Hu).
      apply users_updated_row_spending in Hnew. subst new.
      destruct (N.eqb_spec (billing_user_id row) account) as [Heq|Hne].
      * rewrite Heq, Hold in Howner. injection Howner as <-.
        eexists; exists [row]. simpl.
        rewrite Hu, Heq, lookup_insert_eq, N.eqb_refl, Hpos. auto.
      * exists old, [row]. simpl.
        rewrite Hu, lookup_insert_ne by assumption.
        destruct (N.eqb_spec (billing_user_id row) account); [contradiction|].
        auto.
    + exists old, [row]. simpl. rewrite Hu, Hpos, andb_false_r. auto.
Qed.

Lemma transaction_ledger now body db db' account old :
  transaction now body db = Ok db' ->
  forallb leaves_total_spent body = true ->
  users db !! account = Some old ->
  exists new appended,
    users db' !! account = Some new /\
    billing_records db' = (billing_records db ++ appended)%list /\
    users_total_spent new
      = spending_from_ledger account appended (users_total_spent old) /\
    (forallb appends_entry body = true -> users_credits new = users_credits old).
Proof.
  revert db old. induction body as [|s body IH]; intros db old H Hs Hold; simpl in *.
  - injection H as <-. exists old, []. rewrite app_nil_r. auto.
  - apply andb_true_iff in Hs as [Hs Hbody].
    apply bind_Ok in H as (mid & Hmid & H).
    destruct (execute_ledger _ _ _ _ _ _ Hmid Hs Hold)
      as (mid_row & l1 & Hrow & Hl1 & Ht1 & Hc1).
    destruct (IH _ _ H Hbody Hrow) as (new & l2 & Hnew & Hl2 & Ht2 & Hc2).
    exists new, (l1 ++ l2)%list. split; [assumption|].
    split; [by rewrite Hl2, Hl1, app_assoc|].
    split; [by rewrite spending_from_ledger_app, <- Ht1|].
    intros [Ha Hb]%andb_true_iff. rewrite Hc2, Hc1; auto.
Qed.

Lemma run_ledger history db account old :
  every_statement leaves_total_spent history = true ->
  users db !! account = Some old ->
  exists new appended,
    users (run history db) !! account = Some new /\
    billing_records (run history db) = (billing_records db ++ appended)%list /\
    users_total_spent new
      = spending_from_ledger account appended (users_total_spent old) /\
    (every_statement appends_entry history = true ->
     users_credits new = users_credits old).
Proof.
  revert db old. induction history as [|[now body] history IH];
    intros db old Hs Hold; simpl in *.
  - exists old, []. rewrite app_nil_r. auto.
  - apply andb_true_iff in Hs as [Hs Hhistory].
    destruct (transaction now body db) as [mid|e] eqn:Hmid; simpl.
    + destruct (transaction_ledger _ _ _ _ _ _ Hmid Hs Hold)
        as (mid_row & l1 & Hrow & Hl1 & Ht1 & Hc1).
      destruct (IH _ _ Hhistory Hrow) as (new & l2 & Hnew & Hl2 & Ht2 & Hc2).
      exists new, (l1 ++ l2)%list. split; [assumption|].
      split; [by rewrite Hl2, Hl1, app_assoc|].
      split; [by rewrite spending_from_ledger_app, <- Ht1|].
      intros [Ha Hb]%andb_true_iff. rewrite Hc2, Hc1; auto.
    + destruct (IH _ _ Hhistory Hold) as (new & l2 & Hnew & Hl2 & Ht2 & Hc2).
      exists new, l2. repeat split; try assumption.
      intros [Ha Hb]%andb_true_iff. auto.
Qed.

End Ledger.

(** ** Invariants of every reachable database *)

Section Invariants.

Variable P : database -> Prop.
Variable Q : statement -> bool.
Hypothesis execute_preserves :
  forall now s db db', Q s = true -> execute now s db = Ok db' -> P db -> P db'.

Lemma transaction_invariant_when now body db db' :
  forallb Q body = true -> transaction now body db = Ok db' -> P db -> P db'.
Proof.
  revert db. induction body as [|s body IH]; intros db HQ H HP; simpl in *.
  - by injection H as <-.
  - apply andb_true_iff in HQ as [Hs Hbody].
    apply bind_Ok in H as (mid & Hmid & H). eauto.
Qed.

Lemma run_invariant_when history db :
  every_statement Q history = true -> P db -> P (run history db).
Proof.
  revert db. induction history as [|[now body] history IH]; intros db HQ HP;
    simpl in *.
  - assumption.
  - apply andb_true_iff in HQ as [Hbody Hhistory].
    apply IH; [assumption|].
    destruct (transaction now body db) eqn:H; simpl; [|assumption].
    eapply transaction_invariant_when; eassumption.
Qed.

End Invariants.

Lemma every_statement_true history : every_statement (fun _ => true) history = true.
Proof.
  induction history as [|[now body] history IH]; simpl; [reflexivity|].
  rewrite IH, andb_true_r. induction body; simpl; auto.
Qed.

Lemma run_invariant (P : database -> Prop) :
  (forall now s db db', execute now s db = Ok db' -> P db -> P db') ->
  forall history db, P db -> P (run history db).
Proof.
  intros HP history db. apply (run_invariant_when P (fun _ => true)); [eauto|].
  apply every_statement_true.
Qed.

(** The effect of one statement on [billing_records] and on [vms]. *)
Lemma execute_billing_records now s db db' :
  execute now s db = Ok db' ->
  billing_records db' = billing_records db \/
  exists ins row, s = INSERT_INTO_billing_records ins /\
    billing_inserted_row now ins = Ok row /\
    billing_records db' = (billing_records db ++ [row])%list.
Proof.
  intros H. destruct s as [ins|id set|ins|ins|id set|ins]; simpl in H.
  - apply insert_users_Ok in H as (row & _ & _ & ->). auto.
  - apply update_users_Ok in H. destruct (users db !! id).
    + destruct H as (new & _ & ->). auto.
    + subst. auto.
  - apply insert_projects_Ok in H as (_ & _ & Hb). auto.
  - apply insert_vms_Ok in H as (row & _ & _ & ->). auto.
  - apply update_vms_Ok in H. destruct (vms db !! id).
    + destruct H as (new & _ & ->). auto.
    + subst. auto.
  - apply insert_billing_records_Ok in H as (row & _ & Hrow & _ & Hb & _).
    right. eauto.
Qed.

Lemma execute_vms now s db db' id r' :
  execute now s db = Ok db' ->
  vms db' !! id = Some r' ->
  vms db !! id = Some r' \/
  (exists ins, s = INSERT_INTO_vms ins /\ id = insert_vms_id ins /\
     vms db !! id = None /\ vms_inserted_row now ins = Ok r') \/
  (exists set old, s = UPDATE_vms id set /\ vms db !! id = Some old /\
     vms_updated_row now set old = Ok r').
Proof.
  intros H Hr'. destruct s as [ins|id' set|ins|ins|id' set|ins]; simpl in H.
  - apply insert_users_Ok in H as (row & _ & _ & ->). auto.
  - apply update_users_Ok in H. destruct (users db !! id').
    + destruct H as (new & _ & ->). auto.
    + subst. auto.
  - apply insert_projects_Ok in H as (_ & Hv & _). rewrite Hv in Hr'. auto.
  - apply insert_vms_Ok in H as (row & Hrow & Hnone & ->). simpl in Hr'.
    destruct (decide (insert_vms_id ins = id)) as [<-|Hne].
    + rewrite lookup_insert_eq in Hr'. injection Hr' as <-. right. left. eauto.
    + rewrite lookup_insert_ne in Hr' by assumption. auto.
  - apply update_vms_Ok in H. destruct (vms db !! id') as [old|] eqn:Hold.
    + destruct H as (new & Hnew & ->). simpl in Hr'.
      destruct (decide (id' = id)) as [<-|Hne].
      * rewrite lookup_insert_eq in Hr'. injection Hr' as <-. right. right. eauto.
      * rewrite lookup_insert_ne in Hr' by assumption. auto.
    + subst. auto.
  - apply insert_billing_records_Ok in H as (row & _ & _ & _ & _ & Hv & _).
    rewrite Hv in Hr'. auto.
Qed.

(** Rows of [vms] are never removed. *)
Lemma execute_vms_kept now s db db' id r :
  execute now s db = Ok db' ->
  vms db !! id = Some r ->
  exists r', vms db' !! id = Some r'.
Proof.
  intros H Hr. destruct s as [ins|id' set|ins|ins|id' set|ins]; simpl in H.
  - apply insert_users_Ok in H as (row & _ & _ & ->). eauto.
  - apply update_users_Ok in H. destruct (users db !! id').
    + destruct H as (new & _ & ->). eauto.
    + subst. eauto.
  - apply insert_projects_Ok in H as (_ & Hv & _). rewrite Hv. eauto.
  - apply insert_vms_Ok in H as (row & Hrow & Hnone & ->). simpl.
    rewrite lookup_insert_ne by congruence. eauto.
  - apply update_vms_Ok in H. destruct (vms db !! id') as [old|] eqn:Hold.
    + destruct H as (new & Hnew & ->). simpl.
      destruct (decide (id' = id)) as [<-|Hne].
      * rewrite lookup_insert_eq. eauto.
      * rewrite lookup_insert_ne by assumption. eauto.
    + subst. eauto.
  - apply insert_billing_records_Ok in H as (row & _ & _ & _ & _ & Hv & _).
    rewrite Hv. eauto.
Qed.

Lemma action_types_fit history :
  Forall (fun r => (String.length (billing_action_type r) <= 50)%nat)
         (billing_records (run history empty_database)).
Proof.
  apply (run_invariant (fun db =>
    Forall (fun r => (String.length (billing_action_type r) <= 50)%nat)
           (billing_records db))); [|constructor].
  intros now s db db' H HP.
  apply execute_billing_records in H as [->|(ins & row & _ & Hrow & ->)];
    [assumption|].
  apply Forall_app. split; [assumption|]. constructor; [|constructor].
  apply billing_inserted_row_Ok in Hrow as (Ha & _).
  by apply varchar_length in Ha.
Qed.

Lemma costs_accrued_everywhere history :
  map_Forall (fun _ r => costs_accrued r) (vms (run history empty_database)).
Proof.
  apply (run_invariant (fun db => map_Forall (fun _ r => costs_accrued r) (vms db)));
    [|apply map_Forall_empty].
  intros now s db db' H HP id r' Hr'.
  destruct (execute_vms _ _ _ _ _ _ H Hr')
    as [Hold|[(ins & _ & _ & _ & Hrow)|(set & old & _ & _ & Hrow)]].
  - exact (HP id r' Hold).
  - by apply vms_inserted_row_Ok in Hrow as [? _].
  - by apply vms_updated_row_Ok in Hrow as [? _].
Qed.

(** An update that does not assign [instance_type] stores the rate the
    row already carries. *)
Lemma execute_keeps_cost now s db db' id instance_type :
  keeps_instance_type s = true ->
  execute now s db = Ok db' ->
  (exists r, vms db !! id = Some r /\ vms_instance_type r = instance_type /\
     vms_cost_per_hour r = Some (rescale 4 (instance_type_rate instance_type))) ->
  (exists r, vms db' !! id = Some r /\ vms_instance_type r = instance_type /\
     vms_cost_per_hour r = Some (rescale 4 (instance_type_rate instance_type))).
Proof.
  intros Hs H (r & Hr & Hi & Hc).
  destruct (execute_vms_kept _ _ _ _ _ _ H Hr) as [r' Hr'].
  exists r'. split; [assumption|].
  destruct (execute_vms _ _ _ _ _ _ H Hr')
    as [Hold|[(ins & _ & _ & Hnone & _)|(set & old & -> & Hold & Hrow)]].
  - rewrite Hr in Hold. injection Hold as <-. auto.
  - congruence.
  - rewrite Hr in Hold. injection Hold as <-.
    apply vms_updated_row_Ok in Hrow as (_ & _ & Hit & _ & Hcost & _).
    simpl in Hs. destruct (set_vms_instance_type set); [discriminate|].
    injection Hit as Hit. rewrite Hcost, <- Hit, Hi. auto.
Qed.

Lemma pricing_instance_types instance_type c :
  In (instance_type, c) pricing ->
  existsb (String.eqb instance_type) instance_types = true.
Proof.
  unfold pricing, instance_types. simpl.
  intros [[= <- _]|[[= <- _]|[[= <- _]|[[= <- _]|[]]]]]; reflexivity.
Qed.

Lemma instance_type_rate_unknown instance_type :
  existsb (String.eqb instance_type) instance_types = false ->
  instance_type_rate instance_type = {| unscaled := 5; scale := 2 |}.
Proof.
  unfold instance_types, instance_type_rate. simpl.
  repeat match goal with
         | |- context [String.eqb instance_type ?c] =>
             destruct (String.eqb instance_type c); [discriminate|]
         end.
  reflexivity.
Qed.

(** ** Balances *)

(** A users row that a statement wrote passed the CHECK constraints. *)
Lemma execute_users now s db db' account new :
  execute now s db = Ok db' ->
  users db' !! account = Some new ->
  users db !! account = Some new \/ users_constraints new = Ok tt.
Proof.
  intros H Hnew. destruct s as [ins|id set|ins|ins|id set|ins]; simpl in H.
  - apply insert_users_Ok in H as (row & Hrow & _ & ->). simpl in Hnew.
    destruct (decide (insert_users_id ins = account)) as [<-|Hne].
    + rewrite lookup_insert_eq in Hnew. injection Hnew as <-.
      apply users_inserted_row_Ok in Hrow as [? _]. auto.
    + rewrite lookup_insert_ne in Hnew by assumption. auto.
  - apply update_users_Ok in H. destruct (users db !! id) as [old|].
    + destruct H as (row & Hrow & ->). simpl in Hnew.
      destruct (decide (id = account)) as [<-|Hne].
      * rewrite lookup_insert_eq in Hnew. injection Hnew as <-.
        apply users_updated_row_Ok in Hrow as [? _]. auto.
      * rewrite lookup_insert_ne in Hnew by assumption. auto.
    + subst. auto.
  - apply insert_projects_Ok in H as (Hu & _). rewrite Hu in Hnew. auto.
  - apply insert_vms_Ok in H as (row & _ & _ & ->). auto.
  - apply update_vms_Ok in H. destruct (vms db !! id).
    + destruct H as (row & _ & ->). auto.
    + subst. auto.
  - apply insert_billing_records_Ok in H as (row & old & _ & _ & _ & _ & _ & Hu).
    destruct (0 <? billing_amount row).
    + destruct Hu as (row' & Hrow' & Hu). rewrite Hu in Hnew.
      destruct (decide (billing_user_id row = account)) as [<-|Hne].
      * rewrite lookup_insert_eq in Hnew. injection Hnew as <-.
        apply users_updated_row_Ok in Hrow' as [? _]. auto.
      * rewrite lookup_insert_ne in Hnew by assumption. auto.
    + rewrite Hu in Hnew. auto.
Qed.

Lemma execute_balances now s db db' :
  execute now s db = Ok db' -> balances_nonnegative db -> balances_nonnegative db'.
Proof.
  intros H Hdb account new Hnew.
  destruct (execute_users _ _ _ _ _ _ H Hnew) as [Hold|Hchk].
  - exact (Hdb account new Hold).
  - by apply users_constraints_Ok in Hchk as [? _].
Qed.

(** At every point of every history no account has a negative balance. *)
Lemma balances_never_negative history :
  balances_nonnegative (run history empty_database).
Proof.
  apply (run_invariant balances_nonnegative).
  - intros now s db db'. apply execute_balances.
  - apply map_Forall_empty.
Qed.

(** ** The orchestrator *)

Lemma transaction_app now a b db db' :
  transaction now (a ++ b) db = Ok db' ->
  exists mid, transaction now a db = Ok mid /\ transaction now b mid = Ok db'.
Proof.
  revert db. induction a as [|s a IH]; intros db H; simpl in *.
  - eauto.
  - apply bind_Ok in H as (db1 & H1 & H). rewrite H1. simpl. eauto.
Qed.

Lemma persist_Completed r db' : persist r = Completed db' -> r = Ok db'.
Proof. destruct r; simpl; congruence. Qed.

Lemma post_credit_vms now entry_id account amount db db' :
  transaction now (post_credit entry_id account amount) db = Ok db' ->
  vms db' = vms db.
Proof.
  unfold post_credit. simpl. intros H.
  apply bind_Ok in H as (db1 & H1 & H).
  apply bind_Ok in H as (db2 & H2 & H). injection H as <-.
  apply update_users_Ok in H1.
  apply insert_billing_records_Ok in H2 as (_ & _ & _ & _ & _ & Hv & _).
  rewrite Hv. destruct (users db !! account).
  - by destruct H1 as (new & _ & ->).
  - by subst.
Qed.

Lemma post_debit_vms now entry_id account vm reason charge db db' :
  transaction now (post_debit entry_id account vm reason charge) db = Ok db' ->
  vms db' = vms db.
Proof.
  unfold post_debit. destruct (charge =? 0); simpl.
  - by intros [= <-].
  - intros H. apply bind_Ok in H as (db1 & H1 & H).
    apply bind_Ok in H as (db2 & H2 & H). injection H as <-.
    apply update_users_Ok in H1.
    apply insert_billing_records_Ok in H2 as (_ & _ & _ & _ & _ & Hv & _).
    rewrite Hv. destruct (users db !! account).
    + by destruct H1 as (new & _ & ->).
    + by subst.
Qed.

(** The UPDATE of a lifecycle transition changes the status of its VM
    only. *)
Lemma set_status_Ok now vm_id status session elapsed db db' id r :
  transaction now [UPDATE_vms vm_id (set_status status session elapsed)] db = Ok db' ->
  (String.length status <= 20)%nat ->
  vms db !! id = Some r ->
  exists r', vms db' !! id = Some r' /\
    vms_status r' = if decide (id = vm_id) then status else vms_status r.
Proof.
  simpl. intros H Hlen Hr. apply bind_Ok in H as (db1 & H & [= <-]).
  apply update_vms_Ok in H. destruct (decide (id = vm_id)) as [->|Hne].
  - rewrite Hr in H. destruct H as (new & Hnew & ->). simpl.
    rewrite lookup_insert_eq. exists new. split; [reflexivity|].
    apply vms_updated_row_Ok in Hnew as (_ & _ & _ & Hs & _). simpl in Hs.
    rewrite varchar_short in Hs by assumption. congruence.
  - exists r. split; [|reflexivity]. destruct (vms db !! vm_id).
    + destruct H as (new & _ & ->). simpl. by rewrite lookup_insert_ne.
    + by subst.
Qed.

Lemma stopVM_Completed now entry_id vm_id db db' id r :
  stopVM now entry_id vm_id db = Completed db' ->
  vms db !! id = Some r ->
  exists r', vms db' !! id = Some r' /\
    if decide (id = vm_id)
    then vms_status r = "running" /\ vms_status r' = "stopped"
    else vms_status r' = vms_status r.
Proof.
  unfold stopVM. intros H Hr.
  destruct (vms db !! vm_id) as [vm|] eqn:Hvm; [|discriminate].
  destruct (String.eqb_spec (vms_status vm) "running") as [Hrun|]; [|discriminate].
  simpl in H. apply persist_Completed, transaction_app in H as (mid & Hdebit & H).
  apply post_debit_vms in Hdebit. rewrite <- Hdebit in Hr.
  destruct (set_status_Ok _ _ _ _ _ _ _ _ _ H ltac:(simpl; lia) Hr) as (r' & Hr' & Hs).
  exists r'. split; [assumption|]. destruct (decide (id = vm_id)) as [->|]; [|assumption].
  rewrite Hdebit in Hr. split; congruence.
Qed.

Lemma startVM_Completed now vm_id db db' id r :
  startVM now vm_id db = Completed db' ->
  vms db !! id = Some r ->
  exists r', vms db' !! id = Some r' /\
    if decide (id = vm_id)
    then vms_status r = "stopped" /\ vms_status r' = "running"
    else vms_status r' = vms_status r.
Proof.
  unfold startVM. intros H Hr.
  destruct (vms db !! vm_id) as [vm|] eqn:Hvm; [|discriminate].
  destruct (String.eqb_spec (vms_status vm) "stopped") as [Hrun|]; [|discriminate].
  simpl in H. destruct (negb _); [discriminate|].
  apply persist_Completed in H.
  destruct (set_status_Ok _ _ _ _ _ _ _ _ _ H ltac:(simpl; lia) Hr) as (r' & Hr' & Hs).
  exists r'. split; [assumption|]. destruct (decide (id = vm_id)) as [->|]; [|assumption].
  split; congruence.
Qed.

Lemma createVM_Completed minimum_reserve now entry_id req db db' id r :
  createVM minimum_reserve now entry_id req db = Completed db' ->
  vms db !! id = Some r ->
  exists r', vms db' !! id = Some r' /\ vms_status r' = vms_status r.
Proof.
  unfold createVM. intros H Hr.
  destruct (rate _); [|discriminate]. destruct (negb _); [discriminate|].
  apply persist_Completed in H.
  change (?a :: ?b ++ ?c)%list with ([a] ++ (b ++ c))%list in H.
  apply transaction_app in H as (db1 & Hinsert & H).
  apply transaction_app in H as (db2 & Hdebit & H).
  simpl in Hinsert. apply bind_Ok in Hinsert as (db1' & Hinsert & [= ->]).
  apply insert_vms_Ok in Hinsert as (row & _ & Hnone & ->). simpl in Hnone.
  apply post_debit_vms in Hdebit. simpl in Hdebit.
  assert (id <> create_id req) as Hne by congruence.
  assert (vms db2 !! id = Some r) as Hr2.
  { rewrite Hdebit. by rewrite lookup_insert_ne. }
  destruct (create_provisioned req).
  - destruct (set_status_Ok _ _ _ _ _ _ _ _ _ H ltac:(simpl; lia) Hr2)
      as (r' & Hr' & Hs).
    exists r'. by destruct (decide (id = create_id req)).
  - destruct (set_status_Ok _ _ _ _ _ _ _ _ _ H ltac:(simpl; lia) Hr2)
      as (r' & Hr' & Hs).
    exists r'. by destruct (decide (id = create_id req)).
Qed.

Lemma in_table_statuses table from to :
  in_table table from to = true -> In (from, to) table.
Proof.
  unfold in_table. intros H. apply existsb_exists in H as ([a b] & Hin & H).
  apply andb_true_iff in H as [Ha Hb]. simpl in *.
  apply String.eqb_eq in Ha, Hb. by subst.
Qed.

Lemma lifecycle_table_to_status from to :
  in_table lifecycle_table from to = true -> In to statuses.
Proof.
  intros H. apply in_table_statuses in H.
  unfold lifecycle_table, state_table, statuses in *. simpl in *.
  repeat destruct H as [[= _ <-]|H]; auto 10.
Qed.

(** One operation moves the status of a VM along the lifecycle table, or
    leaves it. *)
Lemma perform_Completed now op db db' id r :
  perform now op db = Completed db' ->
  vms db !! id = Some r ->
  In (vms_status r) statuses ->
  exists r', vms db' !! id = Some r' /\
    (vms_status r' = vms_status r \/
     in_table lifecycle_table (vms_status r) (vms_status r') = true).
Proof.
  intros H Hr Hvalid.
  destruct op as [reserve e req|vm_id|e vm_id|e vm_id|e vm_id|e account amount];
    simpl in H.
  - destruct (createVM_Completed _ _ _ _ _ _ _ _ H Hr) as (r' & Hr' & Hs). eauto.
  - destruct (startVM_Completed _ _ _ _ _ _ H Hr) as (r' & Hr' & Hs).
    exists r'. split; [assumption|].
    destruct (decide (id = vm_id)); [|auto]. destruct Hs as [-> ->]. auto.
  - destruct (stopVM_Completed _ _ _ _ _ _ _ H Hr) as (r' & Hr' & Hs).
    exists r'. split; [assumption|].
    destruct (decide (id = vm_id)); [|auto]. destruct Hs as [-> ->]. auto.
  - unfold restartVM in H.
    destruct (stopVM now e vm_id db) as [db1|] eqn:Hstop; [|discriminate].
    destruct (stopVM_Completed _ _ _ _ _ _ _ Hstop Hr) as (r1 & Hr1 & Hs1).
    destruct (startVM_Completed _ _ _ _ _ _ H Hr1) as (r' & Hr' & Hs).
    exists r'. split; [assumption|]. left.
    destruct (decide (id = vm_id)); [|congruence].
    destruct Hs1 as [-> _], Hs as [_ ->]. reflexivity.
  - unfold deleteVM in H.
    destruct (vms db !! vm_id) as [vm|] eqn:Hvm; [|discriminate].
    destruct (String.eqb_spec (vms_status vm) "terminated") as [|Hlive];
      [discriminate|].
    destruct (String.eqb_spec (vms_status vm) "running") as [Hrun|Hidle].
    + destruct (stopVM now e vm_id db) as [db1|] eqn:Hstop; [|discriminate].
      destruct (stopVM_Completed _ _ _ _ _ _ _ Hstop Hr) as (r1 & Hr1 & Hs1).
      apply persist_Completed in H.
      destruct (set_status_Ok _ _ _ _ _ _ _ _ _ H ltac:(simpl; lia) Hr1)
        as (r' & Hr' & Hs).
      exists r'. split; [assumption|].
      destruct (decide (id = vm_id)); [|left; congruence].
      destruct Hs1 as [-> _]. rewrite Hs. auto.
    + apply persist_Completed in H.
      destruct (set_status_Ok _ _ _ _ _ _ _ _ _ H ltac:(simpl; lia) Hr)
        as (r' & Hr' & Hs).
      exists r'. split; [assumption|].
      destruct (decide (id = vm_id)) as [->|]; [|auto].
      rewrite Hvm in Hr. injection Hr as <-. rewrite Hs. right.
      unfold statuses in Hvalid. simpl in Hvalid.
      destruct Hvalid as [E|[E|[E|[E|[E|[]]]]]]; rewrite <- E in *;
        try reflexivity; congruence.
  - unfold addCredits in H. destruct (amount <=? 0); [discriminate|].
    apply persist_Completed, post_credit_vms in H. rewrite H. eauto.
Qed.

Lemma perform_all_app ops1 ops2 db :
  perform_all (ops1 ++ ops2) db = perform_all ops2 (perform_all ops1 db).
Proof.
  revert db. induction ops1 as [|[now op] ops1 IH]; intros db; simpl; auto.
Qed.

(** A committed operation, rejected or not, keeps every VM and its
    status valid. *)
Lemma committed_status now op db id r :
  vms db !! id = Some r ->
  In (vms_status r) statuses ->
  exists r', vms (committed (perform now op db) db) !! id = Some r' /\
    In (vms_status r') statuses /\
    (vms_status r' = vms_status r \/
     in_table lifecycle_table (vms_status r) (vms_status r') = true).
Proof.
  intros Hr Hvalid. destruct (perform now op db) as [db'|] eqn:H; simpl.
  - destruct (perform_Completed _ _ _ _ _ _ H Hr Hvalid) as (r' & Hr' & Hs).
    exists r'. split; [assumption|]. split; [|assumption].
    destruct Hs as [->|Hs]; [assumption|].
    by apply lifecycle_table_to_status in Hs.
  - eauto.
Qed.

Lemma terminated_is_absorbing to :
  in_table lifecycle_table "terminated" to = false.
Proof.
  unfold in_table, lifecycle_table, state_table. simpl. reflexivity.
Qed.

Lemma perform_all_status ops db id r :
  vms db !! id = Some r ->
  In (vms_status r) statuses ->
  exists r', vms (perform_all ops db) !! id = Some r' /\
    In (vms_status r') statuses /\
    (vms_status r = "terminated" -> vms_status r' = "terminated").
Proof.
  revert db r. induction ops as [|[now op] ops IH]; intros db r Hr Hvalid; simpl.
  - eauto.
  - destruct (committed_status now op db id r Hr Hvalid) as (r1 & Hr1 & Hv1 & Hs1).
    destruct (IH _ _ Hr1 Hv1) as (r' & Hr' & Hv' & Hs').
    exists r'. split; [assumption|]. split; [assumption|].
    intros Hterm. apply Hs'. destruct Hs1 as [->|Hs1]; [assumption|].
    rewrite Hterm, terminated_is_absorbing in Hs1. discriminate.
Qed.

(** A debit larger than the balance is refused by the [users] table. *)
Lemma post_debit_refused now entry_id account vm reason charge rest db old c :
  users db !! account = Some old ->
  users_credits old = Some c ->
  0 <= c -> c < charge ->
  exists e,
    transaction now (post_debit entry_id account vm reason charge ++ rest) db = Err e /\
    (e = check_violation "chk_users_credits_positive" \/
     e = numeric_value_out_of_range).
Proof.
  intros Hold Hc Hnonneg Hlt. unfold post_debit.
  destruct (Z.eqb_spec charge 0); [lia|]. simpl.
  unfold update_users. rewrite Hold.
  unfold users_updated_row, assign_cast. simpl. rewrite Hc. simpl.
  unfold numeric_cast. rewrite rescale_column.
  destruct (Z.abs (c - charge) <? 10 ^ 10); simpl.
  - unfold users_constraints. simpl.
    destruct (Z.leb_spec 0 (c - charge)); [lia|]. simpl. eauto.
  - eauto.
Qed.

(** What holds along every statement an operation issues holds across the
    operation. *)
Section Operations.

Variable P : database -> Prop.
Variable Q : statement -> bool.
Hypothesis execute_preserves :
  forall now s db db', Q s = true -> execute now s db = Ok db' -> P db -> P db'.
Hypothesis Q_insert_vms : forall ins, Q (INSERT_INTO_vms ins) = true.
Hypothesis Q_set_status :
  forall id status session elapsed,
    Q (UPDATE_vms id (set_status status session elapsed)) = true.
Hypothesis Q_post_debit :
  forall entry_id account vm reason charge,
    forallb Q (post_debit entry_id account vm reason charge) = true.
Hypothesis Q_post_credit :
  forall entry_id account amount,
    forallb Q (post_credit entry_id account amount) = true.

Lemma stopVM_invariant now entry_id vm_id db db' :
  stopVM now entry_id vm_id db = Completed db' -> P db -> P db'.
Proof.
  unfold stopVM. destruct (vms db !! vm_id) as [vm|]; [|discriminate].
  destruct (negb _); [discriminate|]. intros H%persist_Completed.
  revert H. apply (transaction_invariant_when P Q execute_preserves).
  rewrite forallb_app, Q_post_debit. simpl. by rewrite Q_set_status.
Qed.

Lemma startVM_invariant now vm_id db db' :
  startVM now vm_id db = Completed db' -> P db -> P db'.
Proof.
  unfold startVM. destruct (vms db !! vm_id) as [vm|]; [|discriminate].
  do 2 (destruct (negb _); [discriminate|]). intros H%persist_Completed.
  revert H. apply (transaction_invariant_when P Q execute_preserves).
  simpl. by rewrite Q_set_status.
Qed.

Lemma perform_invariant now op db db' :
  perform now op db = Completed db' -> P db -> P db'.
Proof.
  destruct op as [reserve e req|vm_id|e vm_id|e vm_id|e vm_id|e account amount];
    simpl.
  - unfold createVM. destruct (rate _); [|discriminate].
    destruct (negb _); [discriminate|]. intros H%persist_Completed.
    revert H. apply (transaction_invariant_when P Q execute_preserves).
    simpl. rewrite Q_insert_vms, forallb_app, Q_post_debit. simpl.
    destruct (create_provisioned req); by rewrite Q_set_status.
  - apply startVM_invariant.
  - apply stopVM_invariant.
  - unfold restartVM.
    destruct (stopVM now e vm_id db) as [db1|] eqn:Hstop; [|discriminate].
    intros H HP. eapply startVM_invariant; [eassumption|].
    eapply stopVM_invariant; eassumption.
  - unfold deleteVM. destruct (vms db !! vm_id) as [vm|]; [|discriminate].
    destruct (String.eqb _ "terminated"); [discriminate|].
    assert (forall db1, persist (transaction now
              [UPDATE_vms vm_id (set_status "terminated" None 0)] db1)
              = Completed db' -> P db1 -> P db') as Hterminate.
    { intros db1 H%persist_Completed. revert H.
      apply (transaction_invariant_when P Q execute_preserves).
      simpl. by rewrite Q_set_status. }
    destruct (String.eqb _ "running"); [|apply Hterminate].
    destruct (stopVM now e vm_id db) as [db1|] eqn:Hstop; [|discriminate].
    intros H HP. eapply Hterminate; [eassumption|].
    eapply stopVM_invariant; eassumption.
  - unfold addCredits. destruct (amount <=? 0); [discriminate|].
    intros H%persist_Completed. revert H.
    apply (transaction_invariant_when P Q execute_preserves), Q_post_credit.
Qed.

Lemma perform_all_invariant ops db : P db -> P (perform_all ops db).
Proof.
  revert db. induction ops as [|[now op] ops IH]; intros db HP; simpl.
  - assumption.
  - apply IH. destruct (perform now op db) eqn:H; simpl; [|assumption].
    eapply perform_invariant; eassumption.
Qed.

End Operations.

Lemma post_debit_leaves_total_spent entry_id account vm reason charge :
  forallb leaves_total_spent (post_debit entry_id account vm reason charge) = true.
Proof. unfold post_debit. by destruct (charge =? 0). Qed.

(** No lifecycle operation decreases the [total_spent] of an account. *)
Lemma perform_all_total_spent ops db account old :
  users db !! account = Some old ->
  exists new, users (perform_all ops db) !! account = Some new /\
    not_decreased (users_total_spent old) (users_total_spent new).
Proof.
  intros Hold.
  apply (perform_all_invariant
    (fun db => exists new, users db !! account = Some new /\
       not_decreased (users_total_spent old) (users_total_spent new))
    leaves_total_spent).
  - intros now s db1 db2 Hs H (mid & Hmid & Hle).
    destruct (execute_ledger _ _ _ _ _ _ H Hs Hmid) as (new & l & Hnew & _ & Ht & _).
    exists new. split; [assumption|].
    eapply not_decreased_trans; [eassumption|]. rewrite Ht.
    apply spending_from_ledger_not_decreased.
  - reflexivity.
  - reflexivity.
  - apply post_debit_leaves_total_spent.
  - reflexivity.
  - exists old. split; [assumption|apply not_decreased_refl].
Qed.

(** No lifecycle operation changes the [cost_per_hour] of a VM that
    carries the rate of its class. *)
Lemma perform_all_cost_per_hour ops db id r :
  vms db !! id = Some r ->
  vms_cost_per_hour r
  = Some (rescale 4 (instance_type_rate (vms_instance_type r))) ->
  exists r', vms (perform_all ops db) !! id = Some r' /\
    vms_cost_per_hour r' = vms_cost_per_hour r.
Proof.
  intros Hr Hcost.
  destruct (perform_all_invariant
    (fun db => exists r', vms db !! id = Some r' /\
       vms_instance_type r' = vms_instance_type r /\
       vms_cost_per_hour r'
       = Some (rescale 4 (instance_type_rate (vms_instance_type r))))
    keeps_instance_type) with (ops := ops) (db := db)
    as (r' & Hr' & _ & Hcost'); eauto.
  - intros now s db1 db2 Hs H HP.
    exact (execute_keeps_cost now s db1 db2 _ _ Hs H HP).
  - intros. unfold post_debit. by destruct (_ =? 0).
  - exists r'. split; [assumption|congruence].
Qed.

(** No lifecycle operation commits a negative balance. *)
Lemma perform_all_balances ops db :
  balances_nonnegative db -> balances_nonnegative (perform_all ops db).
Proof.
  apply (perform_all_invariant balances_nonnegative (fun _ => true)).
  - intros now s db1 db2 _. apply execute_balances.
  - reflexivity.
  - reflexivity.
  - intros. by induction (post_debit _ _ _ _ _).
  - reflexivity.
Qed.

(** The scenario of §8 of the specification: with a balance of 0.10 a
    small VM is created, runs two hours and is stopped for a charge of
    0.10, which leaves a balance of 0.00; it cannot be started again. *)
Example scenario_ten_cents :
  let stopped :=
    committed (perform 7300 (stop_vm 12%N 3%N) running_on_ten_cents)
              running_on_ten_cents in
  vms_status <$> vms running_on_ten_cents !! 3%N = Some "running" /\
  vms_status <$> vms stopped !! 3%N = Some "stopped" /\
  billing_amount <$> billing_records stopped = [1000] /\
  balance 1%N stopped = Some 0 /\
  perform 7400 (start_vm 3%N) stopped = Rejected InsufficientCredits.
Proof. vm_compute. repeat split; reflexivity. Qed.

(** ** What [chk_users_credits_positive] refuses *)















(** ** The ledger and the balance *)

Lemma reconciled_refl account b db :
  balance account db = Some b -> reconciled account b db db.
Proof. intros Hb. exists [], b. by rewrite app_nil_r. Qed.

Lemma reconciled_step account b db db1 db2 :
  reconciled account b db db1 ->
  (forall b1, balance account db1 = Some b1 -> reconciled account b1 db1 db2) ->
  reconciled account b db db2.
Proof.
  intros (l1 & b1 & Hl1 & Hb1 & E1) H.
  destruct (H b1 Hb1) as (l2 & b2 & Hl2 & Hb2 & E2).
  exists (l1 ++ l2)%list, b2. split; [by rewrite Hl2, Hl1, app_assoc|].
  split; [assumption|]. unfold balance_from_ledger in *.
  by rewrite fold_left_app, <- E1.
Qed.

Lemma keeps_ledger_reconciled account b db db' :
  users db' = users db -> billing_records db' = billing_records db ->
  balance account db = Some b -> reconciled account b db db'.
Proof.
  intros Hu Hl Hb. exists [], b. rewrite app_nil_r. split; [assumption|].
  split; [|reflexivity]. unfold balance. by rewrite Hu.
Qed.

Lemma rescale_4_column_2 v : rescale 4 (column 2 v) = v * 100.
Proof. reflexivity. Qed.

(** A posting, the update of the balance by [delta] with its entry,
    keeps the balance and the ledger of every account reconciled. *)
Lemma posting_reconciled now account set f ins delta db db' a b :
  transaction now [UPDATE_users account set; INSERT_INTO_billing_records ins] db
  = Ok db' ->
  set_users_credits set = Some f ->
  (forall old, f old = (fun credits => column 2 (credits + delta)) <$> users_credits old) ->
  insert_billing_user_id ins = account ->
  (forall row, billing_inserted_row now ins = Ok row -> signed_amount row = delta * 100) ->
  balance a db = Some b ->
  reconciled a b db db'.
Proof.
  simpl. intros H Hset Hf Hins Hsigned Hb.
  apply bind_Ok in H as (db1 & H1 & H). apply bind_Ok in H as (db2 & H2 & [= <-]).
  apply update_users_Ok in H1.
  apply insert_billing_records_Ok in H2
    as (row & old1 & Hrow & Hold1 & Hl & _ & _ & Husers).
  pose proof (Hsigned row Hrow) as Hamount.
  apply billing_inserted_row_Ok in Hrow as (_ & _ & _ & Huser & _).
  rewrite Hins in Huser. rewrite Huser in *.
  destruct (users db !! account) as [old|] eqn:Hold.
  2:{ subst db1. congruence. }
  destruct H1 as (new & Hnew & ->). simpl in Hold1, Hl, Husers.
  rewrite lookup_insert_eq in Hold1. injection Hold1 as <-.
  apply users_updated_row_Ok in Hnew as (_ & _ & _ & _ & _ & _ & Hcredits & _).
  rewrite Hset in Hcredits. simpl in Hcredits. rewrite Hf in Hcredits.
  apply numeric_cast_null_Ok in Hcredits.
  assert (users_credits new = (fun c => c + delta) <$> users_credits old) as Hc.
  { rewrite Hcredits. destruct (users_credits old); simpl; [|reflexivity].
    by rewrite rescale_column. }
  assert (exists new', users db2 !! account = Some new' /\
                       users_credits new' = users_credits new /\
                       forall a', a' <> account -> users db2 !! a' = users db !! a')
    as (new' & Hnew' & Hc' & Hother).
  { destruct (0 <? billing_amount row).
    - destruct Husers as (new' & Hnew' & ->).
      apply users_updated_row_spending in Hnew'. exists new'.
      rewrite lookup_insert_eq. split; [reflexivity|]. split; [by subst new'|].
      intros a' Ha'. by rewrite !lookup_insert_ne.
    - rewrite Husers. exists new. rewrite lookup_insert_eq.
      split; [reflexivity|]. split; [reflexivity|].
      intros a' Ha'. by rewrite lookup_insert_ne. }
  unfold reconciled, balance_from_ledger, balance in *.
  destruct (decide (a = account)) as [->|Hne].
  - rewrite Hold in Hb. simpl in Hb. exists [row], (b + delta).
    split; [assumption|]. rewrite Hnew'. simpl. rewrite Hc', Hc, Hb. simpl.
    split; [reflexivity|]. rewrite Huser, N.eqb_refl. lia.
  - exists [row], b. split; [assumption|]. rewrite (Hother a Hne).
    split; [assumption|]. simpl. rewrite Huser.
    destruct (N.eqb_spec account a); [congruence|reflexivity].
Qed.

Lemma post_debit_reconciled now entry_id account vm reason charge db db' a b :
  transaction now (post_debit entry_id account vm reason charge) db = Ok db' ->
  reason = "vm_create" \/ reason = "vm_usage" ->
  balance a db = Some b ->
  reconciled a b db db' /\
  (a = account -> balance a db' = Some (b - charge)).
Proof.
  unfold post_debit. intros H Hreason Hb.
  destruct (Z.eqb_spec charge 0) as [->|Hcharge].
  { injection H as <-. split; [by apply reconciled_refl|].
    intros _. rewrite Hb. f_equal. lia. }
  assert (reconciled a b db db') as Hrec.
  { eapply (posting_reconciled _ _ _ _ _ (- charge)); [exact H|reflexivity| |reflexivity| |exact Hb].
    - intros old. cbv beta. destruct (users_credits old); reflexivity.
    - intros row Hrow. apply billing_inserted_row_Ok in Hrow as (Htype & Hamount & _).
      simpl in Htype, Hamount. rewrite rescale_4_column_2 in Hamount.
      rewrite varchar_short in Htype by (destruct Hreason as [->| ->]; simpl; lia).
      injection Htype as Htype. unfold signed_amount. rewrite <- Htype, Hamount.
      destruct Hreason as [->| ->]; simpl; lia. }
  split; [exact Hrec|]. intros ->.
  simpl in H. apply bind_Ok in H as (db1 & H1 & H).
  apply bind_Ok in H as (db2 & H2 & [= <-]).
  destruct Hrec as (l & b' & Hl & Hb' & E). rewrite Hb'. f_equal.
  apply insert_billing_records_Ok in H2 as (row & old1 & Hrow & _ & Hl2 & _).
  apply update_users_Ok in H1.
  assert (billing_records db1 = billing_records db) as Hl1.
  { destruct (users db !! account); [by destruct H1 as (? & _ & ->)|by subst]. }
  rewrite Hl2, Hl1 in Hl. apply app_inv_head in Hl. subst l.
  apply billing_inserted_row_Ok in Hrow as (Htype & Hamount & _ & Huser & _).
  simpl in Htype, Hamount, Huser. rewrite rescale_4_column_2 in Hamount.
  rewrite varchar_short in Htype by (destruct Hreason as [->| ->]; simpl; lia).
  injection Htype as Htype.
  unfold balance_from_ledger, signed_amount in E. simpl in E.
  rewrite Huser, N.eqb_refl, <- Htype, Hamount in E.
  destruct Hreason as [->| ->]; simpl in E; lia.
Qed.

Lemma post_credit_reconciled now entry_id account amount db db' a b :
  transaction now (post_credit entry_id account amount) db = Ok db' ->
  balance a db = Some b ->
  reconciled a b db db'.
Proof.
  unfold post_credit. intros H Hb.
  eapply (posting_reconciled _ _ _ _ _ amount); [exact H|reflexivity| |reflexivity| |exact Hb].
  - reflexivity.
  - intros row Hrow. apply billing_inserted_row_Ok in Hrow as (Htype & Hamount & _).
    simpl in Htype, Hamount. rewrite rescale_4_column_2 in Hamount.
    rewrite varchar_short in Htype by (simpl; lia). injection Htype as Htype.
    unfold signed_amount. by rewrite <- Htype, Hamount.
Qed.

Lemma update_vms_keeps_ledger now id set db db' :
  transaction now [UPDATE_vms id set] db = Ok db' ->
  users db' = users db /\ billing_records db' = billing_records db.
Proof.
  simpl. intros H. apply bind_Ok in H as (db1 & H & [= <-]).
  apply update_vms_Ok in H.
  destruct (vms db !! id); [by destruct H as (? & _ & ->)|by subst].
Qed.

Lemma insert_vms_keeps_ledger now ins db db' :
  transaction now [INSERT_INTO_vms ins] db = Ok db' ->
  users db' = users db /\ billing_records db' = billing_records db.
Proof.
  simpl. intros H. apply bind_Ok in H as (db1 & H & [= <-]).
  by apply insert_vms_Ok in H as (? & _ & _ & ->).
Qed.

Lemma stopVM_reconciled now entry_id vm_id db db' a b :
  stopVM now entry_id vm_id db = Completed db' ->
  balance a db = Some b -> reconciled a b db db'.
Proof.
  unfold stopVM. destruct (vms db !! vm_id) as [vm|]; [|discriminate].
  destruct (negb _); [discriminate|]. intros H Hb.
  apply persist_Completed, transaction_app in H as (mid & Hdebit & H).
  apply (post_debit_reconciled _ _ _ _ _ _ _ _ a b) in Hdebit as [Hrec _]; auto.
  apply (reconciled_step _ _ _ _ _ Hrec). intros b1 Hb1.
  apply update_vms_keeps_ledger in H as [Hu Hl]. by apply keeps_ledger_reconciled.
Qed.

Lemma startVM_reconciled now vm_id db db' a b :
  startVM now vm_id db = Completed db' ->
  balance a db = Some b -> reconciled a b db db'.
Proof.
  unfold startVM. destruct (vms db !! vm_id) as [vm|]; [|discriminate].
  do 2 (destruct (negb _); [discriminate|]). intros H Hb.
  apply persist_Completed, update_vms_keeps_ledger in H as [Hu Hl].
  by apply keeps_ledger_reconciled.
Qed.

(** Every lifecycle operation keeps the balance of every account
    reconciled with the entries it appends. *)
Lemma perform_reconciled now op db db' a b :
  perform now op db = Completed db' ->
  balance a db = Some b -> reconciled a b db db'.
Proof.
  destruct op as [reserve e req|vm_id|e vm_id|e vm_id|e vm_id|e account amount];
    simpl; intros H Hb.
  - unfold createVM in H. destruct (rate _); [|discriminate].
    destruct (negb _); [discriminate|]. apply persist_Completed in H.
    change (?x :: ?y ++ ?z)%list with ([x] ++ (y ++ z))%list in H.
    apply transaction_app in H as (db1 & Hinsert & H).
    apply transaction_app in H as (db2 & Hdebit & H).
    apply insert_vms_keeps_ledger in Hinsert as [Hu1 Hl1].
    apply (reconciled_step _ _ _ db1); [by apply keeps_ledger_reconciled|].
    intros b1 Hb1.
    apply (post_debit_reconciled _ _ _ _ _ _ _ _ a b1) in Hdebit as [Hrec _]; auto.
    apply (reconciled_step _ _ _ _ _ Hrec). intros b2 Hb2.
    destruct (create_provisioned req);
      apply update_vms_keeps_ledger in H as [Hu Hl]; by apply keeps_ledger_reconciled.
  - by eapply startVM_reconciled.
  - by eapply stopVM_reconciled.
  - unfold restartVM in H.
    destruct (stopVM now e vm_id db) as [db1|] eqn:Hstop; [|discriminate].
    apply (reconciled_step _ _ _ db1); [by eapply stopVM_reconciled|].
    intros b1 Hb1. by eapply startVM_reconciled.
  - unfold deleteVM in H. destruct (vms db !! vm_id) as [vm|]; [|discriminate].
    destruct (String.eqb _ "terminated"); [discriminate|].
    destruct (String.eqb _ "running").
    + destruct (stopVM now e vm_id db) as [db1|] eqn:Hstop; [|discriminate].
      apply (reconciled_step _ _ _ db1); [by eapply stopVM_reconciled|].
      intros b1 Hb1. apply persist_Completed, update_vms_keeps_ledger in H as [Hu Hl].
      by apply keeps_ledger_reconciled.
    + apply persist_Completed, update_vms_keeps_ledger in H as [Hu Hl].
      by apply keeps_ledger_reconciled.
  - unfold addCredits in H. destruct (amount <=? 0); [discriminate|].
    apply persist_Completed in H. by eapply post_credit_reconciled.
Qed.

Lemma perform_all_reconciled ops db a b :
  balance a db = Some b -> reconciled a b db (perform_all ops db).
Proof.
  revert db b. induction ops as [|[now op] ops IH]; intros db b Hb; simpl.
  - by apply reconciled_refl.
  - destruct (perform now op db) as [db1|] eqn:H; simpl; [|by apply IH].
    apply (reconciled_step _ _ _ db1); [by eapply perform_reconciled|].
    intros b1 Hb1. by apply IH.
Qed.



(** ** The dashboard *)

(** The buttons of [EnhancedDashboard] follow the guards of the
    orchestrator: Start for a stopped VM, Stop and Restart for a running
    one, Delete for every VM that is not terminated. *)
Lemma vm_action_buttons_guards status :
  (In start (vm_action_buttons status) <-> status = "stopped") /\
  (In stop (vm_action_buttons status) <-> status = "running") /\
  (In restart (vm_action_buttons status) <-> status = "running") /\
  (In delete (vm_action_buttons status) <-> status <> "terminated").
Proof.
  unfold vm_action_buttons.
  destruct (String.eqb_spec status "stopped") as [->|Hs];
    [simpl; intuition congruence|].
  destruct (String.eqb_spec status "running") as [->|Hr];
    [simpl; intuition congruence|].
  destruct (String.eqb_spec status "terminated") as [->|Ht];
    simpl; intuition congruence.
Qed.

(** [vmPricing] of the pricing calculator lists the rates of the trigger,
    and is undefined elsewhere. *)
Lemma hourlyRate_instance_type_rate vmType :
  hourlyRate vmType
  = if existsb (String.eqb vmType) instance_types
    then Some (instance_type_rate vmType) else None.
Proof.
  unfold hourlyRate, vmPricing, instance_types, instance_type_rate.
  cbn [find existsb fst snd].
  rewrite !(String.eqb_sym _ vmType).
  repeat (match goal with
          | |- context [String.eqb vmType ?c] => destruct (String.eqb vmType c)
          end; simpl; try reflexivity).
Qed.

(** An UPDATE that assigns another class does change [cost_per_hour]: the
    trigger recomputes it from the class on every write. *)
Lemma retyping_changes_cost_per_hour now set old new :
  vms_updated_row now set old = Ok new ->
  vms_cost_per_hour new
  = Some (rescale 4 (instance_type_rate (vms_instance_type new))).
Proof. intros H. by apply vms_updated_row_Ok in H as (_ & _ & _ & _ & ? & _). Qed.

(** * Properties of the specification *)




(** C2: at every point of every sequence of lifecycle operations, the
    balance of an account is its initial balance plus the running sum of
    the amounts of the entries appended to the account since, a
    [credit_add] counted in and a [vm_create] or [vm_usage] charge counted
    out. The balance has two decimals, the amounts four. *)
Theorem balance_replays_the_ledger ops db account initial :
  balance account db = Some initial ->
  exists b,
    balance account (perform_all ops db) = Some b /\
    b * 100
    = balance_from_ledger account
        (drop (length (billing_records db)) (billing_records (perform_all ops db)))
        initial.
Proof.
  intros Hb.
  destruct (perform_all_reconciled ops db account initial Hb) as (l & b & Hl & Hb' & E).
  exists b. split; [exact Hb'|]. by rewrite Hl, drop_app_length.
Qed.

(** From 50.00, a top-up of 10.00 and a charge of 0.85 for 17 hours on a
    small VM leave 59.15, with both entries in the ledger. *)
Lemma balance_replays_the_ledger_witness :
  let db := perform_all top_up_and_run signed_up in
  balance 1%N signed_up = Some 5000 /\
  (fun r => (billing_action_type r, billing_amount r)) <$> billing_records db
  = [("credit_add", 100000); ("vm_usage", 8500)] /\
  balance 1%N db = Some 5915 /\
  5915 * 100 = balance_from_ledger 1%N (billing_records db) 5000.
Proof.
  intros db. split; [reflexivity|]. split; [vm_compute; reflexivity|].
  destruct (balance_replays_the_ledger top_up_and_run signed_up 1%N 5000 eq_refl)
    as (b & Hb & E).
  fold db in Hb, E.
  assert (b = 5915) as -> by (vm_compute in Hb; congruence).
  split; [exact Hb|]. exact E.
Defined.

(** C3 (as stated, refuted): the dashboard offers Delete for a VM in
    Creating, and [deleteVM] takes it to Terminated, a transition that is
    not in the state table. *)
Lemma creating_can_be_terminated :
  let db := committed (perform 60 (delete_vm 12%N 3%N) still_creating) still_creating in
  vms_status <$> vms still_creating !! 3%N = Some "creating" /\
  In delete (vm_action_buttons "creating") /\
  vms_status <$> vms db !! 3%N = Some "terminated" /\
  in_table state_table "creating" "terminated" = false.
Proof. vm_compute. repeat split; auto. Qed.

(** C3 (amended): over every sequence of lifecycle operations the status of
    a VM changes only along the state table extended with
    Creating -> Terminated, and a Terminated VM keeps its status for
    ever. *)
Theorem status_follows_the_lifecycle_table ops now op db id r :
  vms db !! id = Some r ->
  In (vms_status r) statuses ->
  exists r1 r2,
    vms (perform_all ops db) !! id = Some r1 /\
    vms (perform_all (ops ++ [(now, op)]) db) !! id = Some r2 /\
    (vms_status r2 = vms_status r1 \/
     in_table lifecycle_table (vms_status r1) (vms_status r2) = true) /\
    (vms_status r = "terminated" ->
     vms_status r1 = "terminated" /\ vms_status r2 = "terminated").
Proof.
  intros Hr Hvalid.
  destruct (perform_all_status ops db id r Hr Hvalid) as (r1 & Hr1 & Hv1 & Ht1).
  destruct (committed_status now op _ id r1 Hr1 Hv1) as (r2 & Hr2 & _ & Hs2).
  exists r1, r2. split; [assumption|].
  split; [by rewrite perform_all_app|]. split; [assumption|].
  intros Hterm. specialize (Ht1 Hterm). split; [assumption|].
  destruct Hs2 as [->|Hs2]; [assumption|].
  rewrite Ht1, terminated_is_absorbing in Hs2. discriminate.
Qed.

Lemma status_follows_the_lifecycle_table_witness :
  exists r1 r2,
    vms (perform_all [(7300, stop_vm 12%N 3%N)] running_on_ten_cents) !! 3%N
    = Some r1 /\
    vms (perform_all ([(7300, stop_vm 12%N 3%N)] ++ [(7400, delete_vm 13%N 3%N)])
           running_on_ten_cents) !! 3%N = Some r2 /\
    vms_status r1 = "stopped" /\ vms_status r2 = "terminated" /\
    (vms_status r2 = vms_status r1 \/
     in_table lifecycle_table (vms_status r1) (vms_status r2) = true).
Proof.
  assert (vms running_on_ten_cents !! 3%N
          = Some (default (sample_new_row "" None) (vms running_on_ten_cents !! 3%N)))
    as Hr by (vm_compute; reflexivity).
  assert (In (vms_status (default (sample_new_row "" None)
                            (vms running_on_ten_cents !! 3%N))) statuses)
    as Hvalid by (vm_compute; auto).
  destruct (status_follows_the_lifecycle_table
              [(7300, stop_vm 12%N 3%N)] 7400 (delete_vm 13%N 3%N)
              running_on_ten_cents 3%N _ Hr Hvalid)
    as (r1 & r2 & Hr1 & Hr2 & Hs & _).
  exists r1, r2. split; [assumption|]. split; [assumption|].
  assert (vms_status <$> Some r1 = Some "stopped") as E1
    by (rewrite <- Hr1; vm_compute; reflexivity).
  assert (vms_status <$> Some r2 = Some "terminated") as E2
    by (rewrite <- Hr2; vm_compute; reflexivity).
  injection E1 as E1. injection E2 as E2. auto.
Defined.

(** C4: in every reachable database every VM carries the hourly rate of
    its class (small 0.05, medium 0.10, large 0.20, xlarge 0.40) and a
    total cost equal to rate times uptime hours, rounded to two decimals. *)
Theorem costs_follow_the_pricing history id r :
  vms (run history empty_database) !! id = Some r ->
  exists c,
    In (vms_instance_type r, c) pricing /\
    vms_cost_per_hour r = Some c /\
    vms_total_cost r
    = ((fun u => round_half_away (u * c) 10000) <$> vms_uptime_hours r).
Proof. intros Hr. exact (costs_accrued_everywhere history id r Hr). Qed.

(** A small VM with two hours of uptime is charged 0.10. *)
Lemma costs_follow_the_pricing_witness :
  exists r c,
    vms (run two_hours_small empty_database) !! 3%N = Some r /\
    vms_instance_type r = "small" /\ vms_uptime_hours r = Some 200 /\
    In (vms_instance_type r, c) pricing /\
    vms_cost_per_hour r = Some c /\ c = 500 /\
    vms_total_cost r = Some 10.
Proof.
  assert (vms (run two_hours_small empty_database) !! 3%N
          = Some (default (sample_new_row "" None)
                    (vms (run two_hours_small empty_database) !! 3%N))) as Hr
    by (vm_compute; reflexivity).
  destruct (costs_follow_the_pricing two_hours_small 3%N _ Hr)
    as (c & Hin & Hc & Ht).
  eexists. exists c. split; [exact Hr|].
  split; [vm_compute; reflexivity|]. split; [vm_compute; reflexivity|].
  split; [exact Hin|]. split; [exact Hc|].
  assert (c = 500) as -> by (vm_compute in Hc; congruence).
  split; [reflexivity|]. rewrite Ht. vm_compute. reflexivity.
Defined.

(** C5 (as stated, refuted): for the unknown class [tiny] the rate lookup
    of [update_vm_costs] does not fail; it stores the rate 0.05. *)
Lemma unknown_class_is_priced :
  existsb (String.eqb "tiny") instance_types = false /\
  instance_type_rate "tiny" = {| unscaled := 5; scale := 2 |} /\
  vms_cost_per_hour <$> update_vm_costs (sample_new_row "tiny" (Some 200))
  = Ok (Some 500).
Proof. vm_compute. auto. Qed.

(** C5 (amended): for every class that is not small, medium, large or
    xlarge the rate lookup of [update_vm_costs] yields the default rate
    0.05; it is the [instance_type] CHECK that refuses every INSERT and
    every UPDATE that would store a VM of such a class. *)
Theorem unknown_class_is_refused_by_the_check instance_type :
  existsb (String.eqb instance_type) instance_types = false ->
  instance_type_rate instance_type = {| unscaled := 5; scale := 2 |} /\
  numeric_cast 6 4 (instance_type_rate instance_type) = Ok 500 /\
  (forall now ins db,
     insert_vms_instance_type ins = instance_type ->
     is_Ok (insert_vms now ins db) = false) /\
  (forall now id set db old f,
     vms db !! id = Some old ->
     set_vms_instance_type set = Some f -> f old = instance_type ->
     is_Ok (update_vms now id set db) = false).
Proof.
  intros Hunknown.
  pose proof (instance_type_rate_unknown _ Hunknown) as Hrate.
  split; [assumption|]. split; [by rewrite Hrate|]. split.
  - intros now ins db Hins.
    destruct (insert_vms now ins db) as [db'|] eqn:H; [exfalso|reflexivity].
    apply insert_vms_Ok in H as (row & Hrow & _).
    apply vms_inserted_row_Ok in Hrow as ((c & Hin & _) & _ & Hcast & _).
    apply pricing_instance_types in Hin. rewrite Hins in Hcast.
    apply varchar_instance_type in Hcast; congruence.
  - intros now id set db old f Hold Hset Hf.
    destruct (update_vms now id set db) as [db'|] eqn:H; [exfalso|reflexivity].
    apply update_vms_Ok in H. rewrite Hold in H. destruct H as (new & Hnew & _).
    apply vms_updated_row_Ok in Hnew as ((c & Hin & _) & _ & Hcast & _).
    apply pricing_instance_types in Hin. rewrite Hset in Hcast. simpl in Hcast.
    rewrite Hf in Hcast. apply varchar_instance_type in Hcast; congruence.
Qed.

Lemma unknown_class_is_refused_by_the_check_witness :
  instance_type_rate "tiny" = {| unscaled := 5; scale := 2 |} /\
  is_Ok (insert_vms 10 (sample_vm "tiny" DEFAULT DEFAULT) signed_up) = false.
Proof.
  destruct (unknown_class_is_refused_by_the_check "tiny" eq_refl)
    as (Hrate & _ & Hinsert & _).
  split; [exact Hrate|]. apply Hinsert. reflexivity.
Defined.

(** C6: over every history whose statements leave [total_spent] to the
    trigger (VM inserts and updates, ledger postings, balance updates, new
    accounts), the [total_spent] of an account never decreases. *)
Theorem total_spent_never_decreases history db account old :
  every_statement leaves_total_spent history = true ->
  users db !! account = Some old ->
  exists new,
    users (run history db) !! account = Some new /\
    not_decreased (users_total_spent old) (users_total_spent new).
Proof.
  intros Hs Hold.
  destruct (run_ledger history db account old Hs Hold)
    as (new & appended & Hnew & _ & Ht & _).
  exists new. split; [assumption|]. rewrite Ht.
  apply spending_from_ledger_not_decreased.
Qed.

Lemma total_spent_never_decreases_witness :
  exists new,
    users (run charge_top_up_refund signed_up) !! 1%N = Some new /\
    users_credits new = Some 6000 /\ users_total_spent new = Some 1002 /\
    not_decreased (Some 0) (users_total_spent new).
Proof.
  eexists. split; [vm_compute; reflexivity|]. do 2 (split; [reflexivity|]).
  destruct (total_spent_never_decreases charge_top_up_refund signed_up 1%N
              signed_up_row) as (new & Hnew & Hle);
    [reflexivity|reflexivity|].
  assert (users_total_spent <$> Some new = Some (Some 1002)) as E
    by (rewrite <- Hnew; vm_compute; reflexivity).
  injection E as E. rewrite E in Hle. exact Hle.
Defined.

(** C7: the [cost_per_hour] a VM receives when it is inserted is kept by
    every later history of statements that do not assign its
    [instance_type]: starts, stops, restarts, deletions, updates of uptime
    and cost, even an explicit assignment of [cost_per_hour]. *)
Theorem cost_per_hour_is_fixed_at_creation now ins db created history r r' :
  insert_vms now ins db = Ok created ->
  vms created !! insert_vms_id ins = Some r ->
  every_statement keeps_instance_type history = true ->
  vms (run history created) !! insert_vms_id ins = Some r' ->
  vms_cost_per_hour r' = vms_cost_per_hour r.
Proof.
  intros Hinsert Hr Hkeeps Hr'.
  apply insert_vms_Ok in Hinsert as (row & Hrow & _ & ->). simpl in Hr.
  rewrite lookup_insert_eq in Hr. injection Hr as <-.
  apply vms_inserted_row_Ok in Hrow as (_ & _ & _ & Hcost).
  pose (P := fun db' : database =>
    exists r, vms db' !! insert_vms_id ins = Some r /\
      vms_instance_type r = vms_instance_type row /\
      vms_cost_per_hour r
      = Some (rescale 4 (instance_type_rate (vms_instance_type row)))).
  assert (P (run history (with_vms (<[insert_vms_id ins:=row]> (vms db)) db)))
    as (r'' & Hr'' & _ & Hcost'').
  { apply (run_invariant_when P keeps_instance_type); [|assumption|].
    - intros now' s db1 db2 Hs H HP.
      exact (execute_keeps_cost now' s db1 db2 _ _ Hs H HP).
    - exists row. simpl. rewrite lookup_insert_eq. auto. }
  rewrite Hr' in Hr''. injection Hr'' as <-. congruence.
Qed.

Lemma cost_per_hour_is_fixed_at_creation_witness :
  exists r r',
    vms (commit (insert_vms 100 large_vm signed_up) signed_up) !! 3%N = Some r /\
    vms (run stop_and_reprice (commit (insert_vms 100 large_vm signed_up) signed_up))
      !! 3%N = Some r' /\
    vms_status r' = "stopped" /\ vms_uptime_hours r' = Some 100 /\
    vms_cost_per_hour r = Some 2000 /\
    vms_cost_per_hour r' = vms_cost_per_hour r.
Proof.
  eexists. eexists.
  split; [vm_compute; reflexivity|]. split; [vm_compute; reflexivity|].
  do 3 (split; [reflexivity|]).
  apply (cost_per_hour_is_fixed_at_creation 100 large_vm signed_up
           (commit (insert_vms 100 large_vm signed_up) signed_up) stop_and_reprice);
    vm_compute; reflexivity.
Defined.

(** C8 (as stated, refuted): an entry whose reason is [credit_deduct] is
    recorded, and the billing dashboard knows that reason, while it does
    not know [manual_adjustment]. *)
Lemma credit_deduct_is_recorded :
  let entry := sample_entry 1%N "credit_deduct" {| unscaled := -5; scale := 0 |} in
  let db := commit (insert_billing_records 20 entry signed_up) signed_up in
  is_Ok (insert_billing_records 20 entry signed_up) = true /\
  billing_action_type <$> billing_records db = ["credit_deduct"] /\
  In "credit_deduct" historyFilter_options /\
  getActionTypeColor "credit_deduct" = "bg-red-100 text-red-800" /\
  getActionTypeColor "manual_adjustment" = "bg-gray-100 text-gray-800".
Proof. vm_compute. repeat split; auto. Qed.

(** C8 (amended): every recorded entry carries an action type of at most
    50 characters; any such action type is recorded as given, and whether
    an entry is accepted does not depend on it (no CHECK restricts the
    column). The action types the billing dashboard tells apart are
    exactly [vm_create], [vm_usage], [credit_add] and [credit_deduct]. *)
Theorem action_type_is_any_short_string :
  (forall history r,
     In r (billing_records (run history empty_database)) ->
     (String.length (billing_action_type r) <= 50)%nat) /\
  (forall now ins db db',
     (String.length (insert_billing_action_type ins) <= 50)%nat ->
     insert_billing_records now ins db = Ok db' ->
     exists row, billing_records db' = (billing_records db ++ [row])%list /\
       billing_action_type row = insert_billing_action_type ins) /\
  (forall now ins db a b,
     (String.length a <= 50)%nat -> (String.length b <= 50)%nat ->
     is_Ok (insert_billing_records now (relabel a ins) db)
     = is_Ok (insert_billing_records now (relabel b ins) db)) /\
  (forall a, getActionTypeColor a <> "bg-gray-100 text-gray-800"
             <-> In a historyFilter_options).
Proof.
  split; [|split; [|split]].
  - intros history r Hr.
    pose proof (action_types_fit history) as HF.
    rewrite Forall_forall in HF. apply HF. by apply list_elem_of_In.
  - intros now ins db db' Hlen H.
    apply insert_billing_records_Ok in H as (row & _ & Hrow & _ & Hb & _).
    exists row. split; [assumption|].
    apply billing_inserted_row_Ok in Hrow as (Ha & _).
    rewrite varchar_short in Ha by assumption. congruence.
  - intros now ins db a b Ha Hb.
    unfold insert_billing_records, billing_inserted_row. simpl.
    rewrite !varchar_short by assumption. simpl.
    destruct (numeric_cast 10 4 (insert_billing_amount ins)) as [amount|];
      simpl; [|reflexivity].
    unfold check, update_user_spending, update_users, spending_update.
    repeat (simpl;
            match goal with
            | |- context [if ?c then _ else _] => destruct c
            | |- context [match users db !! ?k with _ => _ end] =>
                destruct (users db !! k)
            | |- context [users_updated_row ?n ?s ?o] =>
                destruct (users_updated_row n s o)
            end; try reflexivity).
  - intros a. unfold getActionTypeColor, historyFilter_options. simpl.
    destruct (String.eqb_spec a "vm_create"); [split; [auto|discriminate]|].
    destruct (String.eqb_spec a "vm_usage"); [split; [auto|discriminate]|].
    destruct (String.eqb_spec a "credit_add"); [split; [auto|discriminate]|].
    destruct (String.eqb_spec a "credit_deduct"); [split; [auto|discriminate]|].
    split; [congruence|]. intros [|[|[|[|[]]]]]; congruence.
Qed.

(** C9: an account inserted without an explicit balance starts with
    [credits = 50.00], and without an explicit [total_spent] with
    [total_spent = 0.00]. *)
Theorem new_account_defaults now ins db db' :
  insert_users now ins db = Ok db' ->
  exists row,
    users db' !! insert_users_id ins = Some row /\
    (insert_users_credits ins = DEFAULT -> users_credits row = Some 5000) /\
    (insert_users_total_spent ins = DEFAULT -> users_total_spent row = Some 0).
Proof.
  intros H. apply insert_users_Ok in H as (row & Hrow & _ & ->).
  apply users_inserted_row_Ok in Hrow as (_ & Hc & Ht).
  exists row. simpl. rewrite lookup_insert_eq. split; [reflexivity|].
  split; intros Hdefault; rewrite Hdefault in *; assumption.
Qed.

Lemma new_account_defaults_witness :
  exists row,
    users signed_up !! 1%N = Some row /\
    users_credits row = Some 5000 /\ users_total_spent row = Some 0.
Proof.
  destruct (new_account_defaults 0 (sample_account DEFAULT) empty_database
              (commit (insert_users 0 (sample_account DEFAULT) empty_database)
                      empty_database) eq_refl)
    as (row & Hrow & Hc & Ht).
  exists row. split; [|split; [apply Hc|apply Ht]; reflexivity].
  rewrite <- Hrow. reflexivity.
Defined.

(** C10 (as stated, refuted): a [credit_add] entry of 0.0001 posted at time
    20 leaves [total_spent] at 0.00 instead of adding the amount, and moves
    the account's [updated_at] from 0 to 20. *)
Lemma append_rounds_and_touches_updated_at :
  let entry := sample_entry 1%N "credit_add" {| unscaled := 1; scale := 4 |} in
  let db := commit (insert_billing_records 20 entry signed_up) signed_up in
  is_Ok (insert_billing_records 20 entry signed_up) = true /\
  users_total_spent <$> users signed_up !! 1%N = Some (Some 0) /\
  users_total_spent <$> users db !! 1%N = Some (Some 0) /\
  users_updated_at <$> users signed_up !! 1%N = Some (Some 0) /\
  users_updated_at <$> users db !! 1%N = Some (Some 20).
Proof. vm_compute. repeat split; reflexivity. Qed.

(** C10 (amended): appending an entry with a positive amount, whatever its
    reason, stores in the owner's [total_spent] the sum rounded to two
    decimals (the exact sum when the amount is whole cents; NULL stays
    NULL) and sets the owner's [updated_at] to the current timestamp;
    every other field of the owner is kept. Appending an entry with a
    negative amount keeps the owner's row. Other accounts are untouched. *)
Theorem append_updates_total_spent now ins db db' old :
  insert_billing_records now ins db = Ok db' ->
  users db !! insert_billing_user_id ins = Some old ->
  let account := insert_billing_user_id ins in
  let amount := rescale 4 (insert_billing_amount ins) in
  (0 < amount ->
   users db' !! account
   = Some (update_updated_at_column now
             (users_with_total_spent
                (add_spending amount (users_total_spent old)) old))) /\
  (forall cents, amount = cents * 100 ->
   add_spending amount (users_total_spent old)
   = (fun t => t + cents) <$> users_total_spent old) /\
  (amount < 0 -> users db' !! account = Some old) /\
  (forall other, other <> account -> users db' !! other = users db !! other).
Proof.
  intros H Hold account amount.
  apply insert_billing_records_Ok in H
    as (row & owner & Hrow & Howner & _ & _ & _ & Hu).
  apply billing_inserted_row_Ok in Hrow as (_ & Hamount & _ & Hid & _).
  rewrite Hid in *. fold account in Howner, Hu, Hold.
  rewrite Hamount in Hu. fold amount in Hu.
  rewrite Hold in Howner. injection Howner as <-.
  repeat split.
  - intros Hpos. destruct (Z.ltb_spec 0 amount); [|lia].
    destruct Hu as (new & Hnew & ->).
    apply users_updated_row_spending in Hnew. rewrite lookup_insert_eq.
    rewrite Hamount in Hnew. by subst new.
  - intros cents ->. unfold add_spending.
    destruct (users_total_spent old); simpl; [|reflexivity].
    by rewrite round_half_away_exact.
  - intros Hneg. destruct (Z.ltb_spec 0 amount); [lia|]. by rewrite Hu.
  - intros other Hother. destruct (0 <? amount).
    + destruct Hu as (new & _ & ->). by rewrite lookup_insert_ne.
    + by rewrite Hu.
Qed.

(** A top-up of 10 credits recorded as [credit_add] at time 20 raises
    [total_spent] from 0.00 to 10.00 and stamps [updated_at]. *)
Lemma append_updates_total_spent_witness :
  let ins := sample_entry 1%N "credit_add" {| unscaled := 10; scale := 0 |} in
  let db' := commit (insert_billing_records 20 ins signed_up) signed_up in
  users db' !! 1%N
  = Some (update_updated_at_column 20
            (users_with_total_spent (Some 1000) signed_up_row)).
Proof.
  intros ins db'.
  destruct (append_updates_total_spent 20 ins signed_up db' signed_up_row)
    as (Hpos & _); [reflexivity|reflexivity|].
  exact (Hpos eq_refl).
Defined.

(** ** Statements and the foreign keys *)

Lemma insert_projects_row now ins db db' :
  insert_projects now ins db = Ok db' ->
  exists row, projects db !! insert_projects_id ins = None /\
    is_Some (users db !! projects_user_id row) /\
    db' = with_projects (<[insert_projects_id ins := row]> (projects db)) db.
Proof.
  unfold insert_projects. intros H. inv_bind H.
  case_bool_decide as Hid; [discriminate|].
  case_bool_decide as Hu; [|discriminate]. simpl in H. injection H as <-.
  eexists. split; [|split; [exact Hu|reflexivity]].
  destruct (projects db !! insert_projects_id ins) eqn:L; [|reflexivity].
  exfalso. apply Hid. eauto.
Qed.

Lemma update_vm_costs_references NEW r :
  update_vm_costs NEW = Ok r ->
  vms_user_id r = vms_user_id NEW /\ vms_project_id r = vms_project_id NEW.
Proof.
  unfold update_vm_costs. intros H. inv_bind H. injection H as <-. auto.
Qed.

Lemma insert_vms_row now ins db db' :
  insert_vms now ins db = Ok db' ->
  exists row, vms_inserted_row now ins = Ok row /\
    vms db !! insert_vms_id ins = None /\
    is_Some (users db !! vms_user_id row) /\
    is_Some (projects db !! vms_project_id row) /\
    db' = with_vms (<[insert_vms_id ins := row]> (vms db)) db.
Proof.
  intros H. destruct (insert_vms_Ok _ _ _ _ H) as (row & Hrow & Hid & ->).
  exists row. repeat split; try assumption.
  all: unfold insert_vms in H; rewrite Hrow in H; simpl in H;
    case_bool_decide; [discriminate|]; unfold vms_foreign_keys in H;
    repeat case_bool_decide; simpl in H; try discriminate; assumption.
Qed.

Lemma vms_updated_row_references now set old new :
  vms_updated_row now set old = Ok new ->
  vms_user_id new = vms_user_id old /\ vms_project_id new = vms_project_id old.
Proof.
  unfold vms_updated_row. intros H. inv_bind H. injection H as <-.
  apply update_vm_costs_references in E6 as [Hu Hp].
  unfold update_updated_at_column, set_updated_at, vms_set_updated_at. simpl.
  rewrite Hu, Hp. auto.
Qed.

Lemma insert_billing_records_vm now ins db db' :
  insert_billing_records now ins db = Ok db' ->
  exists row, billing_inserted_row now ins = Ok row /\
    from_option (fun v => is_Some (vms db !! v)) True (billing_vm_id row).
Proof.
  unfold insert_billing_records. intros H. inv_bind H. exists x. split; [assumption|].
  destruct (existsb _ _); [discriminate|].
  destruct (negb (bool_decide _)); [discriminate|].
  destruct (billing_vm_id x) as [v|]; simpl in *; [|exact I].
  case_bool_decide; [assumption|discriminate].
Qed.

(** No statement of [statement] removes a row. *)
Lemma execute_keys now s db db' :
  execute now s db = Ok db' ->
  (forall u, is_Some (users db !! u) -> is_Some (users db' !! u)) /\
  (forall p, is_Some (projects db !! p) -> is_Some (projects db' !! p)) /\
  (forall v, is_Some (vms db !! v) -> is_Some (vms db' !! v)).
Proof.
  destruct s as [ins|id set|ins|ins|id set|ins]; simpl; intros H.
  - apply insert_users_Ok in H as (row & _ & _ & ->). simpl.
    split; [|auto]. intros u Hu. rewrite lookup_insert_is_Some. destruct Hu; eauto.
    destruct (decide (insert_users_id ins = u)); eauto.
  - apply update_users_Ok in H. destruct (users db !! id) as [old|] eqn:L; [|by subst].
    destruct H as (new & _ & ->). simpl. split; [|auto].
    intros u Hu. rewrite lookup_insert_is_Some.
    destruct (decide (id = u)); eauto.
  - apply insert_projects_row in H as (row & _ & _ & ->). simpl.
    split; [auto|split; [|auto]]. intros p Hp. rewrite lookup_insert_is_Some.
    destruct (decide (insert_projects_id ins = p)); eauto.
  - apply insert_vms_Ok in H as (row & _ & _ & ->). simpl.
    split; [auto|split; [auto|]]. intros v Hv. rewrite lookup_insert_is_Some.
    destruct (decide (insert_vms_id ins = v)); eauto.
  - apply update_vms_Ok in H. destruct (vms db !! id) as [old|] eqn:L; [|by subst].
    destruct H as (new & _ & ->). simpl. split; [auto|split; [auto|]].
    intros v Hv. rewrite lookup_insert_is_Some.
    destruct (decide (id = v)); eauto.
  - apply insert_billing_records_Ok in H
      as (row & old & _ & Hold & _ & -> & -> & Hu).
    split; [|auto]. intros u Hx.
    destruct (0 <? billing_amount row); [|by rewrite Hu].
    destruct Hu as (new & _ & ->). rewrite lookup_insert_is_Some.
    destruct (decide (billing_user_id row = u)); eauto.
Qed.


Lemma billing_references_mono db db' r :
  (forall u, is_Some (users db !! u) -> is_Some (users db' !! u)) ->
  (forall v, is_Some (vms db !! v) -> is_Some (vms db' !! v)) ->
  billing_references db r -> billing_references db' r.
Proof.
  intros Hu Hv [H1 H2]. split; [auto|].
  destruct (billing_vm_id r); simpl in *; auto.
Qed.

Lemma execute_core_references now s db db' :
  execute now s db = Ok db' ->
  core_references_hold db -> core_references_hold db'.
Proof.
  intros H (Hp & Hv & Hb).
  destruct (execute_keys _ _ _ _ H) as (Ku & Kp & Kv).
  assert (Hb' : Forall (billing_references db') (billing_records db) ).
  { eapply Forall_impl; [exact Hb|]. intros r Hr.
    by eapply billing_references_mono. }
  destruct s as [ins|id set|ins|ins|id set|ins]; simpl in H.
  - apply insert_users_Ok in H as (row & _ & _ & ->).
    split; [|split; [|exact Hb']].
    + intros k p Hk. apply Ku. by eapply Hp.
    + intros k v Hk. destruct (Hv k v Hk). split; [by apply Ku|assumption].
  - apply update_users_Ok in H. destruct (users db !! id) as [old|] eqn:L;
      [|subst; exact (conj Hp (conj Hv Hb))].
    destruct H as (new & _ & ->).
    split; [|split; [|exact Hb']].
    + intros k p Hk. apply Ku. by eapply Hp.
    + intros k v Hk. destruct (Hv k v Hk). split; [by apply Ku|assumption].
  - apply insert_projects_row in H as (row & Hid & Hrow & ->).
    split; [|split; [|exact Hb']].
    + intros k p. simpl. rewrite lookup_insert_Some.
      intros [[_ <-]|[_ Hk]]; [assumption|by eapply Hp].
    + intros k v Hk. destruct (Hv k v Hk). split; [assumption|by apply Kp].
  - apply insert_vms_row in H as (row & _ & Hid & Hu & Hpr & ->).
    split; [exact Hp|split; [|exact Hb']].
    intros k v. simpl. rewrite lookup_insert_Some.
    intros [[_ <-]|[_ Hk]]; [by split|by eapply Hv].
  - apply update_vms_Ok in H. destruct (vms db !! id) as [old|] eqn:L;
      [|subst; exact (conj Hp (conj Hv Hb))].
    destruct H as (new & Hnew & ->).
    apply vms_updated_row_references in Hnew as [Eu Ep].
    split; [exact Hp|split; [|exact Hb']].
    intros k v. simpl. rewrite lookup_insert_Some.
    intros [[_ <-]|[_ Hk]]; [|by eapply Hv].
    rewrite Eu, Ep. by eapply Hv.
  - destruct (insert_billing_records_vm _ _ _ _ H) as (row' & Hrow' & Hvm).
    apply insert_billing_records_Ok in H
      as (row & old & Hrow & Hold & Hl & Ev & Epr & Hu).
    assert (row' = row) as -> by congruence.
    split; [|split].
    + rewrite Epr. intros k p Hk. apply Ku. by eapply Hp.
    + rewrite Ev, Epr. intros k v Hk. destruct (Hv k v Hk).
      split; [by apply Ku|assumption].
    + rewrite Hl. apply Forall_app. split; [exact Hb'|].
      constructor; [|constructor]. split.
      * apply Ku. eauto.
      * destruct (billing_vm_id row); simpl in *; [by apply Kv|exact I].
Qed.

(** ** The commands, table by table *)

Lemma update_vms_logged_Ok now id set st st' :
  update_vms_logged now id set st = Ok st' ->
  update_vms now id set (core st) = Ok (core st') /\
  vm_metrics st' = vm_metrics st /\ audit_logs st' = audit_logs st /\
  (vm_state_transitions st' = vm_state_transitions st /\
   (forall OLD NEW, vms (core st) !! id = Some OLD -> vms (core st') !! id = Some NEW ->
      vms_status NEW = vms_status OLD)
   \/
   exists OLD NEW from to,
     vms (core st) !! id = Some OLD /\ vms (core st') !! id = Some NEW /\
     vms_status OLD <> vms_status NEW /\
     varchar 20 (vms_status OLD) = Ok from /\ varchar 20 (vms_status NEW) = Ok to /\
     vm_state_transitions st' =
       (vm_state_transitions st ++
        [{| transition_vm_id := id; transition_from_status := Some from;
            transition_to_status := to; transition_reason := Some "Status updated";
            transition_triggered_by := None;
            transition_created_at := Some now |}])%list).
Proof.
  unfold update_vms_logged, update_vms.
  destruct (vms (core st) !! id) as [OLD|] eqn:L.
  2:{ intros [= <-]. repeat split; try reflexivity. left. split; [reflexivity|].
      intros OLD NEW H. congruence. }
  intros H. inv_bind H. rename x into NEW. rewrite E. simpl.
  unfold log_vm_state_transition in H.
  destruct (String.eqb_spec (vms_status OLD) (vms_status NEW)) as [Heq|Hne];
    simpl in H.
  - injection H as <-. simpl. repeat split; try reflexivity.
    left. split; [reflexivity|]. intros OLD' NEW' [= <-].
    rewrite lookup_insert_eq. intros [= <-]. congruence.
  - unfold insert_vm_state_transitions in H. inv_bind H. simpl in E0.
    inv_bind E0. injection E0 as <-. rename x1 into from, x0 into to.
    case_bool_decide; [|discriminate]. simpl in H. injection H as <-. simpl.
    repeat split; try reflexivity. right.
    exists OLD, NEW, from, to. rewrite lookup_insert_eq. by repeat split.
Qed.

Lemma run_command_SQL now s st st' :
  run_command now (SQL s) st = Ok st' ->
  execute now s (core st) = Ok (core st') /\
  vm_metrics st' = vm_metrics st /\ audit_logs st' = audit_logs st /\
  (vm_state_transitions st' = vm_state_transitions st /\
   (forall id set OLD NEW, s = UPDATE_vms id set ->
      vms (core st) !! id = Some OLD -> vms (core st') !! id = Some NEW ->
      vms_status NEW = vms_status OLD)
   \/
   exists id set OLD NEW from to, s = UPDATE_vms id set /\
     vms (core st) !! id = Some OLD /\ vms (core st') !! id = Some NEW /\
     vms_status OLD <> vms_status NEW /\
     varchar 20 (vms_status OLD) = Ok from /\ varchar 20 (vms_status NEW) = Ok to /\
     vm_state_transitions st' =
       (vm_state_transitions st ++
        [{| transition_vm_id := id; transition_from_status := Some from;
            transition_to_status := to; transition_reason := Some "Status updated";
            transition_triggered_by := None;
            transition_created_at := Some now |}])%list).
Proof.
  destruct s as [ins|id set|ins|ins|id set|ins]; simpl; intros H.
  5:{ apply update_vms_logged_Ok in H as (He & Hm & Ha & [[Ht Hs]|Hlog]).
      - repeat split; try assumption. left. split; [assumption|].
        intros id' set' OLD NEW [= <- <-]. apply Hs.
      - repeat split; try assumption. right.
        destruct Hlog as (OLD & NEW & from & to & Hlog). by exists id, set, OLD, NEW, from, to. }
  all: inv_bind H; injection H as <-; simpl; rewrite E;
    repeat split; try reflexivity; left; split; [reflexivity|]; discriminate.
Qed.

Lemma delete_vms_where_lookup cond st id r :
  vms (core (delete_vms_where cond st)) !! id = Some r <->
  vms (core st) !! id = Some r /\ cond id r = false.
Proof. simpl. by rewrite map_lookup_filter_Some. Qed.

Lemma delete_vms_where_is_Some cond st id :
  is_Some (vms (core (delete_vms_where cond st)) !! id) <->
  is_Some (vms (core st) !! id) /\
  from_option (cond id) false (vms (core st) !! id) = false.
Proof.
  unfold is_Some. setoid_rewrite delete_vms_where_lookup. split.
  - intros (r & Hr & Hc). rewrite Hr. eauto.
  - intros [[r Hr] Hc]. rewrite Hr in Hc. eauto.
Qed.

Lemma delete_vms_where_references cond st :
  references_hold st -> references_hold (delete_vms_where cond st).
Proof.
  intros ((Hp & Hv & Hb) & Hm & Ht & Ha).
  split; [split; [exact Hp|split]|split; [|split; [|exact Ha]]].
  - intros id r Hr. apply delete_vms_where_lookup in Hr as [Hr _]. by eapply Hv.
  - cbn [core billing_records delete_vms_where]. apply Forall_fmap.
    eapply Forall_impl; [exact Hb|]. intros r [Hu Hvm]. split; [exact Hu|].
    simpl. destruct (billing_vm_id r) as [v|]; simpl in *; [|exact I].
    destruct (from_option (cond v) false (vms (core st) !! v)) eqn:G; [exact I|].
    simpl. by apply delete_vms_where_is_Some.
  - cbn [vm_metrics delete_vms_where]. apply Forall_forall. intros m Hin.
    apply list_elem_of_filter in Hin as [G Hin].
    rewrite Forall_forall in Hm. apply delete_vms_where_is_Some. auto.
  - cbn [vm_state_transitions delete_vms_where]. apply Forall_forall. intros t Hin.
    apply list_elem_of_filter in Hin as [G Hin].
    rewrite Forall_forall in Ht. destruct (Ht t Hin) as [H1 H2].
    split; [|exact H2]. apply delete_vms_where_is_Some. auto.
Qed.

Lemma delete_projects_where_references cond st :
  references_hold st -> references_hold (delete_projects_where cond st).
Proof.
  intros H. unfold delete_projects_where.
  set (gone := fun id => from_option (cond id) false (projects (core st) !! id)).
  set (by_project := fun (_ : uuid) v => gone (vms_project_id v)).
  pose proof (delete_vms_where_references by_project st H)
    as ((Hp & Hv & Hb) & Hm & Ht & Ha).
  set (st' := delete_vms_where by_project st) in *.
  split; [split; [|split; [|exact Hb]]|by repeat split].
  - intros id p. cbn [core with_core projects with_projects].
    rewrite map_lookup_filter_Some. intros [Hid _]. by eapply Hp.
  - intros id v Hid. cbn [core with_core vms with_projects] in Hid.
    destruct (Hv id v Hid) as [Hu Hpr].
    split; [exact Hu|]. cbn [core with_core projects with_projects users].
    unfold st' in Hid. apply delete_vms_where_lookup in Hid as [Hid Hc].
    unfold by_project, gone in Hc.
    destruct Hpr as [p Hpr]. change (projects (core st')) with (projects (core st)) in *.
    rewrite Hpr in Hc. simpl in Hc.
    exists p. by apply map_lookup_filter_Some.
Qed.

Lemma delete_from_users_references id st :
  references_hold st -> references_hold (delete_from_users id st).
Proof.
  intros H. unfold delete_from_users.
  destruct (users (core st) !! id) as [u|] eqn:Hu; [|exact H].
  set (st1 := delete_projects_where _ st).
  set (st2 := delete_vms_where _ st1).
  assert (H2 : references_hold st2).
  { apply delete_vms_where_references, delete_projects_where_references, H. }
  assert (Hproj : forall k p, projects (core st2) !! k = Some p ->
                    projects_user_id p <> id).
  { intros k p Hk. cbn in Hk. apply map_lookup_filter_Some in Hk as [_ Hc].
    simpl in Hc. by apply N.eqb_neq in Hc. }
  assert (Hvms : forall k v, vms (core st2) !! k = Some v -> vms_user_id v <> id).
  { intros k v Hk. unfold st2 in Hk. apply delete_vms_where_lookup in Hk as [_ Hc].
    by apply N.eqb_neq in Hc. }
  clearbody st2. clear st1.
  destruct H2 as ((Hp & Hv & Hb) & Hm & Ht & Ha).
  assert (Hkeep : forall k, k <> id -> is_Some (users (core st2) !! k) ->
                    is_Some (base.delete id (users (core st2)) !! k)).
  { intros k Hk Hs. by rewrite lookup_delete_ne. }
  split; [split; [|split]|split; [exact Hm|split]].
  - intros k p Hk. cbn [core projects users] in *.
    apply Hkeep; [by eapply Hproj|by eapply Hp].
  - intros k v Hk. cbn [core projects users vms] in *.
    destruct (Hv k v Hk) as [H1 H2]. split; [|exact H2].
    apply Hkeep; [by eapply Hvms|exact H1].
  - cbn [core billing_records]. apply Forall_forall. intros r Hin.
    apply list_elem_of_filter in Hin as [Hne Hin].
    rewrite Forall_forall in Hb. destruct (Hb r Hin) as [H1 H2].
    split; [by apply Hkeep|exact H2].
  - cbn [vm_state_transitions core users vms]. apply Forall_fmap.
    eapply Forall_impl; [exact Ht|]. intros t [H1 H2]. split; [exact H1|].
    simpl. case_bool_decide as Hd; [exact I|].
    destruct (transition_triggered_by t) as [k|]; simpl in *; [|exact I].
    apply Hkeep; [congruence|exact H2].
  - cbn [audit_logs core users]. apply Forall_fmap.
    eapply Forall_impl; [exact Ha|]. intros a H1.
    simpl. case_bool_decide as Hd; [exact I|].
    destruct (audit_user_id a) as [k|] eqn:Ek; simpl in *; [|exact I].
    apply Hkeep; [congruence|]. by rewrite Ek in H1.
Qed.

Lemma insert_vm_metrics_Ok now ins st st' :
  insert_vm_metrics now ins st = Ok st' ->
  exists row, vm_metrics_inserted_row now ins = Ok row /\
    is_Some (vms (core st) !! metrics_vm_id row) /\
    st' = with_vm_metrics (vm_metrics st ++ [row]) st.
Proof.
  unfold insert_vm_metrics. intros H. inv_bind H.
  destruct (existsb _ _); [discriminate|].
  case_bool_decide; [|discriminate]. simpl in H. injection H as <-. eauto.
Qed.

Lemma insert_audit_logs_Ok now ins st st' :
  insert_audit_logs now ins st = Ok st' ->
  exists row,
    from_option (fun u => is_Some (users (core st) !! u)) True (audit_user_id row) /\
    audit_user_id row = insert_audit_user_id ins /\
    st' = with_audit_logs (audit_logs st ++ [row]) st.
Proof.
  unfold insert_audit_logs. intros H. inv_bind H.
  destruct (existsb _ _); [discriminate|].
  destruct (negb _) eqn:G; [discriminate|]. injection H as <-.
  eexists. split; [|split; [|reflexivity]]; [|reflexivity]. simpl in *.
  destruct (insert_audit_user_id ins); simpl in *; [|exact I].
  apply negb_false_iff in G. by case_bool_decide.
Qed.

Lemma timestamptz_mi_days_Ok t days cutoff :
  timestamptz_mi_days t days = Ok cutoff ->
  cutoff = (fun n => t - day * n) <$> days.
Proof.
  unfold timestamptz_mi_days. destruct days as [n|]; simpl; [|by intros [= <-]].
  destruct (_ && _); [by intros [= <-]|discriminate].
Qed.

Lemma integer_Ok n m : integer n = Ok m -> m = n /\ - 2 ^ 31 <= n < 2 ^ 31.
Proof.
  unfold integer. destruct (Z.leb_spec (- 2 ^ 31) n), (Z.ltb_spec n (2 ^ 31));
    simpl; intros [= <-]. lia.
Qed.

(** A cleanup that succeeds is its four DELETEs. *)
Lemma cleanup_old_audit_logs_Ok now retention_days st deleted_count st' :
  cleanup_old_audit_logs now retention_days st = Ok (deleted_count, st') ->
  exists retention audit_cutoff health_cutoff,
    match or_default (Some 90) retention_days with
    | None => Ok None
    | Some n => Some <$> integer n
    end = Ok retention /\
    audit_cutoff = (fun n => now - day * n) <$> retention /\
    health_cutoff = (fun n => now - day * (n ÷ 2)) <$> retention /\
    deleted_count
    = Z.of_nat (length (audit_logs st))
      - Z.of_nat (length (filter (fun r => before audit_cutoff (audit_created_at r) = false)
                            (audit_logs st))) /\
    deleted_count < 2 ^ 31 /\
    st' = delete_before audit_cutoff health_cutoff
            (Some (now - day * 30)) (Some (now - day * 60)) st.
Proof.
  unfold cleanup_old_audit_logs. intros H. inv_bind H. injection H as <- <-.
  apply timestamptz_mi_days_Ok in E0, E2, E3, E4. apply integer_Ok in E1 as [-> ?].
  exists x, x0, x2. repeat split; try assumption; try lia.
  - rewrite E2. by destruct x.
  - by rewrite E3, E4.
Qed.

Lemma run_command_cleanup now retention_days st st' :
  run_command now (SELECT_cleanup_old_audit_logs retention_days) st = Ok st' ->
  exists audit_cutoff health_cutoff connection_cutoff metrics_cutoff,
    st' = delete_before audit_cutoff health_cutoff connection_cutoff metrics_cutoff st.
Proof.
  simpl. destruct (cleanup_old_audit_logs now retention_days st) as [[n st1]|] eqn:E;
    simpl; [|discriminate].
  intros [= <-]. apply cleanup_old_audit_logs_Ok in E as (? & ? & ? & _ & _ & _ & _ & _ & ->).
  eauto 6.
Qed.

(** Every command keeps the foreign keys of the schema. *)
Lemma run_command_references now c st st' :
  run_command now c st = Ok st' -> references_hold st -> references_hold st'.
Proof.
  intros H Hr. destruct c as [s|id|id|id|ins|ins|retention|].
  - destruct Hr as (Hc & Hm & Ht & Ha).
    apply run_command_SQL in H as (He & Em & Ea & Hlog).
    destruct (execute_keys _ _ _ _ He) as (Ku & _ & Kv).
    assert (Ht' : Forall (fun t => is_Some (vms (core st') !! transition_vm_id t) /\
                     from_option (fun u => is_Some (users (core st') !! u)) True
                       (transition_triggered_by t)) (vm_state_transitions st)).
    { eapply Forall_impl; [exact Ht|]. intros t [H1 H2]. split; [auto|].
      destruct (transition_triggered_by t); simpl in *; auto. }
    split; [by eapply execute_core_references|split; [|split]].
    + rewrite Em. eapply Forall_impl; [exact Hm|]. intros m Hx. by apply Kv.
    + destruct Hlog as [[-> _]|(id & set & OLD & NEW & from & to & _ & _ & HN & _ & _ & _ & ->)];
        [exact Ht'|].
      apply Forall_app. split; [exact Ht'|]. constructor; [|constructor].
      simpl. split; [eauto|exact I].
    + rewrite Ea. eapply Forall_impl; [exact Ha|]. intros a H1. cbv beta in H1.
      destruct (audit_user_id a); simpl in *; auto.
  - injection H as <-. by apply delete_from_users_references.
  - injection H as <-. by apply delete_projects_where_references.
  - injection H as <-. by apply delete_vms_where_references.
  - apply insert_vm_metrics_Ok in H as (row & _ & Hvm & ->).
    destruct Hr as (Hc & Hm & Ht & Ha). split; [exact Hc|split; [|by split]].
    apply Forall_app. split; [exact Hm|]. by constructor.
  - apply insert_audit_logs_Ok in H as (row & Hu & _ & ->).
    destruct Hr as (Hc & Hm & Ht & Ha).
    split; [exact Hc|split; [exact Hm|split; [exact Ht|]]].
    apply Forall_app. split; [exact Ha|]. by constructor.
  - apply run_command_cleanup in H as (c1 & c2 & c3 & c4 & ->).
    destruct Hr as (Hc & Hm & Ht & Ha).
    split; [exact Hc|split; [|split; [exact Ht|]]]; cbn.
    + apply Forall_forall. intros m Hin. apply list_elem_of_filter in Hin as [_ Hin].
      rewrite Forall_forall in Hm. auto.
    + apply Forall_forall. intros a Hin. apply list_elem_of_filter in Hin as [_ Hin].
      rewrite Forall_forall in Ha. auto.
  - injection H as <-. exact Hr.
Qed.

Section Replay.

Variable P : store -> Prop.
Hypothesis run_command_preserves :
  forall now c st st', run_command now c st = Ok st' -> P st -> P st'.

Lemma run_commands_invariant now body st st' :
  run_commands now body st = Ok st' -> P st -> P st'.
Proof.
  revert st. induction body as [|c rest IH]; simpl; intros st H HP.
  - by injection H as <-.
  - inv_bind H. eauto.
Qed.

Lemma replay_invariant history st : P st -> P (replay history st).
Proof.
  revert st. induction history as [|[now body] rest IH]; simpl; intros st HP;
    [assumption|].
  apply IH. destruct (run_commands now body st) eqn:E; [|assumption].
  by eapply run_commands_invariant.
Qed.

End Replay.

Lemma references_hold_empty : references_hold empty_store.
Proof.
  split; [split; [|split]|split; [|split]];
    first [apply map_Forall_empty | constructor].
Qed.

(** ** The log of state transitions *)

Lemma path_to_snoc a b log :
  a <> b -> path_to a log -> path_to b (log ++ [(Some a, b)]).
Proof.
  intros Hab. induction log as [|[from to] rest IH]; simpl.
  - intros _. split; [congruence|]. auto.
  - intros (Hloop & Hnext & Hrest). split; [exact Hloop|].
    destruct rest as [|[next to'] rest']; simpl in *.
    + subst. split; [reflexivity|]. split; [congruence|auto].
    + split; [exact Hnext|]. by apply IH.
Qed.

Lemma logged_app id l1 l2 : logged id (l1 ++ l2) = (logged id l1 ++ logged id l2)%list.
Proof. unfold logged. by rewrite filter_app, fmap_app. Qed.

Lemma logged_absent id log :
  Forall (fun t => transition_vm_id t <> id) log -> logged id log = [].
Proof.
  unfold logged. induction 1 as [|t l Ht _ IH]; [reflexivity|].
  by rewrite filter_cons_False.
Qed.

Lemma logged_filter id (gone : uuid -> bool) log :
  gone id = false ->
  logged id (filter (fun t => gone (transition_vm_id t) = false) log) = logged id log.
Proof.
  intros Hk. unfold logged. f_equal. induction log as [|t l IH]; [reflexivity|].
  rewrite !filter_cons. destruct (decide (gone (transition_vm_id t) = false)) as [Ht|Ht].
  - rewrite filter_cons. by rewrite IH.
  - rewrite IH. destruct (decide (transition_vm_id t = id)) as [<-|]; congruence.
Qed.

Lemma logged_set_null_user id u log :
  logged id (transition_set_null_user u <$> log) = logged id log.
Proof.
  unfold logged in *. induction log as [|t l IH]; [reflexivity|].
  rewrite fmap_cons, !filter_cons.
  change (transition_vm_id (transition_set_null_user u t)) with (transition_vm_id t).
  destruct (decide (transition_vm_id t = id)); [|exact IH].
  rewrite !fmap_cons. by rewrite IH.
Qed.


Lemma statuses_fit s : In s statuses -> varchar 20 s = Ok s.
Proof.
  intros Hin. apply varchar_short.
  simpl in Hin. destruct Hin as [<-|[<-|[<-|[<-|[<-|[]]]]]]; simpl; lia.
Qed.

Lemma execute_statuses now s db db' id r' :
  execute now s db = Ok db' ->
  vms db' !! id = Some r' ->
  (forall r, vms db !! id = Some r -> In (vms_status r) statuses) ->
  In (vms_status r') statuses.
Proof.
  intros H Hr' Hold.
  destruct (execute_vms _ _ _ _ _ _ H Hr')
    as [Hsame|[(ins & _ & _ & _ & Hrow)|(set & old & _ & _ & Hrow)]].
  - by apply Hold.
  - by apply vms_inserted_row_Ok in Hrow as (_ & ? & _).
  - by apply vms_updated_row_Ok in Hrow as (_ & ? & _).
Qed.

Lemma run_command_SQL_log now s st st' :
  run_command now (SQL s) st = Ok st' -> log_consistent st -> log_consistent st'.
Proof.
  intros H [Hex Hvm].
  apply run_command_SQL in H as (He & _ & _ & Hlog).
  destruct (execute_keys _ _ _ _ He) as (_ & _ & Kv).
  assert (Hex' : Forall (fun t => is_Some (vms (core st') !! transition_vm_id t))
                   (vm_state_transitions st)).
  { eapply Forall_impl; [exact Hex|]. intros t Ht. by apply Kv. }
  assert (Hst : forall id r', vms (core st') !! id = Some r' ->
                  In (vms_status r') statuses).
  { intros id r' Hr'. eapply execute_statuses; [exact He|exact Hr'|].
    intros r Hr. by destruct (Hvm id r Hr). }
  unfold log_consistent.
  destruct Hlog as [[Et Hs]|(id & set & OLD & NEW & from & to & -> & HO & HN & Hne & Hf & Ht & Et)].
  - rewrite Et. split; [exact Hex'|]. intros id r' Hr'. split; [by eapply Hst|].
    destruct (execute_vms _ _ _ _ _ _ He Hr')
      as [Hsame|[(ins & -> & -> & Hnone & Hrow)|(set & old & -> & Hold & Hrow)]].
    + by destruct (Hvm id r' Hsame).
    + rewrite logged_absent; [exact I|].
      eapply Forall_impl; [exact Hex|]. intros t [r Hr] Heq. cbv beta in Hr.
      rewrite Heq in Hr. congruence.
    + rewrite (Hs id set old r' eq_refl Hold Hr'). by destruct (Hvm id old Hold).
  - rewrite Et. split.
    + apply Forall_app. split; [exact Hex'|]. constructor; [|constructor]. simpl. eauto.
    + intros id' r' Hr'. split; [by eapply Hst|]. rewrite logged_app.
      destruct (Hvm id OLD HO) as [HOs HOp].
      rewrite (statuses_fit _ HOs) in Hf. injection Hf as <-.
      rewrite (statuses_fit _ (Hst id NEW HN)) in Ht. injection Ht as <-.
      destruct (decide (id' = id)) as [->|Hid].
      * assert (r' = NEW) as -> by congruence.
        unfold logged at 2. rewrite filter_cons_True by reflexivity. simpl.
        by apply path_to_snoc.
      * unfold logged at 2. rewrite filter_cons_False by (simpl; congruence).
        rewrite filter_nil, fmap_nil, app_nil_r.
        destruct (execute_vms _ _ _ _ _ _ He Hr')
          as [Hsame|[(ins & ? & _)|(set' & old & Heq & _)]]; try congruence.
        by destruct (Hvm id' r' Hsame).
Qed.

Lemma delete_vms_where_log cond st :
  log_consistent st -> log_consistent (delete_vms_where cond st).
Proof.
  intros [Hex Hvm]. split.
  - cbn [vm_state_transitions delete_vms_where]. apply Forall_forall. intros t Hin.
    apply list_elem_of_filter in Hin as [G Hin]. rewrite Forall_forall in Hex.
    apply delete_vms_where_is_Some. auto.
  - intros id r Hr. apply delete_vms_where_lookup in Hr as [Hr Hc].
    destruct (Hvm id r Hr) as [Hs Hp]. split; [exact Hs|].
    cbn [vm_state_transitions delete_vms_where].
    rewrite (logged_filter id
               (fun k => from_option (cond k) false (vms (core st) !! k)));
      [exact Hp|].
    by rewrite Hr.
Qed.

Lemma delete_projects_where_log cond st :
  log_consistent st -> log_consistent (delete_projects_where cond st).
Proof.
  intros H. unfold delete_projects_where.
  match goal with |- context [delete_vms_where ?c st] =>
    pose proof (delete_vms_where_log c st H) as H'; set (st' := delete_vms_where c st) in *
  end.
  exact H'.
Qed.

Lemma delete_from_users_log id st :
  log_consistent st -> log_consistent (delete_from_users id st).
Proof.
  intros H. unfold delete_from_users.
  destruct (users (core st) !! id); [|exact H].
  match goal with |- context [delete_vms_where ?c ?s] =>
    assert (H2 : log_consistent (delete_vms_where c s))
      by (apply delete_vms_where_log, delete_projects_where_log, H);
    set (st2 := delete_vms_where c s) in *
  end.
  clearbody st2. destruct H2 as [Hex Hvm]. split.
  - cbn [vm_state_transitions core vms]. apply Forall_fmap.
    eapply Forall_impl; [exact Hex|]. auto.
  - intros k r Hr. cbn [vm_state_transitions core vms] in *.
    rewrite logged_set_null_user. by apply Hvm.
Qed.

(** Every command keeps the log of state transitions consistent. *)
Lemma run_command_log now c st st' :
  run_command now c st = Ok st' -> log_consistent st -> log_consistent st'.
Proof.
  intros H Hl. destruct c as [s|id|id|id|ins|ins|retention|].
  - by eapply run_command_SQL_log.
  - injection H as <-. by apply delete_from_users_log.
  - injection H as <-. by apply delete_projects_where_log.
  - injection H as <-. by apply delete_vms_where_log.
  - apply insert_vm_metrics_Ok in H as (row & _ & _ & ->). exact Hl.
  - apply insert_audit_logs_Ok in H as (row & _ & _ & ->). exact Hl.
  - apply run_command_cleanup in H as (c1 & c2 & c3 & c4 & ->). exact Hl.
  - injection H as <-. exact Hl.
Qed.

Lemma log_consistent_empty : log_consistent empty_store.
Proof. split; [constructor|apply map_Forall_empty]. Qed.

(** On a consistent store the trigger [log_vm_state_transition] does not
    fail: a statement gives the tables of [database] what [execute] gives
    them. *)
Lemma run_command_SQL_core now s st :
  log_consistent st ->
  core <$> run_command now (SQL s) st = execute now s (core st).
Proof.
  intros [Hex Hvm].
  destruct s as [ins|id set|ins|ins|id set|ins]; simpl;
    try (match goal with |- context [?f now ?a (core st)] =>
           destruct (f now a (core st)) end; reflexivity);
    try (match goal with |- context [?f now ?a ?b (core st)] =>
           destruct (f now a b (core st)) end; reflexivity).
  unfold update_vms_logged, update_vms.
  destruct (vms (core st) !! id) as [OLD|] eqn:HO; [|reflexivity].
  destruct (vms_updated_row now set OLD) as [NEW|e] eqn:HN; [|reflexivity].
  simpl. unfold log_vm_state_transition.
  destruct (negb (String.eqb (vms_status OLD) (vms_status NEW))); [|reflexivity].
  unfold insert_vm_state_transitions.
  destruct (Hvm id OLD HO) as [HOs _].
  apply vms_updated_row_Ok in HN as (_ & HNs & _).
  rewrite (statuses_fit _ HOs), (statuses_fit _ HNs). simpl.
  rewrite lookup_insert_eq. rewrite bool_decide_eq_true_2 by eauto. reflexivity.
Qed.

Lemma run_commands_SQL_core now body st :
  log_consistent st ->
  core <$> run_commands now (SQL <$> body) st = transaction now body (core st).
Proof.
  revert st. induction body as [|s rest IH]; intros st Hl; [reflexivity|].
  cbn [fmap list_fmap run_commands transaction].
  rewrite <- (run_command_SQL_core now s st Hl).
  destruct (run_command now (SQL s) st) as [st'|e] eqn:E; [|reflexivity].
  simpl. apply IH. by eapply run_command_log.
Qed.

Lemma replay_without_deletes history st :
  log_consistent st ->
  core (replay (without_deletes history) st) = run history (core st).
Proof.
  revert st. induction history as [|[now body] rest IH]; intros st Hl; [reflexivity|].
  cbn [without_deletes fmap list_fmap replay run fst snd].
  pose proof (run_commands_SQL_core now body st Hl) as Hc.
  destruct (run_commands now (SQL <$> body) st) as [st'|e] eqn:E.
  - rewrite <- Hc. simpl. apply IH.
    eapply run_commands_invariant; [|exact E|exact Hl].
    intros ? ? ? ?. apply run_command_log.
  - rewrite <- Hc. simpl. by apply IH.
Qed.

(** ** Unique keys *)


Lemma email_taken_false email except m :
  email_taken email except m = false <->
  forall k r, m !! k = Some r -> Some k <> except -> users_email r <> email.
Proof.
  unfold email_taken. split.
  - intros H k r Hk Hne Heq.
    assert (existsb (fun kr : uuid * users_row =>
              negb (bool_decide (Some kr.1 = except))
              && String.eqb (users_email kr.2) email) (map_to_list m) = true) as Ht.
    { apply existsb_exists. exists (k, r). split.
      - apply list_elem_of_In, elem_of_map_to_list, Hk.
      - simpl. rewrite bool_decide_eq_false_2 by exact Hne. simpl.
        by apply String.eqb_eq. }
    congruence.
  - intros H. destruct (existsb _ _) eqn:E; [|reflexivity]. exfalso.
    apply existsb_exists in E as ([k r] & Hin & Hc).
    apply list_elem_of_In, elem_of_map_to_list in Hin.
    apply andb_prop in Hc as [Hk He]. simpl in *.
    apply negb_true_iff, bool_decide_eq_false in Hk.
    apply String.eqb_eq in He. by eapply H.
Qed.

Lemma emails_unique_insert m id row :
  emails_unique m ->
  email_taken (users_email row) (Some id) m = false ->
  emails_unique (<[id := row]> m).
Proof.
  intros Hu Ht id1 id2 r1 r2.
  pose proof (proj1 (email_taken_false _ _ _) Ht) as Ht'. clear Ht. rename Ht' into Ht.
  rewrite !lookup_insert_Some.
  intros [[<- <-]|[Hn1 H1]] [[<- <-]|[Hn2 H2]] He; try reflexivity.
  - exfalso. eapply (Ht id2 r2 H2); congruence.
  - exfalso. eapply (Ht id1 r1 H1); congruence.
  - by eapply Hu.
Qed.

Lemma emails_unique_same_email m id old new :
  emails_unique m -> m !! id = Some old -> users_email new = users_email old ->
  emails_unique (<[id := new]> m).
Proof.
  intros Hu Hold He. apply emails_unique_insert; [exact Hu|].
  apply email_taken_false. intros k r Hk Hne Heq.
  apply Hne. f_equal. eapply Hu; [exact Hk|exact Hold|congruence].
Qed.

Lemma insert_users_fresh_email now ins db db' :
  insert_users now ins db = Ok db' ->
  exists row, email_taken (users_email row) None (users db) = false /\
    users db' = <[insert_users_id ins := row]> (users db).
Proof.
  unfold insert_users. intros H. inv_bind H.
  case_bool_decide; [discriminate|].
  destruct (email_taken _ _ _) eqn:E'; [discriminate|]. injection H as <-. eauto.
Qed.

Lemma update_users_fresh_email now id set db db' old :
  update_users now id set db = Ok db' ->
  users db !! id = Some old ->
  exists row, email_taken (users_email row) (Some id) (users db) = false /\
    users db' = <[id := row]> (users db).
Proof.
  unfold update_users. intros H Hold. rewrite Hold in H. inv_bind H.
  destruct (email_taken _ _ _) eqn:E'; [discriminate|]. injection H as <-. eauto.
Qed.

Lemma execute_emails now s db db' :
  execute now s db = Ok db' -> emails_unique (users db) -> emails_unique (users db').
Proof.
  intros H Hu. destruct s as [ins|id set|ins|ins|id set|ins]; simpl in H.
  - apply insert_users_fresh_email in H as (row & Ht & ->).
    apply emails_unique_insert; [exact Hu|].
    pose proof (proj1 (email_taken_false _ _ _) Ht) as Ht'.
    apply email_taken_false. intros k r Hk _. by apply (Ht' k r Hk).
  - destruct (users db !! id) as [old|] eqn:Hold.
    + apply (update_users_fresh_email _ _ _ _ _ old) in H as (row & Ht & ->);
        [|exact Hold].
      by apply emails_unique_insert.
    + apply update_users_Ok in H. rewrite Hold in H. by subst.
  - apply insert_projects_Ok in H as (-> & _). exact Hu.
  - apply insert_vms_Ok in H as (row & _ & _ & ->). exact Hu.
  - apply update_vms_Ok in H. destruct (vms db !! id); [|by subst].
    destruct H as (new & _ & ->). exact Hu.
  - apply insert_billing_records_Ok in H as (row & old & _ & Hold & _ & _ & _ & Hx).
    destruct (0 <? billing_amount row); [|by rewrite Hx].
    destruct Hx as (new & Hnew & ->).
    apply users_updated_row_spending in Hnew as ->.
    by eapply emails_unique_same_email.
Qed.

Lemma emails_unique_delete m id : emails_unique m -> emails_unique (base.delete id m).
Proof.
  intros Hu id1 id2 r1 r2. rewrite !lookup_delete_Some.
  intros [_ H1] [_ H2]. by eapply Hu.
Qed.

Lemma delete_vms_where_users cond st :
  users (core (delete_vms_where cond st)) = users (core st).
Proof. reflexivity. Qed.

Lemma delete_projects_where_users cond st :
  users (core (delete_projects_where cond st)) = users (core st).
Proof. reflexivity. Qed.

Lemma delete_from_users_users id st :
  users (core (delete_from_users id st)) = base.delete id (users (core st)).
Proof.
  unfold delete_from_users. destruct (users (core st) !! id) eqn:E; [reflexivity|].
  by rewrite delete_id.
Qed.

(** The accounts after a command: the statement's, less a deleted one. *)
Lemma run_command_emails now c st st' :
  run_command now c st = Ok st' ->
  emails_unique (users (core st)) -> emails_unique (users (core st')).
Proof.
  intros H Hu. destruct c as [s|id|id|id|ins|ins|retention|].
  - apply run_command_SQL in H as (He & _). by eapply execute_emails.
  - injection H as <-. rewrite delete_from_users_users. by apply emails_unique_delete.
  - injection H as <-. exact Hu.
  - injection H as <-. exact Hu.
  - apply insert_vm_metrics_Ok in H as (row & _ & _ & ->). exact Hu.
  - apply insert_audit_logs_Ok in H as (row & _ & _ & ->). exact Hu.
  - apply run_command_cleanup in H as (c1 & c2 & c3 & c4 & ->). exact Hu.
  - injection H as <-. exact Hu.
Qed.

(** ** CHECK constraints *)


Lemma result_unit (m : result unit) u : m = Ok u -> m = Ok tt.
Proof. by destruct u. Qed.

Lemma vms_inserted_row_constraints now ins row :
  vms_inserted_row now ins = Ok row -> vms_constraints row = Ok tt.
Proof.
  unfold vms_inserted_row. intros H. inv_bind H. injection H as <-.
  by eapply result_unit.
Qed.

Lemma vms_updated_row_constraints now set old new :
  vms_updated_row now set old = Ok new -> vms_constraints new = Ok tt.
Proof.
  unfold vms_updated_row. intros H. inv_bind H. injection H as <-.
  by eapply result_unit.
Qed.

Lemma vm_metrics_inserted_row_constraints now ins row :
  vm_metrics_inserted_row now ins = Ok row -> vm_metrics_constraints row = Ok tt.
Proof.
  unfold vm_metrics_inserted_row. intros H. inv_bind H. injection H as <-.
  by eapply result_unit.
Qed.

Lemma execute_constraints now s db db' :
  execute now s db = Ok db' ->
  map_Forall (fun _ r => users_constraints r = Ok tt) (users db) ->
  map_Forall (fun _ r => vms_constraints r = Ok tt) (vms db) ->
  Forall (fun r => billing_amount r <> 0) (billing_records db) ->
  map_Forall (fun _ r => users_constraints r = Ok tt) (users db') /\
  map_Forall (fun _ r => vms_constraints r = Ok tt) (vms db') /\
  Forall (fun r => billing_amount r <> 0) (billing_records db').
Proof.
  intros H Hu Hv Hb. split; [|split].
  - intros id r Hr. destruct (execute_users _ _ _ _ _ _ H Hr) as [Hold|Hnew];
      [by eapply Hu|exact Hnew].
  - intros id r Hr.
    destruct (execute_vms _ _ _ _ _ _ H Hr)
      as [Hsame|[(ins & _ & _ & _ & Hrow)|(set & old & _ & _ & Hrow)]].
    + by eapply Hv.
    + by eapply vms_inserted_row_constraints.
    + by eapply vms_updated_row_constraints.
  - destruct (execute_billing_records _ _ _ _ H) as [->|(ins & row & _ & Hrow & ->)];
      [exact Hb|].
    apply Forall_app. split; [exact Hb|]. constructor; [|constructor].
    by apply billing_inserted_row_Ok in Hrow as (_ & _ & ? & _).
Qed.

Lemma delete_vms_where_constraints cond st :
  constraints_hold st -> constraints_hold (delete_vms_where cond st).
Proof.
  intros (Hu & Hv & Hb & Hm). split; [exact Hu|split; [|split]].
  - intros id r Hr. apply delete_vms_where_lookup in Hr as [Hr _]. by eapply Hv.
  - cbn [core billing_records delete_vms_where]. apply Forall_fmap.
    eapply Forall_impl; [exact Hb|]. auto.
  - cbn [vm_metrics delete_vms_where]. apply Forall_forall. intros m Hin.
    apply list_elem_of_filter in Hin as [_ Hin]. rewrite Forall_forall in Hm. auto.
Qed.

Lemma delete_projects_where_constraints cond st :
  constraints_hold st -> constraints_hold (delete_projects_where cond st).
Proof.
  intros H. unfold delete_projects_where.
  match goal with |- context [delete_vms_where ?c st] =>
    pose proof (delete_vms_where_constraints c st H) as H';
    set (st' := delete_vms_where c st) in *
  end.
  exact H'.
Qed.

Lemma delete_from_users_constraints id st :
  constraints_hold st -> constraints_hold (delete_from_users id st).
Proof.
  intros H. unfold delete_from_users.
  destruct (users (core st) !! id); [|exact H].
  match goal with |- context [delete_vms_where ?c ?s] =>
    assert (H2 : constraints_hold (delete_vms_where c s))
      by (apply delete_vms_where_constraints, delete_projects_where_constraints, H);
    set (st2 := delete_vms_where c s) in *
  end.
  clearbody st2. destruct H2 as (Hu & Hv & Hb & Hm).
  split; [|split; [exact Hv|split; [|exact Hm]]].
  - intros k r. cbn [core users]. rewrite lookup_delete_Some. intros [_ Hr].
    by eapply Hu.
  - cbn [core billing_records]. apply Forall_forall. intros r Hin.
    apply list_elem_of_filter in Hin as [_ Hin]. rewrite Forall_forall in Hb. auto.
Qed.

(** Every command keeps the constraints. *)
Lemma run_command_constraints now c st st' :
  run_command now c st = Ok st' -> constraints_hold st -> constraints_hold st'.
Proof.
  intros H Hc. destruct c as [s|id|id|id|ins|ins|retention|].
  - destruct Hc as (Hu & Hv & Hb & Hm).
    apply run_command_SQL in H as (He & Em & _).
    destruct (execute_constraints _ _ _ _ He Hu Hv Hb) as (Hu' & Hv' & Hb').
    split; [exact Hu'|split; [exact Hv'|split; [exact Hb'|]]]. by rewrite Em.
  - injection H as <-. by apply delete_from_users_constraints.
  - injection H as <-. by apply delete_projects_where_constraints.
  - injection H as <-. by apply delete_vms_where_constraints.
  - apply insert_vm_metrics_Ok in H as (row & Hrow & _ & ->).
    destruct Hc as (Hu & Hv & Hb & Hm). split; [exact Hu|split; [exact Hv|split; [exact Hb|]]].
    apply Forall_app. split; [exact Hm|]. constructor; [|constructor].
    by eapply vm_metrics_inserted_row_constraints.
  - apply insert_audit_logs_Ok in H as (row & _ & _ & ->). exact Hc.
  - apply run_command_cleanup in H as (c1 & c2 & c3 & c4 & ->).
    destruct Hc as (Hu & Hv & Hb & Hm).
    split; [exact Hu|split; [exact Hv|split; [exact Hb|]]]. cbn.
    apply Forall_forall. intros m Hin.
    apply list_elem_of_filter in Hin as [_ Hin]. rewrite Forall_forall in Hm. auto.
  - injection H as <-. exact Hc.
Qed.

Lemma constraints_hold_empty : constraints_hold empty_store.
Proof.
  split; [apply map_Forall_empty|split; [apply map_Forall_empty|split; constructor]].
Qed.

(** ** The view [user_stats] *)




Lemma outer_length {A} (l : list A) :
  Z.of_nat (length (outer l)) = Z.max 1 (Z.of_nat (length l)).
Proof. destruct l; simpl; [reflexivity|]. rewrite length_fmap. lia. Qed.

Lemma outer_elem {A} (l : list A) x : Some x ∈ outer l <-> x ∈ l.
Proof.
  destruct l as [|a l]; unfold outer.
  - rewrite list_elem_of_singleton. split; [discriminate|]. by rewrite elem_of_nil.
  - rewrite list_elem_of_fmap. split.
    + by intros (y & [= ->] & Hy).
    + eauto.
Qed.

Lemma outer_nonempty {A} (l : list A) : exists x, x ∈ outer l.
Proof. destruct l; simpl; eexists; apply list_elem_of_here. Qed.

Lemma omap_Some_bind {A B} (f : A -> option B) (l : list A) :
  omap (fun v : option A => v ≫= f) (Some <$> l) = omap f l.
Proof.
  induction l as [|b k IH]; [reflexivity|].
  rewrite fmap_cons. cbn [omap list_omap]. rewrite IH. reflexivity.
Qed.

Lemma omap_outer {A B} (f : A -> option B) (l : list A) :
  omap (fun v : option A => v ≫= f) (outer l) = omap f l.
Proof.
  destruct l as [|a l]; [reflexivity|]. unfold outer. apply omap_Some_bind.
Qed.

Lemma user_stats_join_elem id db p v :
  (p, v) ∈ user_stats_join id db <->
  p ∈ outer (projects_of id db) /\ v ∈ outer (vms_of id db).
Proof.
  unfold user_stats_join. fold (projects_of id db) (vms_of id db).
  rewrite list_elem_of_bind. split.
  - intros (p' & Hin & Hp). apply list_elem_of_bind in Hin as (v' & Hin & Hv).
    apply list_elem_of_singleton in Hin as [= -> ->]. auto.
  - intros [Hp Hv]. exists p. split; [|exact Hp].
    apply list_elem_of_bind. exists v. split; [|exact Hv]. apply list_elem_of_here.
Qed.

Lemma NoDup_fst_filter {A} (P : uuid * A -> Prop) `{!forall x, Decision (P x)}
    (l : list (uuid * A)) :
  NoDup (l.*1) -> NoDup ((filter P l).*1).
Proof.
  induction l as [|x l IH]; [intros; constructor|].
  rewrite fmap_cons, NoDup_cons. intros [Hx Hl]. rewrite filter_cons.
  destruct (decide (P x)); [|by apply IH].
  rewrite fmap_cons, NoDup_cons. split; [|by apply IH].
  intros Hin. apply Hx. apply list_elem_of_fmap in Hin as (y & Hy & Hin).
  apply list_elem_of_filter in Hin as [_ Hin].
  apply list_elem_of_fmap. eauto.
Qed.

Lemma count_distinct_keys (values : list (option uuid)) (keys : list uuid) :
  NoDup keys ->
  (forall x, Some x ∈ values <-> x ∈ keys) ->
  count_distinct values = Z.of_nat (length keys).
Proof.
  intros Hnd Hx. unfold count_distinct. f_equal.
  rewrite <- (size_list_to_set (C := gset uuid) keys Hnd). f_equal.
  apply set_eq. intros x. rewrite !elem_of_list_to_set, list_elem_of_omap, <- Hx.
  split; [intros (y & Hy & Hid); unfold id in Hid; by subst|eauto].
Qed.

Lemma user_stats_project_count id db :
  count_distinct ((fun r : joined_row => fst <$> r.1) <$> user_stats_join id db)
  = Z.of_nat (length (projects_of id db)).
Proof.
  rewrite <- (length_fmap fst (projects_of id db)).
  apply count_distinct_keys.
  - apply NoDup_fst_filter, NoDup_fst_map_to_list.
  - intros x. rewrite !list_elem_of_fmap. split.
    + intros ([p v] & Hx & Hin). apply user_stats_join_elem in Hin as [Hp _].
      destruct p as [kr|]; [|discriminate]. injection Hx as ->.
      exists kr. split; [reflexivity|]. by apply outer_elem.
    + intros (kr & -> & Hin). destruct (outer_nonempty (vms_of id db)) as [v Hv].
      exists (Some kr, v). split; [reflexivity|].
      apply user_stats_join_elem. split; [by apply outer_elem|exact Hv].
Qed.

Lemma user_stats_vm_count id db (select : vms_row -> bool) :
  count_distinct
    ((fun r : joined_row => v ← r.2 ; if select v.2 then Some v.1 else None)
     <$> user_stats_join id db)
  = Z.of_nat (length (filter (fun kr => select kr.2 = true) (vms_of id db))).
Proof.
  rewrite <- (length_fmap fst (filter _ (vms_of id db))).
  apply count_distinct_keys.
  - apply NoDup_fst_filter, NoDup_fst_filter, NoDup_fst_map_to_list.
  - intros x. rewrite !list_elem_of_fmap. split.
    + intros ([p v] & Hx & Hin). apply user_stats_join_elem in Hin as [_ Hv].
      destruct v as [kr|]; [|discriminate]. simpl in Hx.
      destruct (select kr.2) eqn:Hs; [|discriminate]. injection Hx as ->.
      exists kr. split; [reflexivity|].
      apply list_elem_of_filter. split; [exact Hs|by apply outer_elem].
    + intros (kr & -> & Hin). apply list_elem_of_filter in Hin as [Hs Hin].
      destruct (outer_nonempty (projects_of id db)) as [p Hp].
      exists (p, Some kr). split; [simpl; by rewrite Hs|].
      apply user_stats_join_elem. split; [exact Hp|by apply outer_elem].
Qed.

Lemma foldr_add_app (l1 l2 : list Z) :
  foldr Z.add 0 (l1 ++ l2) = foldr Z.add 0 l1 + foldr Z.add 0 l2.
Proof. induction l1 as [|x l IH]; simpl; [reflexivity|]. rewrite IH. lia. Qed.

Lemma user_stats_join_column u db (column : vms_row -> option Z) :
  let values := omap (fun kr : uuid * vms_row => column kr.2) (vms_of u db) in
  exists copies : list (list Z),
    omap id ((fun r : joined_row => v ← r.2 ; column v.2) <$> user_stats_join u db)
    = concat copies /\
    length copies = length (outer (projects_of u db)) /\
    Forall (fun c => c = values) copies.
Proof.
  intros values. unfold user_stats_join. fold (projects_of u db) (vms_of u db).
  induction (outer (projects_of u db)) as [|p ps (copies & Hc & Hl & Hall)].
  - exists []. by repeat split.
  - exists (values :: copies). split; [|split; [simpl; by rewrite Hl|by constructor]].
    rewrite bind_cons, fmap_app, omap_app, Hc. simpl. f_equal.
    unfold values. rewrite <- (omap_outer (fun kr : uuid * vms_row => column kr.2)).
    generalize (outer (vms_of u db)). intros l.
    induction l as [|v l IH]; [reflexivity|].
    rewrite bind_cons. cbn [app]. rewrite fmap_cons. cbn [omap list_omap snd].
    rewrite IH. unfold id at 1. by destruct (v ≫= _).
Qed.

Lemma foldr_add_copies (copies : list (list Z)) values :
  Forall (fun c => c = values) copies ->
  foldr Z.add 0 (concat copies) = Z.of_nat (length copies) * foldr Z.add 0 values.
Proof.
  induction 1 as [|c copies -> _ IH]; [reflexivity|].
  cbn [concat length]. rewrite foldr_add_app, IH. lia.
Qed.

Lemma user_stats_sum u db (column : vms_row -> option Z) :
  rescale 2 (default {| unscaled := 0; scale := 0 |}
               (sum ((fun r : joined_row => v ← r.2 ; column v.2)
                     <$> user_stats_join u db)))
  = Z.max 1 (Z.of_nat (length (projects_of u db))) * total column (vms_of u db).
Proof.
  destruct (user_stats_join_column u db column) as (copies & Hc & Hl & Hall).
  rewrite <- outer_length, <- Hl. unfold total.
  rewrite <- (foldr_add_copies copies _ Hall). unfold sum. rewrite Hc.
  destruct (concat copies) as [|z l]; [reflexivity|].
  cbn [default from_option]. apply rescale_column.
Qed.

Lemma filter_all {A} (P : A -> Prop) `{!forall x, Decision (P x)} (l : list A) :
  (forall x, P x) -> filter P l = l.
Proof.
  intros HP. induction l as [|x l IH]; [reflexivity|].
  rewrite filter_cons_True by apply HP. by rewrite IH.
Qed.

(** The counts of the view are the numbers of the user's projects, VMs
    and running VMs. *)
Lemma user_stats_query_counts db u row :
  user_stats_query db !! u = Some row ->
  stats_project_count row = Z.of_nat (length (projects_of u db)) /\
  stats_vm_count row = Z.of_nat (length (vms_of u db)) /\
  stats_running_vm_count row
  = Z.of_nat (length (filter (fun kr => vms_status kr.2 = "running") (vms_of u db))).
Proof.
  unfold user_stats_query. rewrite map_lookup_imap.
  destruct (users db !! u) as [r|]; [|discriminate]. intros [= <-].
  cbn [stats_project_count stats_vm_count stats_running_vm_count]. split; [|split].
  - apply user_stats_project_count.
  - transitivity (Z.of_nat (length (filter (fun kr : uuid * vms_row => true = true)
                                     (vms_of u db))));
      [|by rewrite filter_all].
    rewrite <- (user_stats_vm_count u db (fun _ => true)). reflexivity.
  - rewrite (user_stats_vm_count u db (fun v => String.eqb (vms_status v) "running")).
    do 2 f_equal. apply list_filter_iff. intros kr. simpl. apply String.eqb_eq.
Qed.

(** ** Deleting a user *)

Lemma delete_from_users_erases id st :
  is_Some (users (core st) !! id) ->
  users (core (delete_from_users id st)) !! id = None /\
  map_Forall (fun _ p => projects_user_id p <> id)
             (projects (core (delete_from_users id st))) /\
  map_Forall (fun _ v => vms_user_id v <> id) (vms (core (delete_from_users id st))) /\
  Forall (fun r => billing_user_id r <> id)
         (billing_records (core (delete_from_users id st))) /\
  Forall (fun a => audit_user_id a <> Some id) (audit_logs (delete_from_users id st)) /\
  Forall (fun t => transition_triggered_by t <> Some id)
         (vm_state_transitions (delete_from_users id st)).
Proof.
  intros [u Hu]. unfold delete_from_users. rewrite Hu.
  cbn [core users projects vms billing_records audit_logs vm_state_transitions].
  split; [apply lookup_delete_eq|]. split; [|split; [|split; [|split]]].
  - intros k p Hk. cbn in Hk. apply map_lookup_filter_Some in Hk as [_ Hc].
    simpl in Hc. by apply N.eqb_neq in Hc.
  - intros k v Hk. apply delete_vms_where_lookup in Hk as [_ Hc].
    by apply N.eqb_neq in Hc.
  - apply Forall_forall. intros r Hin. by apply list_elem_of_filter in Hin as [? _].
  - apply Forall_fmap, Forall_true. intros a. simpl.
    case_bool_decide as Hd; [discriminate|exact Hd].
  - apply Forall_fmap, Forall_true. intros t. simpl.
    case_bool_decide as Hd; [discriminate|exact Hd].
Qed.

Lemma delete_from_users_audit_logs id st :
  audit_without_user <$> audit_logs (delete_from_users id st)
  = audit_without_user <$> audit_logs st.
Proof.
  unfold delete_from_users. destruct (users (core st) !! id); [|reflexivity].
  cbn [audit_logs]. rewrite <- list_fmap_compose.
  unfold delete_vms_where, delete_projects_where, with_core. cbn [audit_logs].
  by apply list_fmap_ext.
Qed.

(** ** The ledger under deletions *)




Section ReplayWhen.

Variable P : store -> Prop.
Variable Q : command -> bool.
Hypothesis run_command_preserves :
  forall now c st st', Q c = true -> run_command now c st = Ok st' -> P st -> P st'.

Lemma run_commands_invariant_when now body st st' :
  forallb Q body = true -> run_commands now body st = Ok st' -> P st -> P st'.
Proof.
  revert st. induction body as [|c rest IH]; simpl; intros st HQ H HP.
  - by injection H as <-.
  - apply andb_prop in HQ as [Hc Hrest]. inv_bind H. eauto.
Qed.

Lemma replay_invariant_when history st :
  every_command Q history = true -> P st -> P (replay history st).
Proof.
  revert st. induction history as [|[now body] rest IH]; simpl; intros st HQ HP;
    [assumption|].
  apply andb_prop in HQ as [Hb Hrest]. apply IH; [exact Hrest|].
  destruct (run_commands now body st) eqn:E; [|assumption].
  by eapply run_commands_invariant_when.
Qed.

End ReplayWhen.

Lemma entry_without_vm_set_null gone (l : list billing_records_row) :
  entry_without_vm <$> (billing_set_null_vm gone <$> l) = entry_without_vm <$> l.
Proof. rewrite <- list_fmap_compose. by apply list_fmap_ext. Qed.

Lemma run_command_ledger now c st st' :
  keeps_users c = true ->
  run_command now c st = Ok st' ->
  exists appended,
    entry_without_vm <$> billing_records (core st')
    = ((entry_without_vm <$> billing_records (core st)) ++ appended)%list.
Proof.
  intros Hk H. destruct c as [s|id|id|id|ins|ins|retention|]; try discriminate.
  - apply run_command_SQL in H as (He & _).
    destruct (execute_billing_records _ _ _ _ He) as [->|(ins & row & _ & _ & ->)].
    + exists []. by rewrite app_nil_r.
    + eexists. by rewrite fmap_app.
  - injection H as <-. exists []. rewrite app_nil_r. apply entry_without_vm_set_null.
  - injection H as <-. exists []. rewrite app_nil_r. apply entry_without_vm_set_null.
  - apply insert_vm_metrics_Ok in H as (row & _ & _ & ->). exists [].
    by rewrite app_nil_r.
  - apply insert_audit_logs_Ok in H as (row & _ & _ & ->). exists [].
    by rewrite app_nil_r.
  - apply run_command_cleanup in H as (c1 & c2 & c3 & c4 & ->). exists [].
    by rewrite app_nil_r.
  - injection H as <-. exists []. by rewrite app_nil_r.
Qed.

Lemma replay_ledger history st :
  every_command keeps_users history = true ->
  exists appended,
    entry_without_vm <$> billing_records (core (replay history st))
    = ((entry_without_vm <$> billing_records (core st)) ++ appended)%list.
Proof.
  intros HQ.
  apply (replay_invariant_when
           (fun st' => exists appended,
              entry_without_vm <$> billing_records (core st')
              = ((entry_without_vm <$> billing_records (core st)) ++ appended)%list)
           keeps_users); [|exact HQ|].
  - intros now c st1 st2 Hc H (a1 & E1).
    destruct (run_command_ledger _ _ _ _ Hc H) as (a2 & E2).
    exists (a1 ++ a2)%list. by rewrite E2, E1, app_assoc.
  - exists []. by rewrite app_nil_r.
Qed.

(** ** [cleanup_old_audit_logs] run twice *)

Lemma filter_filter_implied {A} (P1 P2 : A -> Prop)
    `{!forall x, Decision (P1 x)} `{!forall x, Decision (P2 x)} (l : list A) :
  (forall x, P2 x -> P1 x) -> filter P2 (filter P1 l) = filter P2 l.
Proof.
  intros Himp. induction l as [|x l IH]; [reflexivity|].
  rewrite !filter_cons. destruct (decide (P1 x)) as [H1|H1].
  - rewrite filter_cons. by rewrite IH.
  - rewrite IH. destruct (decide (P2 x)) as [H2|]; [|reflexivity].
    exfalso. auto.
Qed.

Lemma before_later (shift : Z -> Z) (r : option Z) n1 n2 t :
  n1 <= n2 ->
  before ((fun n => n2 - shift n) <$> r) t = false ->
  before ((fun n => n1 - shift n) <$> r) t = false.
Proof.
  unfold before. destruct t as [t|], r as [n|]; simpl; try done.
  rewrite !Z.ltb_ge. lia.
Qed.

Lemma before_later_fixed d n1 n2 t :
  n1 <= n2 ->
  before (Some (n2 - d)) t = false -> before (Some (n1 - d)) t = false.
Proof. intros Hn. exact (before_later (fun _ => d) (Some 0) n1 n2 t Hn). Qed.

Lemma delete_before_twice now1 now2 (retention : option Z) st :
  now1 <= now2 ->
  delete_before ((fun n => now2 - day * n) <$> retention)
    ((fun n => now2 - day * (n ÷ 2)) <$> retention)
    (Some (now2 - day * 30)) (Some (now2 - day * 60))
    (delete_before ((fun n => now1 - day * n) <$> retention)
       ((fun n => now1 - day * (n ÷ 2)) <$> retention)
       (Some (now1 - day * 30)) (Some (now1 - day * 60)) st)
  = delete_before ((fun n => now2 - day * n) <$> retention)
      ((fun n => now2 - day * (n ÷ 2)) <$> retention)
      (Some (now2 - day * 30)) (Some (now2 - day * 60)) st.
Proof.
  intros Hle. unfold delete_before.
  cbn [core vm_metrics vm_state_transitions audit_logs system_health
       connection_metrics user_stats].
  f_equal.
  - apply filter_filter_implied. intros x. by apply before_later_fixed.
  - apply filter_filter_implied. intros x.
    exact (before_later (fun n => day * n) retention now1 now2 _ Hle).
  - apply filter_filter_implied. intros x.
    exact (before_later (fun n => day * (n ÷ 2)) retention now1 now2 _ Hle).
  - apply filter_filter_implied. intros x. by apply before_later_fixed.
Qed.

Lemma cleanup_old_audit_logs_twice now1 now2 retention_days st n1 st1 n2 st2 :
  now1 <= now2 ->
  cleanup_old_audit_logs now1 retention_days st = Ok (n1, st1) ->
  cleanup_old_audit_logs now2 retention_days st1 = Ok (n2, st2) ->
  cleanup_old_audit_logs now2 retention_days st
  = if n1 + n2 <? 2 ^ 31 then Ok (n1 + n2, st2) else Err numeric_value_out_of_range.
Proof.
  intros Hle H1 H2.
  apply cleanup_old_audit_logs_Ok in H1
    as (r1 & a1 & h1 & Hr1 & -> & -> & Hn1 & _ & ->).
  pose proof H2 as H. apply cleanup_old_audit_logs_Ok in H
    as (r2 & a2 & h2 & Hr2 & -> & -> & Hn2 & _ & Hst2).
  rewrite Hr1 in Hr2. injection Hr2 as <-.
  rewrite delete_before_twice in Hst2 by exact Hle.
  cbn [delete_before audit_logs] in Hn2.
  rewrite (filter_filter_implied _ _ (audit_logs st)) in Hn2
    by (intros x; exact (before_later (fun n => day * n) r1 now1 now2 _ Hle)).
  revert H2. unfold cleanup_old_audit_logs. rewrite Hr1.
  cbn [mbind result_bind]. intros H2.
  destruct (timestamptz_mi_days now2 r1) as [a|] eqn:Ea; [|discriminate].
  pose proof (timestamptz_mi_days_Ok _ _ _ Ea) as ->.
  cbn [mbind result_bind] in *.
  destruct (integer _) as [m|] eqn:Em in H2; [|discriminate].
  cbn [mbind result_bind] in H2.
  destruct (timestamptz_mi_days now2 ((fun n => n ÷ 2) <$> r1)) as [h|] eqn:Eh;
    [|discriminate].
  destruct (timestamptz_mi_days now2 (Some 30)) as [c|] eqn:Ec; [|discriminate].
  destruct (timestamptz_mi_days now2 (Some 60)) as [v|] eqn:Ev; [|discriminate].
  cbn [mbind result_bind] in *. clear H2 Em.
  apply timestamptz_mi_days_Ok in Eh, Ec, Ev. subst h c v.
  match goal with
  | |- integer ?d ≫= _ = _ => assert (d = n1 + n2) as -> by lia
  end.
  assert (0 <= n1 + n2) as Hpos.
  { pose proof (length_filter
                  (fun r => before ((fun n => now2 - day * n) <$> r1)
                              (audit_created_at r) = false) (audit_logs st)).
    lia. }
  unfold integer. destruct (Z.ltb_spec (n1 + n2) (2 ^ 31)).
  - rewrite (proj2 (Z.leb_le _ _)) by lia. simpl. rewrite Hst2.
    destruct r1; reflexivity.
  - by rewrite andb_false_r.
Qed.

(** ** The API client *)

Lemma stored_Some s :
  stored (Some s) = negb (bool_decide (s ∈ [""; "undefined"; "null"])).
Proof.
  unfold stored, truthy.
  destruct (String.eqb_spec s "") as [->|H1]; [reflexivity|].
  destruct (decide (s = "undefined")) as [->|H2]; [reflexivity|].
  destruct (decide (s = "null")) as [->|H3]; [reflexivity|].
  rewrite !bool_decide_eq_false_2; [reflexivity| | |]; try congruence.
  rewrite !elem_of_cons, elem_of_nil. intuition congruence.
Qed.

Lemma token_after_reload b t p items :
  localStorage p = Some items ->
  token (new_ZentryAPI b (localStorage (setToken t p)))
  = if bool_decide (t ∈ [""; "undefined"; "null"]) then None else Some t.
Proof.
  intros Hls. unfold setToken, new_ZentryAPI. rewrite Hls. cbn.
  rewrite lookup_insert_eq, stored_Some. by destruct (bool_decide _).
Qed.

Lemma logout_storage p key items :
  localStorage p = Some items ->
  localStorage (logout p) ≫= (fun items' => items' !! key)
  = if bool_decide (key ∈ ["zentry_token"; "zentry_user"]) then None else items !! key.
Proof.
  intros Hls. unfold logout, clearToken. rewrite Hls. cbn.
  case_bool_decide as Hk.
  - rewrite !elem_of_cons, elem_of_nil in Hk. destruct Hk as [->|[->|[]]].
    + rewrite lookup_delete_ne by discriminate. apply lookup_delete_eq.
    + apply lookup_delete_eq.
  - rewrite !elem_of_cons, elem_of_nil in Hk.
    rewrite !lookup_delete_ne by (intros E; subst key; tauto). reflexivity.
Qed.

Lemma logout_reload b p :
  token (new_ZentryAPI b (localStorage (logout p))) = None.
Proof.
  unfold logout, clearToken, new_ZentryAPI. cbn.
  destruct (localStorage p) as [items|]; [|reflexivity]. cbn.
  rewrite lookup_delete_ne by discriminate. by rewrite lookup_delete_eq.
Qed.

Lemma request_headers_lookup a options_headers key :
  request_headers a options_headers !! key
  = if String.eqb key "Authorization" && truthy (token a)
    then Some ("Bearer " ++ default "" (token a))
    else match options_headers !! key with
         | Some v => Some v
         | None => if String.eqb key "Content-Type" then Some "application/json"
                   else None
         end.
Proof.
  unfold request_headers.
  assert (Hu : (options_headers ∪ {["Content-Type" := "application/json"]}) !! key
               = match options_headers !! key with
                 | Some v => Some v
                 | None => if String.eqb key "Content-Type" then Some "application/json"
                           else None
                 end).
  { rewrite lookup_union.
    destruct (String.eqb_spec key "Content-Type") as [->|Hk].
    - rewrite lookup_singleton_eq. by destruct (options_headers !! _).
    - rewrite lookup_singleton_ne by congruence. by destruct (options_headers !! _). }
  destruct (truthy (token a)); [|by rewrite andb_false_r].
  rewrite andb_true_r. destruct (String.eqb_spec key "Authorization") as [->|Hk].
  - apply lookup_insert_eq.
  - by rewrite lookup_insert_ne.
Qed.

Section StoredUserProperties.

Variable User : Type.
Variable JSON_stringify : User -> string.
Variable JSON_parse : string -> option User.

Lemma getStoredUser_again p :
  getStoredUser User JSON_parse (getStoredUser User JSON_parse p).2
  = getStoredUser User JSON_parse p.
Proof.
  unfold getStoredUser at 2 3.
  destruct (localStorage p) as [items|] eqn:Hls.
  2:{ unfold getStoredUser. cbn [snd]. by rewrite Hls. }
  destruct (stored (items !! "zentry_user")) eqn:Hs.
  2:{ unfold getStoredUser. cbn [snd]. by rewrite Hls, Hs. }
  destruct (JSON_parse _) eqn:Hp; unfold getStoredUser; cbn [snd localStorage].
  - by rewrite Hls, Hs, Hp.
  - by rewrite lookup_delete_eq.
Qed.

End StoredUserProperties.

(** ** The dashboards *)

Lemma project_vm_count_unique vms project :
  NoDup (VM_id <$> vms) -> (project_vm_count vms project <= 1)%nat.
Proof.
  unfold project_vm_count. induction vms as [|vm vms IH]; [simpl; lia|].
  rewrite fmap_cons, NoDup_cons. intros [Hvm Hnd]. simpl.
  destruct (Z.eqb_spec (VM_id vm) (Project_id project)) as [Heq|]; [|by apply IH].
  simpl. assert (List.filter (fun vm0 => VM_id vm0 =? Project_id project) vms = [])
    as ->; [|simpl; lia].
  clear IH Hnd. induction vms as [|vm' vms IH]; [reflexivity|]. simpl.
  rewrite fmap_cons, not_elem_of_cons in Hvm. destruct Hvm as [Hne Hvm].
  destruct (Z.eqb_spec (VM_id vm') (Project_id project)); [congruence|by apply IH].
Qed.

Section MetricsProperties.

Variable Metrics : Type.

Lemma merged_lookup (fetched : list (VM * option Metrics))
    (acc : gmap Z (option Metrics)) k :
  foldl (fun acc curr => curr ∪ acc) acc
        ((fun r : VM * option Metrics => {[ VM_id r.1 := r.2 ]}) <$> fetched) !! k
  = match last (List.filter (fun r => VM_id r.1 =? k) fetched) with
    | Some r => Some r.2
    | None => acc !! k
    end.
Proof.
  revert acc. induction fetched as [|r l IH]; intros acc; [reflexivity|].
  rewrite fmap_cons. cbn [foldl List.filter]. rewrite IH.
  destruct (Z.eqb_spec (VM_id r.1) k) as [Hk|Hk].
  - destruct (List.filter _ l) as [|r' l'] eqn:E.
    + simpl. rewrite lookup_union, Hk, lookup_singleton_eq. by destruct (acc !! k).
    + rewrite (last_cons r (r' :: l')). destruct (last (r' :: l')); [reflexivity|].
      rewrite lookup_union, Hk, lookup_singleton_eq. by destruct (acc !! k).
  - destruct (last _); [reflexivity|].
    rewrite lookup_union, lookup_singleton_ne by exact Hk. by destruct (acc !! k).
Qed.

Lemma last_filter_unique (fetched : list (VM * option Metrics)) r :
  NoDup ((fun r : VM * option Metrics => VM_id r.1) <$> fetched) ->
  r ∈ fetched ->
  last (List.filter (fun r' => VM_id r'.1 =? VM_id r.1) fetched) = Some r.
Proof.
  induction fetched as [|r' l IH]; [by rewrite elem_of_nil|].
  rewrite fmap_cons, NoDup_cons, elem_of_cons. intros [Hr' Hnd] [->|Hin];
    cbn [List.filter].
  - rewrite Z.eqb_refl.
    assert (List.filter (fun r'0 : VM * option Metrics => VM_id r'0.1 =? VM_id r'.1) l
            = []) as ->; [|reflexivity].
    clear IH Hnd. induction l as [|x l IH]; [reflexivity|]. simpl.
    rewrite fmap_cons, not_elem_of_cons in Hr'. destruct Hr' as [Hne Hr'].
    destruct (Z.eqb_spec (VM_id x.1) (VM_id r'.1)); [congruence|by apply IH].
  - destruct (Z.eqb_spec (VM_id r'.1) (VM_id r.1)) as [Heq|Hne]; [|by apply IH].
    exfalso. apply Hr'. rewrite Heq. apply list_elem_of_fmap. eauto.
Qed.

End MetricsProperties.

Lemma after_clicks_positive clicks historyPage :
  1 <= historyPage -> 1 <= after_clicks clicks historyPage.
Proof.
  unfold after_clicks. revert historyPage.
  induction clicks as [|b rest IH]; intros p Hp; [exact Hp|].
  simpl. apply IH. destruct b; simpl; lia.
Qed.

Lemma after_clicks_next clicks n historyPage :
  after_clicks (clicks ++ repeat Next n) historyPage
  = after_clicks clicks historyPage + Z.of_nat n.
Proof.
  unfold after_clicks. rewrite foldl_app.
  generalize (foldl (fun p b => on_click b p) historyPage clicks). clear.
  induction n as [|n IH]; intros p; simpl; [lia|]. rewrite IH. lia.
Qed.

Lemma enabled_clicks_in_range total clicks historyPage :
  enabled_clicks total clicks historyPage = true ->
  1 <= historyPage /\ (historyPage - 1) * 10 < total ->
  1 <= after_clicks clicks historyPage /\
  (after_clicks clicks historyPage - 1) * 10 < total.
Proof.
  unfold after_clicks. revert historyPage.
  induction clicks as [|b rest IH]; intros p He Hp; [exact Hp|].
  simpl in He. apply andb_prop in He as [Hb He]. simpl. apply IH; [exact He|].
  apply negb_true_iff in Hb. destruct b; simpl.
  - lia.
  - unfold next_disabled in Hb. apply Z.leb_gt in Hb. lia.
Qed.

Lemma vms_constraints_checks r :
  vms_constraints r = Ok tt ->
  (exists c, vms_cost_per_hour r = Some c /\ 0 < c) /\
  nonneg_or_null (vms_uptime_hours r) /\ nonneg_or_null (vms_total_cost r).
Proof.
  unfold vms_constraints. intros H. inv_bind H.
  apply check_Ok in E0, E1, E2. clear E3 H.
  destruct (vms_cost_per_hour r) as [c|]; [|discriminate].
  split; [exists c; split; [reflexivity|]|split].
  - simpl in E0. destruct (Z.ltb_spec 0 c); [assumption|congruence].
  - destruct (vms_uptime_hours r) as [u|]; simpl in *; [|exact I].
    destruct (Z.leb_spec 0 u); [assumption|congruence].
  - destruct (vms_total_cost r) as [u|]; simpl in *; [|exact I].
    destruct (Z.leb_spec 0 u); [assumption|congruence].
Qed.

Lemma usage_in_range_bounded constraint usage u :
  check constraint (usage_in_range usage) = Ok u -> usage_bounded usage.
Proof.
  intros H. apply check_Ok in H. destruct usage as [v|]; simpl in *; [|exact I].
  destruct (Z.leb_spec 0 v), (Z.leb_spec v 10000); simpl in H; try congruence. lia.
Qed.

Lemma vm_metrics_constraints_bounded m :
  vm_metrics_constraints m = Ok tt ->
  usage_bounded (metrics_cpu_usage m) /\ usage_bounded (metrics_memory_usage m) /\
  usage_bounded (metrics_disk_usage m).
Proof.
  unfold vm_metrics_constraints. intros H. inv_bind H.
  split; [|split]; eapply usage_in_range_bounded; eassumption.
Qed.

(** ** The view [user_stats] between refreshes *)

Lemma run_command_user_stats now c st st' :
  leaves_user_stats c = true ->
  run_command now c st = Ok st' -> user_stats st' = user_stats st.
Proof.
  intros Hc H. destruct c as [s|id|id|id|ins|ins|retention|]; try discriminate.
  - destruct s; simpl in H;
      try (apply bind_Ok in H as (db & _ & H); injection H as <-; reflexivity).
    unfold update_vms_logged in H.
    destruct (vms (core st) !! id) as [OLD|]; [|by injection H as <-].
    apply bind_Ok in H as (NEW & _ & H). unfold log_vm_state_transition in H.
    destruct (negb _); [|by injection H as <-].
    unfold insert_vm_state_transitions in H. inv_bind H.
    destruct (negb _); [discriminate|]. by injection H as <-.
  - injection H as <-. unfold delete_from_users.
    by destruct (users (core st) !! id).
  - by injection H as <-.
  - by injection H as <-.
  - apply insert_vm_metrics_Ok in H as (row & _ & _ & ->). reflexivity.
  - apply insert_audit_logs_Ok in H as (row & _ & _ & ->). reflexivity.
  - by apply run_command_cleanup in H as (c1 & c2 & c3 & c4 & ->).
Qed.

Lemma replay_user_stats history st :
  every_command leaves_user_stats history = true ->
  user_stats (replay history st) = user_stats st.
Proof.
  intros HQ.
  apply (replay_invariant_when (fun st' => user_stats st' = user_stats st)
           leaves_user_stats); [|exact HQ|reflexivity].
  intros now c st1 st2 Hc H E. rewrite <- E. by eapply run_command_user_stats.
Qed.

(** ** The pricing calculator in floating point *)

Lemma toFixed_2_shows x n :
  PricingCalculator.shows x n = true ->
  PricingCalculator.toFixed_2 x = Some (PricingCalculator.digits_2 n).
Proof.
  unfold PricingCalculator.shows, PricingCalculator.toFixed_2.
  destruct (FloatOps.Prim2SF x) as [| | |[] m e]; try discriminate.
  intros H. apply andb_prop in H as [He Hn].
  apply Z.ltb_lt in He. apply Z.eqb_eq in Hn.
  destruct (Z.leb_spec 0 e); [lia|]. cbn. by rewrite Hn.
Qed.

Lemma every_position_spec P vmCount hoursPerDay daysPerMonth :
  PricingCalculator.every_position P = true ->
  1 <= vmCount <= 10 -> 1 <= hoursPerDay <= 24 -> 1 <= daysPerMonth <= 31 ->
  P vmCount hoursPerDay daysPerMonth = true.
Proof.
  unfold PricingCalculator.every_position. intros H Hc Hh Hd.
  rewrite forallb_forall in H.
  specialize (H vmCount). rewrite <- list_elem_of_In, elem_of_seqZ in H.
  specialize (H ltac:(lia)). rewrite forallb_forall in H.
  specialize (H hoursPerDay). rewrite <- list_elem_of_In, elem_of_seqZ in H.
  specialize (H ltac:(lia)). rewrite forallb_forall in H.
  specialize (H daysPerMonth). rewrite <- list_elem_of_In, elem_of_seqZ in H.
  exact (H ltac:(lia)).
Qed.

Lemma every_price_shown_exactly :
  forallb (fun kv : string * numeric => PricingCalculator.shown_exactly kv.1 (rescale 2 kv.2))
          vmPricing = true.
Proof. vm_compute. reflexivity. Qed.

(** * Further properties of the code *)

(** ** The schema as a whole *)

(** X1: referential integrity. Whatever sequence of transactions runs on
    the empty schema (INSERTs and UPDATEs, DELETEs of users, projects and
    VMs with their cascades, the cleanup), every foreign key names an
    existing row: projects and VMs have their user and project, billing
    records their user and (unless NULL) their VM, metrics and logged
    transitions their VM, audit log entries their user unless NULL. *)
Theorem foreign_keys_always_hold history :
  references_hold (replay history empty_store).
Proof.
  apply replay_invariant; [|apply references_hold_empty].
  intros now c st st'. apply run_command_references.
Qed.

(** X2: [DELETE FROM users] leaves no foreign key that names the user.
    The row is gone, and with it the user's projects, VMs and billing
    records (ON DELETE CASCADE); [audit_logs.user_id] and
    [vm_state_transitions.triggered_by] are NULL where they named the user
    (ON DELETE SET NULL). Nothing else of the audit log changes: an entry
    keeps its [resource_id] and its JSON values, which are no foreign keys
    and may still name the user. *)
Theorem deleting_a_user_clears_its_foreign_keys id st :
  is_Some (users (core st) !! id) ->
  users (core (delete_from_users id st)) !! id = None /\
  map_Forall (fun _ p => projects_user_id p <> id)
             (projects (core (delete_from_users id st))) /\
  map_Forall (fun _ v => vms_user_id v <> id) (vms (core (delete_from_users id st))) /\
  Forall (fun r => billing_user_id r <> id)
         (billing_records (core (delete_from_users id st))) /\
  Forall (fun a => audit_user_id a <> Some id) (audit_logs (delete_from_users id st)) /\
  Forall (fun t => transition_triggered_by t <> Some id)
         (vm_state_transitions (delete_from_users id st)) /\
  audit_without_user <$> audit_logs (delete_from_users id st)
  = audit_without_user <$> audit_logs st.
Proof.
  intros Hu.
  destruct (delete_from_users_erases id st Hu) as (H1 & H2 & H3 & H4 & H5 & H6).
  repeat (split; [assumption|]). apply delete_from_users_audit_logs.
Qed.

(** Deleting account [1] sets the [user_id] of its audit log entry to
    NULL; the entry stays, and its [resource_id] still is [1]. *)
Lemma deleting_a_user_clears_its_foreign_keys_witness :
  let st := delete_from_users 1%N audited_profile in
  is_Some (users (core audited_profile) !! 1%N) /\
  users (core st) !! 1%N = None /\
  (fun a => (audit_user_id a, audit_resource_type a, audit_resource_id a))
  <$> audit_logs audited_profile = [(Some 1%N, "users", Some 1%N)] /\
  (fun a => (audit_user_id a, audit_resource_type a, audit_resource_id a))
  <$> audit_logs st = [(None, "users", Some 1%N)] /\
  Forall (fun a => audit_user_id a <> Some 1%N) (audit_logs st).
Proof.
  intros st.
  assert (is_Some (users (core audited_profile) !! 1%N)) as Hu by (vm_compute; eauto).
  destruct (deleting_a_user_clears_its_foreign_keys 1%N audited_profile Hu)
    as (Hnone & _ & _ & _ & Ha & _).
  split; [exact Hu|]. split; [exact Hnone|].
  split; [vm_compute; reflexivity|]. split; [vm_compute; reflexivity|exact Ha].
Defined.

(** X3: the log of state transitions is a path. In every history on the
    empty schema the entries that [log_vm_state_transition] wrote for a VM,
    oldest first, chain up: no entry has equal [from_status] and
    [to_status], each entry starts at the status the previous one ended at,
    and the last one ends at the VM's current status. *)
Theorem logged_transitions_form_a_path history id r :
  vms (core (replay history empty_store)) !! id = Some r ->
  path_to (vms_status r)
          (logged id (vm_state_transitions (replay history empty_store))).
Proof.
  intros Hr.
  assert (log_consistent (replay history empty_store)) as [_ Hvm].
  { apply replay_invariant; [|apply log_consistent_empty].
    intros now c st st'. apply run_command_log. }
  by destruct (Hvm id r Hr).
Qed.

(** VM [3] went from creating to running to stopped. *)
Lemma logged_transitions_form_a_path_witness :
  exists r,
    vms (core (replay lifetime_of_a_vm empty_store)) !! 3%N = Some r /\
    vms_status r = "stopped" /\
    logged 3%N (vm_state_transitions (replay lifetime_of_a_vm empty_store))
    = [(Some "creating", "running"); (Some "running", "stopped")] /\
    path_to (vms_status r)
            (logged 3%N (vm_state_transitions (replay lifetime_of_a_vm empty_store))).
Proof.
  assert (vms (core (replay lifetime_of_a_vm empty_store)) !! 3%N
          = Some (default (sample_new_row "" None)
                    (vms (core (replay lifetime_of_a_vm empty_store)) !! 3%N))) as Hr
    by (vm_compute; reflexivity).
  eexists. split; [exact Hr|]. split; [vm_compute; reflexivity|].
  split; [vm_compute; reflexivity|].
  exact (logged_transitions_form_a_path lifetime_of_a_vm 3%N _ Hr).
Defined.

(** X4: the third migration does not disturb the first two. On histories
    of INSERTs and UPDATEs the trigger [log_vm_state_transition] never makes
    a statement fail, and the tables [users], [projects], [vms] and
    [billing_records] end up exactly as without it. *)
Theorem logging_leaves_the_core_tables_alone history :
  core (replay (without_deletes history) empty_store) = run history empty_database.
Proof. apply replay_without_deletes, log_consistent_empty. Qed.

(** X5: stored rows satisfy the CHECK constraints. In every history on the
    empty schema no account has a negative balance or [total_spent]; every
    VM has one of the four classes and five statuses, a positive
    [cost_per_hour] and no negative uptime or cost; no billing record has
    amount zero; every recorded usage is NULL or within 0 and 100. *)
Theorem stored_rows_pass_their_checks history :
  let st := replay history empty_store in
  map_Forall (fun _ r => nonneg_or_null (users_credits r) /\
                         nonneg_or_null (users_total_spent r)) (users (core st)) /\
  map_Forall (fun _ r => In (vms_instance_type r) instance_types /\
                         In (vms_status r) statuses /\
                         (exists c, vms_cost_per_hour r = Some c /\ 0 < c) /\
                         nonneg_or_null (vms_uptime_hours r) /\
                         nonneg_or_null (vms_total_cost r)) (vms (core st)) /\
  Forall (fun r => billing_amount r <> 0) (billing_records (core st)) /\
  Forall (fun m => usage_bounded (metrics_cpu_usage m) /\
                   usage_bounded (metrics_memory_usage m) /\
                   usage_bounded (metrics_disk_usage m)) (vm_metrics st).
Proof.
  intros st.
  assert (constraints_hold st) as (Hu & Hv & Hb & Hm).
  { apply replay_invariant; [|apply constraints_hold_empty].
    intros now c st1 st2. apply run_command_constraints. }
  split; [|split; [|split; [exact Hb|]]].
  - intros id r Hr. by apply users_constraints_Ok, (Hu id).
  - intros id r Hr. specialize (Hv id r Hr). cbv beta in Hv.
    destruct (vms_constraints_Ok r Hv) as [Hc Hs].
    destruct (vms_constraints_checks r Hv) as (H1 & H2 & H3).
    split; [|by repeat split].
    apply existsb_exists in Hc as (s & Hin & Heq).
    apply String.eqb_eq in Heq. congruence.
  - eapply Forall_impl; [exact Hm|]. apply vm_metrics_constraints_bounded.
Qed.

(** X6: addresses are unique. In every history on the empty schema no two
    accounts have the same [email]. *)
Theorem no_two_accounts_share_an_email history id1 id2 r1 r2 :
  users (core (replay history empty_store)) !! id1 = Some r1 ->
  users (core (replay history empty_store)) !! id2 = Some r2 ->
  users_email r1 = users_email r2 ->
  id1 = id2.
Proof.
  assert (emails_unique (users (core (replay history empty_store)))) as Hu.
  { apply (replay_invariant (fun st => emails_unique (users (core st)))).
    - intros now c st st'. apply run_command_emails.
    - intros k1 k2 x1 x2 H. cbn in H. by rewrite lookup_empty in H. }
  apply Hu.
Qed.

(** A second sign-up with the address of account [1] is refused. *)
Lemma no_two_accounts_share_an_email_witness :
  exists r,
    users (core (replay same_address empty_store)) !! 1%N = Some r /\
    users (core (replay same_address empty_store)) !! 2%N = None /\
    users_email r = "demo@zentry.cloud" /\ 1%N = 1%N.
Proof.
  assert (users (core (replay same_address empty_store)) !! 1%N
          = Some (default signed_up_row
                    (users (core (replay same_address empty_store)) !! 1%N))) as Hr
    by (vm_compute; reflexivity).
  eexists. split; [exact Hr|]. split; [vm_compute; reflexivity|].
  split; [vm_compute; reflexivity|].
  exact (no_two_accounts_share_an_email same_address 1%N 1%N _ _ Hr Hr eq_refl).
Defined.

(** X7: no statement on another table rewrites the ledger. None of the
    commands - INSERTs and UPDATEs of users, projects and VMs with their
    triggers, INSERTs of billing records, metrics and audit log entries,
    DELETEs of projects and VMs with their cascades, the cleanup, the
    refresh - removes or changes a billing record, but for the [vm_id] that
    ON DELETE SET NULL clears: every record keeps its place, id, user,
    action type, amount, description and time, and new records come after
    the old ones. Only the DELETE of the user removes records. An UPDATE or
    DELETE of [billing_records] itself, which the schema does not refuse,
    is not among the commands. *)
Theorem other_tables_leave_the_ledger_alone history st :
  every_command keeps_users history = true ->
  exists appended,
    entry_without_vm <$> billing_records (core (replay history st))
    = ((entry_without_vm <$> billing_records (core st)) ++ appended)%list.
Proof. apply replay_ledger. Qed.

(** The charge of VM [3] is still in the ledger after the VM was
    deleted. *)
Lemma other_tables_leave_the_ledger_alone_witness :
  let st := replay lifetime_of_a_vm empty_store in
  let history := [(4000, [DELETE_FROM_vms 3%N])] in
  every_command keeps_users history = true /\
  vms (core (replay history st)) !! 3%N = None /\
  billing_vm_id <$> billing_records (core (replay history st)) = [None] /\
  exists appended,
    entry_without_vm <$> billing_records (core (replay history st))
    = ([(1%N, 1%N, "vm_usage", 500, Some "1 hour", Some 3700)] ++ appended)%list.
Proof.
  intros st history. split; [reflexivity|]. split; [vm_compute; reflexivity|].
  split; [vm_compute; reflexivity|].
  exact (other_tables_leave_the_ledger_alone history st eq_refl).
Defined.

(** X8: running [cleanup_old_audit_logs] more often changes nothing of
    what is kept. When a cleanup at [now1] and then one at a later [now2],
    with the same argument, both succeed, the cleanup at [now2] alone
    leaves every table as the two did and returns the sum of their
    results; it raises "integer out of range" when that sum is no
    [INTEGER]. *)
Theorem cleanup_twice_is_cleanup_once now1 now2 retention_days st n1 st1 n2 st2 :
  now1 <= now2 ->
  cleanup_old_audit_logs now1 retention_days st = Ok (n1, st1) ->
  cleanup_old_audit_logs now2 retention_days st1 = Ok (n2, st2) ->
  cleanup_old_audit_logs now2 retention_days st
  = if n1 + n2 <? 2 ^ 31 then Ok (n1 + n2, st2) else Err numeric_value_out_of_range.
Proof. apply cleanup_old_audit_logs_twice. Qed.

(** With the default of 90 days, a cleanup on day 95 deletes the entry
    of time 10 and one on day 200 the entry of day 100. A retention of
    2147483647 days reaches back beyond the first timestamp: the cleanup
    raises "timestamp out of range". *)
Lemma cleanup_twice_is_cleanup_once_witness :
  let after (r : result (Z * store)) :=
    match r with Ok (_, st) => st | Err _ => audited end in
  let st1 := after (cleanup_old_audit_logs (95 * day) DEFAULT audited) in
  let st2 := after (cleanup_old_audit_logs (200 * day) DEFAULT st1) in
  95 * day <= 200 * day /\
  cleanup_old_audit_logs (95 * day) DEFAULT audited = Ok (1, st1) /\
  cleanup_old_audit_logs (200 * day) DEFAULT st1 = Ok (1, st2) /\
  cleanup_old_audit_logs (200 * day) DEFAULT audited = Ok (2, st2) /\
  cleanup_old_audit_logs (200 * day) (VALUE (Some 2147483647)) audited
  = Err datetime_field_overflow.
Proof.
  intros after st1 st2.
  assert (95 * day <= 200 * day) as Hle by (unfold day; lia).
  assert (cleanup_old_audit_logs (95 * day) DEFAULT audited = Ok (1, st1)) as H1
    by (vm_compute; reflexivity).
  assert (cleanup_old_audit_logs (200 * day) DEFAULT st1 = Ok (1, st2)) as H2
    by (vm_compute; reflexivity).
  split; [exact Hle|]. split; [exact H1|]. split; [exact H2|].
  split; [|vm_compute; reflexivity].
  exact (cleanup_twice_is_cleanup_once (95 * day) (200 * day) DEFAULT audited
           1 st1 1 st2 Hle H1 H2).
Defined.

(** X9: the counts of [user_stats]. The view has, for a user, the number
    of the user's projects, of the user's VMs and of the user's VMs whose
    status is [running]: the joins repeat rows, COUNT(DISTINCT ...) does
    not count them twice. *)
Theorem user_stats_counts_each_row_once db id row :
  user_stats_query db !! id = Some row ->
  stats_project_count row = Z.of_nat (length (projects_of id db)) /\
  stats_vm_count row = Z.of_nat (length (vms_of id db)) /\
  stats_running_vm_count row
  = Z.of_nat (length (filter (fun kr => vms_status kr.2 = "running") (vms_of id db))).
Proof. apply user_stats_query_counts. Qed.

(** Account [1] has two projects and one VM, which is running. *)
Lemma user_stats_counts_each_row_once_witness :
  exists row,
    user_stats_query two_projects !! 1%N = Some row /\
    length (projects_of 1%N two_projects) = 2%nat /\
    length (vms_of 1%N two_projects) = 1%nat /\
    stats_project_count row = 2 /\ stats_vm_count row = 1 /\
    stats_running_vm_count row = 1.
Proof.
  assert (user_stats_query two_projects !! 1%N
          = Some (default {| stats_email := ""; stats_name := "";
                             stats_credits := None; stats_total_spent := None;
                             stats_project_count := 0; stats_vm_count := 0;
                             stats_running_vm_count := 0;
                             stats_total_uptime_hours := column 0 0;
                             stats_total_vm_costs := column 0 0 |}
                    (user_stats_query two_projects !! 1%N))) as Hr
    by (vm_compute; reflexivity).
  destruct (user_stats_counts_each_row_once two_projects 1%N _ Hr) as (Hp & Hv & Hrun).
  eexists. split; [exact Hr|]. do 2 (split; [vm_compute; reflexivity|]).
  split; [rewrite Hp; vm_compute; reflexivity|].
  split; [rewrite Hv; vm_compute; reflexivity|].
  rewrite Hrun. vm_compute. reflexivity.
Defined.

(** X10: the sums of [user_stats] are multiplied by the number of
    projects. Joining [projects] and [vms] to the user repeats every VM once
    per project, so [total_uptime_hours] and [total_vm_costs] are the sums
    over the user's VMs times the number of the user's projects (times one
    when there is none). *)
Theorem user_stats_sums_count_each_vm_once_per_project db id row :
  user_stats_query db !! id = Some row ->
  rescale 2 (stats_total_uptime_hours row)
  = Z.max 1 (stats_project_count row) * total vms_uptime_hours (vms_of id db) /\
  rescale 2 (stats_total_vm_costs row)
  = Z.max 1 (stats_project_count row) * total vms_total_cost (vms_of id db).
Proof.
  intros Hrow. destruct (user_stats_query_counts db id row Hrow) as (-> & _).
  unfold user_stats_query in Hrow. rewrite map_lookup_imap in Hrow.
  destruct (users db !! id) as [r|]; [|discriminate]. injection Hrow as <-.
  cbn [stats_total_uptime_hours stats_total_vm_costs].
  split; apply user_stats_sum.
Qed.

(** One VM with 3.00 hours of uptime and a cost of 0.15, in an account
    with two projects: the view reports 6.00 hours and 0.30. *)
Lemma user_stats_sums_count_each_vm_once_per_project_witness :
  exists row,
    user_stats_query two_projects !! 1%N = Some row /\
    total vms_uptime_hours (vms_of 1%N two_projects) = 300 /\
    total vms_total_cost (vms_of 1%N two_projects) = 15 /\
    stats_project_count row = 2 /\
    rescale 2 (stats_total_uptime_hours row) = 600 /\
    rescale 2 (stats_total_vm_costs row) = 30.
Proof.
  assert (user_stats_query two_projects !! 1%N
          = Some (default {| stats_email := ""; stats_name := "";
                             stats_credits := None; stats_total_spent := None;
                             stats_project_count := 0; stats_vm_count := 0;
                             stats_running_vm_count := 0;
                             stats_total_uptime_hours := column 0 0;
                             stats_total_vm_costs := column 0 0 |}
                    (user_stats_query two_projects !! 1%N))) as Hr
    by (vm_compute; reflexivity).
  destruct (user_stats_sums_count_each_vm_once_per_project two_projects 1%N _ Hr)
    as (Hu & Hc).
  eexists. split; [exact Hr|]. do 3 (split; [vm_compute; reflexivity|]).
  split; [rewrite Hu; vm_compute; reflexivity|].
  rewrite Hc. vm_compute. reflexivity.
Defined.

(** X11: [user_stats] is a snapshot. Nothing but [refresh_user_stats]
    writes the view: after a refresh and any further transactions without
    one, whether they commit or not, the view still holds the result of its
    query on the tables as they were at the refresh. *)
Theorem user_stats_is_a_snapshot history st :
  every_command leaves_user_stats history = true ->
  user_stats (replay history (refresh_user_stats st)) = user_stats_query (core st).
Proof. intros HQ. by rewrite replay_user_stats. Qed.

(** After the refresh account [2] signs up and account [1] is deleted;
    the view still lists account [1] and not account [2]. *)
Lemma user_stats_is_a_snapshot_witness :
  let st := replay lifetime_of_a_vm empty_store in
  let st' := replay stale_view (refresh_user_stats st) in
  every_command leaves_user_stats stale_view = true /\
  users (core st') !! 1%N = None /\ is_Some (users (core st') !! 2%N) /\
  stats_vm_count <$> user_stats st' !! 1%N = Some 1 /\
  user_stats st' !! 2%N = None /\
  user_stats st' = user_stats_query (core st).
Proof.
  intros st st'.
  split; [reflexivity|]. split; [vm_compute; reflexivity|].
  split; [apply (bool_decide_unpack _); vm_compute; exact I|].
  split; [vm_compute; reflexivity|]. split; [vm_compute; reflexivity|].
  exact (user_stats_is_a_snapshot stale_view st eq_refl).
Defined.

(** X12: a billing record that would push [total_spent] out of its column
    is refused as a whole. When the record itself is acceptable (its values
    fit, its key is new, its user and VM exist) and its amount is positive,
    but [total_spent + amount], rounded to two decimals, needs more than the
    ten digits of [DECIMAL(10,2)], the UPDATE of [update_user_spending] fails
    and so does the INSERT: nothing is recorded. *)
Theorem entry_is_refused_when_total_spent_overflows now ins db row old total_spent :
  billing_inserted_row now ins = Ok row ->
  existsb (fun r => N.eqb (billing_id r) (billing_id row)) (billing_records db) = false ->
  users db !! billing_user_id row = Some old ->
  from_option (fun v => is_Some (vms db !! v)) True (billing_vm_id row) ->
  users_total_spent old = Some total_spent ->
  0 < billing_amount row ->
  10 ^ 10 <= round_half_away (total_spent * 100 + billing_amount row) 100 ->
  insert_billing_records now ins db = Err numeric_value_out_of_range /\
  commit (insert_billing_records now ins db) db = db.
Proof.
  intros Hrow Hfresh Hold Hvm Ht Hpos Hbig.
  assert (insert_billing_records now ins db = Err numeric_value_out_of_range) as ->;
    [|by split].
  unfold insert_billing_records. rewrite Hrow. cbn [mbind result_bind].
  rewrite Hfresh, Hold. rewrite bool_decide_eq_true_2 by eauto. cbn [negb].
  assert (from_option (fun v => bool_decide (is_Some (vms db !! v))) true
            (billing_vm_id row) = true) as ->.
  { destruct (billing_vm_id row); simpl in *; [by apply bool_decide_eq_true_2|done]. }
  cbn [negb]. unfold update_user_spending.
  rewrite (proj2 (Z.ltb_lt _ _) Hpos).
  unfold update_users. cbn [users billing_records with_billing_records].
  rewrite Hold. unfold users_updated_row, spending_update.
  cbn [assign_cast set_users_email set_users_name set_users_hashed_password
       set_users_credits set_users_total_spent mbind result_bind].
  rewrite Ht. cbn [fmap option_fmap option_map numeric_cast_null].
  unfold numeric_cast. rewrite rescale_total_spent_add.
  assert ((Z.abs (round_half_away (total_spent * 100 + billing_amount row) 100)
           <? 10 ^ 10) = false) as ->; [|reflexivity].
  apply Z.ltb_ge. lia.
Qed.

(** An account that has spent 99999999.99 cannot be charged another
    cent. *)
Lemma entry_is_refused_when_total_spent_overflows_witness :
  exists row old,
    billing_inserted_row 10 one_cent = Ok row /\
    users big_spender !! 1%N = Some old /\
    users_total_spent old = Some 9999999999 /\ billing_amount row = 100 /\
    insert_billing_records 10 one_cent big_spender = Err numeric_value_out_of_range /\
    billing_records (commit (insert_billing_records 10 one_cent big_spender) big_spender)
    = [].
Proof.
  assert (billing_inserted_row 10 one_cent
          = Ok {| billing_id := 1%N; billing_user_id := 1%N; billing_vm_id := None;
                  billing_action_type := "vm_usage"; billing_amount := 100;
                  billing_description := None; billing_created_at := Some 10 |})
    as Hrow by (vm_compute; reflexivity).
  assert (users big_spender !! 1%N
          = Some (default signed_up_row (users big_spender !! 1%N))) as Hold
    by (vm_compute; reflexivity).
  destruct (entry_is_refused_when_total_spent_overflows 10 one_cent big_spender
              _ _ 9999999999 Hrow eq_refl Hold I) as [Herr Hsame];
    [vm_compute; reflexivity|reflexivity|vm_compute; discriminate|].
  eexists. eexists. split; [exact Hrow|]. split; [exact Hold|].
  split; [vm_compute; reflexivity|]. split; [reflexivity|].
  split; [exact Herr|]. rewrite Hsame. vm_compute. reflexivity.
Defined.

(** ** The API client *)

(** X13: a token survives a reload of the page, unless it is empty or
    spells [undefined] or [null]. In a browser, the client constructed
    after [setToken] holds the token again; for the three excluded strings
    it holds [null]. Until then every request carries the token as
    [Authorization: Bearer ...], whatever headers the caller passes. *)
Theorem token_survives_a_reload b t p items options_headers :
  localStorage p = Some items ->
  token (new_ZentryAPI b (localStorage (setToken t p)))
  = (if bool_decide (t ∈ [""; "undefined"; "null"]) then None else Some t) /\
  request_headers (api (setToken t p)) options_headers !! "Authorization"
  = (if String.eqb t "" then options_headers !! "Authorization"
     else Some ("Bearer " ++ t)).
Proof.
  intros Hls. split; [by eapply token_after_reload|].
  rewrite request_headers_lookup. cbn.
  destruct (String.eqb t ""); cbn; [|reflexivity].
  by destruct (options_headers !! "Authorization").
Qed.

(** The token [abc] is read back after a reload, the token [null] is
    not. *)
Lemma token_survives_a_reload_witness :
  localStorage visited_page = Some {[ "theme" := "dark" ]} /\
  token (new_ZentryAPI "http://localhost:8001" (localStorage (setToken "abc" visited_page)))
  = Some "abc" /\
  token (new_ZentryAPI "http://localhost:8001" (localStorage (setToken "null" visited_page)))
  = None /\
  request_headers (api (setToken "abc" visited_page)) {[ "Authorization" := "Basic x" ]}
    !! "Authorization" = Some "Bearer abc".
Proof.
  split; [reflexivity|].
  split; [exact (proj1 (token_survives_a_reload "http://localhost:8001" "abc"
                          visited_page _ ∅ eq_refl))|].
  split; [exact (proj1 (token_survives_a_reload "http://localhost:8001" "null"
                          visited_page _ ∅ eq_refl))|].
  exact (proj2 (token_survives_a_reload "http://localhost:8001" "abc"
                  visited_page _ {[ "Authorization" := "Basic x" ]} eq_refl)).
Defined.

(** X14: [logout] forgets the session. The client is no longer
    authenticated, and neither is a client constructed after a reload;
    [getStoredUser] finds no user; requests carry no [Authorization] header
    but the caller's; of [localStorage] exactly the keys [zentry_token] and
    [zentry_user] are removed. *)
Theorem logout_forgets_the_session b p :
  isAuthenticated (api (logout p)) = false /\
  isAuthenticated (new_ZentryAPI b (localStorage (logout p))) = false /\
  (forall User (JSON_parse : string -> option User),
     (getStoredUser User JSON_parse (logout p)).1 = None) /\
  (forall options_headers,
     request_headers (api (logout p)) options_headers !! "Authorization"
     = options_headers !! "Authorization") /\
  (forall items key, localStorage p = Some items ->
     localStorage (logout p) ≫= (fun items' => items' !! key)
     = if bool_decide (key ∈ ["zentry_token"; "zentry_user"]) then None
       else items !! key).
Proof.
  split; [reflexivity|]. split; [|split; [|split]].
  - unfold isAuthenticated. by rewrite logout_reload.
  - intros User JSON_parse. unfold getStoredUser, logout, clearToken. cbn.
    destruct (localStorage p) as [items|]; [|reflexivity]. cbn.
    by rewrite lookup_delete_eq.
  - intros options_headers. rewrite request_headers_lookup. cbn.
    by destruct (options_headers !! "Authorization").
  - intros items key. apply logout_storage.
Qed.

(** X15: a login is remembered. In a browser, after [signup] or [login]
    stored the response of the server, [getStoredUser] returns the user of
    the response and changes nothing, provided the stored text parses back
    to the user; a user stored as the text [undefined] or [null] is not
    returned. The client is authenticated unless the token is empty, and
    after a reload unless the token is empty, [undefined] or [null]. *)
Theorem login_is_remembered User (JSON_stringify : User -> string)
    (JSON_parse : string -> option User) access_token user p items :
  localStorage p = Some items ->
  JSON_parse (JSON_stringify user) = Some user ->
  let p' := signed_in User JSON_stringify access_token user p in
  getStoredUser User JSON_parse p'
  = (if stored (Some (JSON_stringify user)) then Some user else None, p') /\
  isAuthenticated (api p') = negb (String.eqb access_token "") /\
  (forall b, isAuthenticated (new_ZentryAPI b (localStorage p'))
             = negb (bool_decide (access_token ∈ [""; "undefined"; "null"]))).
Proof.
  intros Hls Hparse p'. split; [|split; [reflexivity|]].
  - unfold getStoredUser, p', signed_in, setToken. rewrite Hls. cbn.
    rewrite lookup_insert_eq. unfold default, from_option, id.
    destruct (stored _); [|reflexivity]. by rewrite Hparse.
  - intros b. unfold isAuthenticated, new_ZentryAPI, p', signed_in, setToken.
    rewrite Hls. cbn. rewrite lookup_insert_ne by discriminate.
    rewrite lookup_insert_eq, stored_Some.
    case_bool_decide as Hin; [reflexivity|]. cbn.
    destruct (String.eqb_spec access_token "") as [->|]; [|reflexivity].
    exfalso. apply Hin. apply list_elem_of_here.
Qed.

Lemma login_is_remembered_witness :
  let p' := signed_in bool sample_stringify "abc" true visited_page in
  localStorage visited_page = Some {[ "theme" := "dark" ]} /\
  sample_parse (sample_stringify true) = Some true /\
  getStoredUser bool sample_parse p' = (Some true, p') /\
  isAuthenticated (api p') = true.
Proof.
  intros p'. split; [reflexivity|]. split; [reflexivity|].
  destruct (login_is_remembered bool sample_stringify sample_parse "abc" true
              visited_page _ eq_refl eq_refl) as (H1 & H2 & _).
  split; [exact H1|exact H2].
Defined.

(** X16: [getStoredUser] leaves no corrupt entry behind. After a call,
    the [zentry_user] entry that is left, if it is one the function would
    parse, does parse; and a second call returns what the first returned
    and changes nothing. *)
Theorem getStoredUser_removes_what_it_cannot_parse User (JSON_parse : string -> option User)
    p :
  let first := getStoredUser User JSON_parse p in
  getStoredUser User JSON_parse first.2 = first /\
  (forall items, localStorage first.2 = Some items ->
     stored (items !! "zentry_user") = true ->
     is_Some (JSON_parse (default "" (items !! "zentry_user")))).
Proof.
  intros first. split.
  - apply getStoredUser_again.
  - intros items. unfold first, getStoredUser.
    destruct (localStorage p) as [items0|] eqn:Hls; [|cbn [snd]; by rewrite Hls].
    destruct (stored (items0 !! _)) eqn:Hs.
    + destruct (JSON_parse _) eqn:Hp; cbn [snd localStorage].
      * rewrite Hls. intros [= <-] _. rewrite Hp. eauto.
      * intros [= <-]. by rewrite lookup_delete_eq.
    + cbn [snd]. rewrite Hls. intros [= <-]. congruence.
Qed.

(** ** The dashboards *)

(** X17: the VM count on the Projects tab is at most one. The tab counts
    the VMs whose own [id] equals the project's [id]; when the listed VMs
    have distinct ids, no project is shown with more than one VM, however
    many VMs belong to it. *)
Theorem a_project_shows_at_most_one_vm vms project :
  NoDup (VM_id <$> vms) -> (project_vm_count vms project <= 1)%nat.
Proof. apply project_vm_count_unique. Qed.

(** With the VMs 7 and 9 listed, project 7 is shown with one VM and
    project 8 with none. *)
Lemma a_project_shows_at_most_one_vm_witness :
  let vms := [listed_vm 7 "running"; listed_vm 9 "stopped"] in
  NoDup (VM_id <$> vms) /\
  project_vm_count vms (listed_project 7) = 1%nat /\
  project_vm_count vms (listed_project 8) = 0%nat /\
  (project_vm_count vms (listed_project 7) <= 1)%nat.
Proof.
  intros vms.
  assert (NoDup (VM_id <$> vms)) as Hnd
    by (apply (bool_decide_unpack _); vm_compute; exact I).
  split; [exact Hnd|]. do 2 (split; [reflexivity|]).
  exact (a_project_shows_at_most_one_vm vms (listed_project 7) Hnd).
Defined.

(** X18: the metrics shown for a VM are the ones fetched for it. When the
    listed VMs have distinct ids, [vmMetrics[vm.id]] after [loadData] is,
    for each of them, what [getVMMetrics] gave for that VM ([null] where
    the request failed), and no other key is set, in both dashboards. With
    no VM listed [EnhancedDashboard] sets the empty object, while
    [Dashboard] leaves [vmMetrics] as it was, with the metrics of VMs that
    are gone. *)
Theorem metrics_are_shown_for_their_vm Metrics (fetched : list (VM * option Metrics))
    vmMetrics vm metrics :
  NoDup ((fun r : VM * option Metrics => VM_id r.1) <$> fetched) ->
  (vm, metrics) ∈ fetched ->
  metricsMap Metrics fetched !! VM_id vm = Some metrics /\
  loadData_vmMetrics Metrics vmMetrics fetched !! VM_id vm = Some metrics /\
  (forall key, is_Some (metricsMap Metrics fetched !! key) ->
     exists r, r ∈ fetched /\ VM_id r.1 = key) /\
  (forall key, is_Some (loadData_vmMetrics Metrics vmMetrics fetched !! key) ->
     exists r, r ∈ fetched /\ VM_id r.1 = key) /\
  metricsMap Metrics [] = ∅ /\
  loadData_vmMetrics Metrics vmMetrics [] = vmMetrics.
Proof.
  intros Hnd Hin.
  assert (Hl : foldl (fun acc curr : gmap Z (option Metrics) => curr ∪ acc) ∅
                 ((fun r : VM * option Metrics => {[ VM_id r.1 := r.2 ]}) <$> fetched)
               !! VM_id vm = Some metrics).
  { rewrite merged_lookup.
    pose proof (last_filter_unique Metrics fetched (vm, metrics) Hnd Hin) as Hlast.
    cbn [fst] in Hlast. by rewrite Hlast. }
  assert (Hkeys : forall key, is_Some (metricsMap Metrics fetched !! key) ->
                    exists r, r ∈ fetched /\ VM_id r.1 = key).
  { intros key. unfold metricsMap. rewrite merged_lookup.
    destruct (last _) as [r|] eqn:E; [|rewrite lookup_empty; by intros [? ?]].
    intros _. exists r. apply last_Some_elem_of, list_elem_of_In, filter_In in E as [E1 E2].
    split; [by apply list_elem_of_In|by apply Z.eqb_eq]. }
  assert (Hsame : loadData_vmMetrics Metrics vmMetrics fetched = metricsMap Metrics fetched).
  { unfold loadData_vmMetrics. destruct fetched; [by apply elem_of_nil in Hin|].
    reflexivity. }
  split; [exact Hl|]. split; [rewrite Hsame; exact Hl|]. split; [exact Hkeys|].
  split; [rewrite Hsame; exact Hkeys|]. split; reflexivity.
Qed.

(** The metrics of VM 7 arrive, those of VM 9 do not. Once no VM is
    listed, [Dashboard] still holds the metrics of VM 7. *)
Lemma metrics_are_shown_for_their_vm_witness :
  let fetched := [(listed_vm 7 "running", Some 12); (listed_vm 9 "stopped", None)] in
  NoDup ((fun r : VM * option Z => VM_id r.1) <$> fetched) /\
  metricsMap Z fetched !! 7 = Some (Some 12) /\
  loadData_vmMetrics Z ∅ fetched !! 9 = Some None /\
  metricsMap Z fetched !! 8 = None /\
  loadData_vmMetrics Z (metricsMap Z fetched) [] !! 7 = Some (Some 12).
Proof.
  intros fetched.
  assert (NoDup ((fun r : VM * option Z => VM_id r.1) <$> fetched)) as Hnd
    by (apply (bool_decide_unpack _); vm_compute; exact I).
  split; [exact Hnd|].
  split; [exact (proj1 (metrics_are_shown_for_their_vm Z fetched ∅
                          (listed_vm 7 "running") (Some 12) Hnd
                          ltac:(apply list_elem_of_here)))|].
  split; [|split; vm_compute; reflexivity].
  refine (proj1 (proj2 (metrics_are_shown_for_their_vm Z fetched ∅
                          (listed_vm 9 "stopped") None Hnd _))).
  apply list_elem_of_further, list_elem_of_here.
Defined.

(** X19: Previous never leads below page 1, but nothing holds Next back.
    [Button] takes no [disabled] and passes none on, so every click runs
    its handler. After any clicks from page 1 the page is at least 1, and
    "Showing from to to of total" has [1 <= from] and [to <= total]; but
    [from <= to] only while the page does not lie beyond the entries, and
    from every page further clicks on Next lead beyond them. The range
    stays within the entries as long as no click is made where the
    [disabled] condition of the button holds. *)
Theorem next_leads_beyond_the_last_page total clicks :
  let historyPage := after_clicks clicks 1 in
  1 <= historyPage /\
  1 <= showing_from historyPage /\
  showing_to historyPage total <= total /\
  (showing_from historyPage <= showing_to historyPage total
   <-> (historyPage - 1) * 10 < total) /\
  after_clicks (clicks ++ [Next]) 1 = historyPage + 1 /\
  (exists more,
     Forall (eq Next) more /\
     showing_to (after_clicks (clicks ++ more) 1) total
     < showing_from (after_clicks (clicks ++ more) 1)) /\
  (1 <= total -> enabled_clicks total clicks 1 = true ->
   showing_from historyPage <= showing_to historyPage total /\
   showing_to historyPage total - showing_from historyPage < 10).
Proof.
  intros historyPage.
  assert (1 <= historyPage) as Hp by (apply after_clicks_positive; lia).
  split; [exact Hp|]. unfold showing_from, showing_to.
  split; [lia|]. split; [lia|]. split; [lia|].
  split; [unfold historyPage, after_clicks; by rewrite foldl_app|].
  split.
  - exists (repeat Next (Z.to_nat (Z.max 0 total) + 1)).
    split; [apply Forall_forall; intros b Hb; by apply list_elem_of_In, repeat_spec in Hb|].
    rewrite (after_clicks_next clicks (Z.to_nat (Z.max 0 total) + 1) 1).
    fold historyPage. lia.
  - intros Ht He.
    destruct (enabled_clicks_in_range total clicks 1 He) as [H1 H2]; [lia|].
    fold historyPage in H1, H2. lia.
Qed.

(** With 25 entries, two clicks on Next lead to page 3, where Next is
    marked disabled, and a third to page 4, which shows
    "31 to 25 of 25". *)
Lemma next_leads_beyond_the_last_page_witness :
  let clicks := [Next; Next] in
  after_clicks clicks 1 = 3 /\
  (showing_from 3, showing_to 3 25) = (21, 25) /\
  next_disabled 3 25 = true /\
  after_clicks (clicks ++ [Next]) 1 = 4 /\
  (showing_from 4, showing_to 4 25) = (31, 25).
Proof.
  intros clicks. split; [reflexivity|]. split; [reflexivity|].
  split; [reflexivity|]. split; [|reflexivity].
  destruct (next_leads_beyond_the_last_page 25 clicks) as (_ & _ & _ & _ & H & _).
  exact H.
Defined.

(** ** The pricing calculator *)

(** X20: the calculator quotes what the database charges. Every VM that a
    history stores has a class that [vmPricing] of the calculator lists,
    and the hourly rate listed for it is the [cost_per_hour] that
    [update_vm_costs] stored. *)
Theorem calculator_quotes_the_stored_rate history id r :
  vms (run history empty_database) !! id = Some r ->
  exists rate,
    hourlyRate (vms_instance_type r) = Some rate /\
    vms_cost_per_hour r = Some (rescale 4 rate).
Proof.
  intros Hr.
  destruct (costs_accrued_everywhere history id r Hr) as (c & Hin & Hc & _).
  rewrite Hc. unfold pricing in Hin. simpl in Hin.
  destruct Hin as [[= <- <-]|[[= <- <-]|[[= <- <-]|[[= <- <-]|[]]]]];
    eexists; (split; [vm_compute; reflexivity|reflexivity]).
Qed.

(** The small VM of the sample is quoted and charged 0.05 an hour. *)
Lemma calculator_quotes_the_stored_rate_witness :
  exists r rate,
    vms (run two_hours_small empty_database) !! 3%N = Some r /\
    vms_instance_type r = "small" /\
    hourlyRate (vms_instance_type r) = Some rate /\
    rate = {| unscaled := 5; scale := 2 |} /\
    vms_cost_per_hour r = Some 500.
Proof.
  assert (vms (run two_hours_small empty_database) !! 3%N
          = Some (default (sample_new_row "" None)
                    (vms (run two_hours_small empty_database) !! 3%N))) as Hr
    by (vm_compute; reflexivity).
  destruct (calculator_quotes_the_stored_rate two_hours_small 3%N _ Hr)
    as (rate & Hrate & Hc).
  eexists. exists rate. split; [exact Hr|].
  assert (rate = {| unscaled := 5; scale := 2 |}) as E
    by (vm_compute in Hrate; congruence).
  split; [vm_compute; reflexivity|]. split; [exact Hrate|]. split; [exact E|].
  rewrite Hc, E. reflexivity.
Defined.

(** X21: the calculator shows exact amounts. For each of the four VM
    types and every position of the sliders, the Hourly, Daily, Monthly and
    Yearly amounts, computed in floating point and written by [toFixed(2)],
    are the digits of the exact decimal products of the price, the number
    of VMs, the hours, the days and 12: no rounding error of the doubles
    reaches the second decimal. *)
Theorem calculator_amounts_are_exact vmType rate vmCount hoursPerDay daysPerMonth :
  In (vmType, rate) vmPricing ->
  1 <= vmCount <= 10 -> 1 <= hoursPerDay <= 24 -> 1 <= daysPerMonth <= 31 ->
  let cents := rescale 2 rate in
  let c := PricingCalculator.number vmCount in
  let h := PricingCalculator.number hoursPerDay in
  let d := PricingCalculator.number daysPerMonth in
  PricingCalculator.toFixed_2 (PricingCalculator.hourlyCost vmType c)
  = Some (PricingCalculator.digits_2 (cents * vmCount)) /\
  PricingCalculator.toFixed_2 (PricingCalculator.dailyCost vmType c h)
  = Some (PricingCalculator.digits_2 (cents * vmCount * hoursPerDay)) /\
  PricingCalculator.toFixed_2 (PricingCalculator.monthlyCost vmType c h d)
  = Some (PricingCalculator.digits_2 (cents * vmCount * hoursPerDay * daysPerMonth)) /\
  PricingCalculator.toFixed_2 (PricingCalculator.yearlyCost vmType c h d)
  = Some (PricingCalculator.digits_2
            (cents * vmCount * hoursPerDay * daysPerMonth * 12)).
Proof.
  intros Hin Hc Hh Hd cents c h d.
  pose proof every_price_shown_exactly as H. rewrite forallb_forall in H.
  specialize (H _ Hin). cbn [fst snd] in H. fold cents in H.
  apply (every_position_spec _ vmCount hoursPerDay daysPerMonth) in H; try assumption.
  cbv zeta in H. fold c h d in H.
  apply andb_prop in H as [H Hy]. apply andb_prop in H as [H Hm].
  apply andb_prop in H as [Hhour Hday].
  repeat split; by apply toFixed_2_shows.
Qed.

(** The calculator as it opens: one small VM, 8 hours a day, 22 days a
    month. *)
Lemma calculator_amounts_are_exact_witness :
  let c := PricingCalculator.number 1 in
  let h := PricingCalculator.number 8 in
  let d := PricingCalculator.number 22 in
  In ("small", {| unscaled := 5; scale := 2 |}) vmPricing /\
  PricingCalculator.toFixed_2 (PricingCalculator.hourlyCost "small" c) = Some "0.05" /\
  PricingCalculator.toFixed_2 (PricingCalculator.dailyCost "small" c h) = Some "0.40" /\
  PricingCalculator.toFixed_2 (PricingCalculator.monthlyCost "small" c h d)
  = Some "8.80" /\
  PricingCalculator.toFixed_2 (PricingCalculator.yearlyCost "small" c h d)
  = Some "105.60".
Proof.
  intros c h d.
  assert (In ("small", {| unscaled := 5; scale := 2 |}) vmPricing) as Hin
    by (left; reflexivity).
  split; [exact Hin|].
  exact (calculator_amounts_are_exact "small" _ 1 8 22 Hin
           ltac:(lia) ltac:(lia) ltac:(lia)).
Defined.

(** ** The trigger [update_user_spending] over a history *)

(** X22: [total_spent] replays the ledger. At every point of a history
    that leaves [total_spent] to the trigger [update_user_spending], the
    [total_spent] column of an account equals its initial value replayed
    over the entries appended since, each positive amount added and the sum
    rounded to two decimals; the trigger never writes the balance column. *)
Theorem total_spent_replays_the_ledger history db account old :
  every_statement leaves_total_spent history = true ->
  users db !! account = Some old ->
  exists new,
    users (run history db) !! account = Some new /\
    users_total_spent new
    = spending_from_ledger account
        (drop (length (billing_records db)) (billing_records (run history db)))
        (users_total_spent old) /\
    (every_statement appends_entry history = true ->
     users_credits new = users_credits old).
Proof.
  intros Hs Hold.
  destruct (run_ledger history db account old Hs Hold)
    as (new & appended & Hnew & Hl & Ht & Hc).
  exists new. rewrite Hl, drop_app_length. auto.
Qed.

(** After a usage charge of 0.0165 and a top-up of 10 credits
    [total_spent] reads 10.02 and the balance is still 50.00. *)
Lemma total_spent_replays_the_ledger_witness :
  exists new,
    users (run usage_then_top_up signed_up) !! 1%N = Some new /\
    users_total_spent new = Some 1002 /\ users_credits new = Some 5000.
Proof.
  destruct (total_spent_replays_the_ledger usage_then_top_up signed_up 1%N
              signed_up_row eq_refl eq_refl) as (new & Hnew & Ht & Hc).
  exists new. split; [exact Hnew|]. split.
  - rewrite Ht. vm_compute. reflexivity.
  - rewrite (Hc eq_refl). reflexivity.
Defined.
